(** * Blink-and-vote: the biometric voting flow, embedded and verified

    The development follows the repository's React components and its
    schema:

    - [BlinkVerification]  the blink detector and the eye aspect ratio
    - [FaceVerification]   the face matcher
    - [FaceRegistration]   the three-pose enrollment
    - [VotingInterface]    the ballot
    - [Index]              the page that sequences the steps
    - [Store]              the tables of the SQL migration

    and, for each component, the screen it renders with the events that can
    happen to it once mounted: [VerificationScreen], [RegistrationScreen],
    [VotingScreen], and [Page] for the page with the children it mounts.

    Line numbers in comments refer to the source files:
    BlinkVerification.tsx, FaceRegistration.tsx (which also holds the
    VotingInterface and FaceVerification components) and the Index page.

    JavaScript numbers are IEEE binary64 values, so they are embedded as
    Rocq's primitive floats; timestamps of [Date.now()] and counters are
    integers.

    A function component is re-run on every render, and a callback created
    during one render keeps reading the [const]s of that render.  Every
    callback below therefore takes two component states: the state of the
    render that created it (named [c], its closure) and the live state that
    the setters update (named [st]).

    An [async] callback runs until it returns or reaches an [await]; what
    it awaits settles later, and timers fire and buttons are clicked in
    between.  The face matcher, whose interval goes on firing while its
    callbacks wait, and the enrollment screen, whose "Start Over" and
    "Cancel" stay enabled while a capture is processed, are embedded with
    their suspended calls; a timer that a component has armed fires whether
    or not the component is still mounted. *)

From Stdlib Require Import ZArith List Bool String Ascii Lia Floats.
From stdpp Require Import base option list strings gmap.

Set Warnings "-inexact-float".
Local Open Scope Z_scope.

(** ** JavaScript numbers *)
Module JS.

Definition number := float.

(** [Math.pow(d, 2)], taken as the correctly rounded square. *)
Definition pow2 (d : number) : number := (d * d)%float.

(** [Math.sqrt]. *)
Definition sqrt (d : number) : number := PrimFloat.sqrt d.

Definition isNaN (d : number) : bool := negb (d =? d)%float.

(** [a < b] on numbers: false as soon as one side is NaN. *)
Definition lt (a b : number) : bool := (a <? b)%float.

(** Storing a number into a [Float32Array] and reading it back
    ([Math.fround]): rounding to the nearest binary32 value, ties to even. *)
Definition fround (d : number) : number :=
  match Prim2SF d with
  | S754_finite s m e => SF2Prim (binary_round 24 128 s m e)
  | _ => d
  end.

(** A length or counter used as a number. *)
Definition ofNat (n : nat) : number := PrimFloat.of_uint63 (Uint63.of_Z (Z.of_nat n)).

End JS.

(** ** face-api.js *)
Module FaceApi.

(** Modelled from the spec: [embeddingDistance(a, b)] of section 4.1, the
    [faceapi.euclideanDistance] of face-api.js, which is not part of the
    repository: the Euclidean distance of two vectors of equal length, an
    error ([None]) when the lengths differ. *)
Definition euclideanDistance (a b : list JS.number) : option JS.number :=
  if Nat.eqb (length a) (length b)
  then Some (JS.sqrt (foldl (fun res diff => (res + JS.pow2 diff)%float) 0%float
                            (zip_with (fun u v => (u - v)%float) a b)))
  else None.

End FaceApi.

(** ** The tables of the SQL migration *)
Module Store.

(** [public.profiles]; [face_descriptor] and [face_image_url] are nullable,
    [is_verified] defaults to FALSE. *)
Module Profile.
Record t := mk {
  user_id : string;
  email : string;
  full_name : option string;
  face_descriptor : option (list JS.number);
  face_image_url : option string;
  is_verified : bool
}.
End Profile.

(** [public.votes]. *)
Module Vote.
Record t := mk {
  user_id : string;
  election_id : string;
  selected_option : string;
  face_verified : bool;
  blink_verified : bool;
  ip_address : string;
  user_agent : string
}.
End Vote.

(** [public.audit_logs]; [details] is the JSON object the caller builds. *)
Module AuditLog.
Inductive Details :=
| FaceRegistered (success : bool) (steps : Z) (avgAccuracy : Z)
| VerificationFailed (reason : string)
| VerificationSuccess (distance threshold : JS.number) (attempts : Z)
| VoteSubmitted (election_id election_title selected_option : string).
Record t := mk {
  user_id : string;
  action : string;
  details : Details
}.
End AuditLog.

(** [profiles.user_id] is UNIQUE, so the table is a map from it. *)
Record DB := mkDB {
  profiles : gmap string Profile.t;
  votes : list Vote.t;
  audit_logs : list AuditLog.t
}.

Definition empty : DB := mkDB ∅ [] [].

Definition insert_audit (row : AuditLog.t) (db : DB) : DB :=
  mkDB (profiles db) (votes db) (audit_logs db ++ [row]).

(** The key of [UNIQUE(user_id, election_id)] on [public.votes]. *)
Definition vote_key (v : Vote.t) : string * string :=
  (Vote.user_id v, Vote.election_id v).

Definition same_key (a b : Vote.t) : bool :=
  String.eqb (Vote.user_id a) (Vote.user_id b) &&
  String.eqb (Vote.election_id a) (Vote.election_id b).

(** SQLSTATE of a unique-constraint violation. *)
Definition unique_violation : string := "23505".

(** SQLSTATE of a text that the type of its column does not accept. *)
Definition invalid_text_representation : string := "22P02".

(** Texts that a column of type INET takes.  PostgreSQL is not part of the
    repository; these are the forms its documentation gives for the type: an
    IPv4 address of four decimal octets or an IPv6 address of colon-separated
    hexadecimal groups (with at most one [::]), optionally followed by [/]
    and the number of bits of the netmask. *)
Module Inet.

Fixpoint splitOn (sep : ascii) (s : string) : list string :=
  match s with
  | EmptyString => [EmptyString]
  | String c rest =>
    if Ascii.eqb c sep then EmptyString :: splitOn sep rest
    else match splitOn sep rest with
         | [] => [String c EmptyString]
         | g :: gs => String c g :: gs
         end
  end.

Definition isDigit (c : ascii) : bool :=
  let n := nat_of_ascii c in (48 <=? n)%nat && (n <=? 57)%nat.

Definition isHexDigit (c : ascii) : bool :=
  let n := nat_of_ascii c in
  isDigit c || ((65 <=? n)%nat && (n <=? 70)%nat) || ((97 <=? n)%nat && (n <=? 102)%nat).

Fixpoint allChars (f : ascii -> bool) (s : string) : bool :=
  match s with
  | EmptyString => true
  | String c rest => f c && allChars f rest
  end.

Fixpoint decimal (acc : nat) (s : string) : nat :=
  match s with
  | EmptyString => acc
  | String c rest => decimal (10 * acc + (nat_of_ascii c - 48)) rest
  end.

(** A decimal number of one to three digits without a leading zero, at most
    [max]. *)
Definition upTo (max : nat) (s : string) : bool :=
  (1 <=? String.length s)%nat && (String.length s <=? 3)%nat &&
  allChars isDigit s && (decimal 0 s <=? max)%nat &&
  match s with
  | String "0" (String _ _) => false
  | _ => true
  end.

Definition ipv4 (s : string) : bool :=
  match splitOn "." s with
  | [a; b; c; d] => upTo 255 a && upTo 255 b && upTo 255 c && upTo 255 d
  | _ => false
  end.

Definition hexGroup (s : string) : bool :=
  (1 <=? String.length s)%nat && (String.length s <=? 4)%nat && allChars isHexDigit s.

Definition isEmpty (s : string) : bool := String.eqb s "".

(** An empty group at an end of the address must be half of a [::]. *)
Definition endOk (groups : list string) : bool :=
  match groups with
  | g :: g' :: _ => negb (isEmpty g) || isEmpty g'
  | [g] => negb (isEmpty g)
  | [] => false
  end.

Definition ipv6 (s : string) : bool :=
  let groups := splitOn ":" s in
  let ends := endOk groups && endOk (rev groups) in
  let groups :=
    match groups with
    | g :: g' :: rest => if isEmpty g && isEmpty g' then g :: rest else groups
    | _ => groups
    end in
  let groups :=
    match rev groups with
    | g :: g' :: rest => if isEmpty g && isEmpty g' then rev (g :: rest) else groups
    | _ => groups
    end in
  let gaps := length (List.filter isEmpty groups) in
  let full := List.filter (fun g => negb (isEmpty g)) groups in
  ends && forallb hexGroup full &&
  match gaps with
  | 0%nat => Nat.eqb (length full) 8
  | 1%nat => (length full <=? 7)%nat
  | _ => false
  end.

Definition accepts (s : string) : bool :=
  match splitOn "/" s with
  | [a] => ipv4 a || ipv6 a
  | [a; n] => (ipv4 a && upTo 32 n) || (ipv6 a && upTo 128 n)
  | _ => false
  end.

End Inet.

(** [votes.ip_address] is of type INET. *)
Definition inet (s : string) : bool := Inet.accepts s.

(** What ends an insert into [votes] before the constraints of the table are
    looked at: an error that has nothing to do with the row ([outer]: the
    network, a policy), else 22P02 when the text sent as [ip_address] is not
    an INET (l.40). *)
Definition vote_fault (outer : option string) (ip_address : string) : option string :=
  match outer with
  | Some code => Some code
  | None => if inet ip_address then None else Some invalid_text_representation
  end.

(** [insert] into [public.votes].  [fault] is the error, if any, that ends
    the request before the constraints of the table are looked at (for the
    request of [submitVote] it is [vote_fault]); without one the row is
    appended unless a row with its key exists, which is refused with
    23505. *)
Definition insert_vote (fault : option string) (row : Vote.t) (db : DB)
    : DB * option string :=
  match fault with
  | Some code => (db, Some code)
  | None =>
    if existsb (same_key row) (votes db)
    then (db, Some unique_violation)
    else (mkDB (profiles db) (votes db ++ [row]) (audit_logs db), None)
  end.

(** Modelled from the spec: the profile store's [upsertProfile(userId, fields)]
    of section 6 (the Supabase client is not part of the repository): the row
    of [user_id] takes the given fields and keeps its other columns; it is
    created when absent. *)
Definition upsert_profile (user_id email : string)
    (face_descriptor : list JS.number) (face_image_url : string)
    (is_verified : bool) (db : DB) : DB :=
  let full_name :=
    match profiles db !! user_id with
    | Some old => Profile.full_name old
    | None => None
    end in
  mkDB (<[user_id := Profile.mk user_id email full_name (Some face_descriptor)
                       (Some face_image_url) is_verified]> (profiles db))
       (votes db) (audit_logs db).

(** [insert] into [public.profiles] as [loadUserProfile] issues it: the other
    columns take their defaults, and [user_id] is UNIQUE.  [fault] is an
    error of the store that has nothing to do with the row. *)
Definition insert_profile (fault : bool) (user_id email full_name : string) (db : DB)
    : DB * bool :=
  if fault then (db, true) else
  match profiles db !! user_id with
  | Some _ => (db, true)
  | None =>
    (mkDB (<[user_id := Profile.mk user_id email (Some full_name) None None false]>
             (profiles db))
          (votes db) (audit_logs db), false)
  end.

End Store.

(** ** BlinkVerification.tsx *)
Module BlinkVerification.

(** [faceapi.Point]. *)
Record Point := mkPoint { x : JS.number; y : JS.number }.

(** What [detectSingleFace(...).withFaceLandmarks()] resolves to when a face
    is found: the two eye contours read by the callback. *)
Record Detection := mkDetection { getLeftEye : list Point; getRightEye : list Point }.

Inductive Status := waiting | detecting | completed | failed.

Definition Status_eqb (a b : Status) : bool :=
  match a, b with
  | waiting, waiting | detecting, detecting
  | completed, completed | failed, failed => true
  | _, _ => false
  end.

(** The [useState] cells of the component (lines 18-23). *)
Record State := mkState {
  isLoading : bool;
  isActive : bool;
  blinkCount : Z;
  isEyeClosed : bool;
  lastBlinkTime : Z;
  status : Status
}.

Definition initialState : State := mkState true false 0 false 0 waiting.

Definition setIsLoading (b : bool) (s : State) : State :=
  mkState b (isActive s) (blinkCount s) (isEyeClosed s) (lastBlinkTime s) (status s).
Definition setIsActive (b : bool) (s : State) : State :=
  mkState (isLoading s) b (blinkCount s) (isEyeClosed s) (lastBlinkTime s) (status s).
Definition setBlinkCount (n : Z) (s : State) : State :=
  mkState (isLoading s) (isActive s) n (isEyeClosed s) (lastBlinkTime s) (status s).
Definition setIsEyeClosed (b : bool) (s : State) : State :=
  mkState (isLoading s) (isActive s) (blinkCount s) b (lastBlinkTime s) (status s).
Definition setLastBlinkTime (t : Z) (s : State) : State :=
  mkState (isLoading s) (isActive s) (blinkCount s) (isEyeClosed s) t (status s).
Definition setStatus (v : Status) (s : State) : State :=
  mkState (isLoading s) (isActive s) (blinkCount s) (isEyeClosed s) (lastBlinkTime s) v.

Definition requiredBlinks : Z := 3.

(** The messages handed to [toast]; [ToastBlink n] is
    [`Blink ${n} detected!`]. *)
Inductive Toast :=
| ToastModelsFailed
| ToastCameraDenied
| ToastBlink (n : Z)
| ToastSuccessful
| ToastTimedOut.

(** [blinkThreshold], line 102. *)
Definition blinkThreshold : JS.number := 0.25%float.

(** A running [setInterval]: its id, its period in ms, and the render whose
    callback it runs. *)
Record Interval := mkInterval {
  intervalId : nat;
  period : Z;
  closure : State
}.

(** An armed [setTimeout] of line 134: its delay in ms and the render whose
    callback it runs. *)
Record Timeout := mkTimeout {
  delay : Z;
  armedBy : State
}.

(** The component with what lives outside [useState]: the video element and
    its stream, [intervalRef], the timers that are armed, and what was shown
    and reported. *)
Record Comp := mkComp {
  st : State;
  videoRef : bool;                  (* videoRef.current is an element *)
  srcObject : bool;                 (* a camera stream is attached and live *)
  intervalRef : option nat;         (* intervalRef.current *)
  intervals : list Interval;        (* running setInterval timers *)
  nextTimer : nat;
  timeouts : list Timeout;          (* armed 30000ms timers *)
  settles : nat;                    (* armed 1000ms timers of line 115 *)
  toasts : list Toast;
  blinkCompletes : nat              (* calls of onBlinkComplete *)
}.

Definition withSt (f : State -> State) (k : Comp) : Comp :=
  mkComp (f (st k)) (videoRef k) (srcObject k) (intervalRef k) (intervals k)
         (nextTimer k) (timeouts k) (settles k) (toasts k) (blinkCompletes k).

Definition toast (msg : Toast) (k : Comp) : Comp :=
  mkComp (st k) (videoRef k) (srcObject k) (intervalRef k) (intervals k)
         (nextTimer k) (timeouts k) (settles k) (toasts k ++ [msg]) (blinkCompletes k).

(** [clearInterval(id)]. *)
Definition clearInterval (id : nat) (k : Comp) : Comp :=
  mkComp (st k) (videoRef k) (srcObject k) (intervalRef k)
         (filter (fun i => negb (Nat.eqb (intervalId i) id)) (intervals k))
         (nextTimer k) (timeouts k) (settles k) (toasts k) (blinkCompletes k).

(** [stopCamera]: lines 68-78. *)
Definition stopCamera (k : Comp) : Comp :=
  let k1 :=
    if videoRef k && srcObject k
    then mkComp (st k) (videoRef k) false (intervalRef k) (intervals k)
                (nextTimer k) (timeouts k) (settles k) (toasts k) (blinkCompletes k)
    else k in
  let k2 := withSt (setIsActive false) k1 in
  match intervalRef k2 with
  | Some id => clearInterval id k2
  | None => k2
  end.

(** [distance]: lines 154-156. *)
Definition distance (p1 p2 : Point) : JS.number :=
  JS.sqrt (JS.pow2 (x p2 - x p1) + JS.pow2 (y p2 - y p1))%float.

(** [calculateEAR]: lines 144-152.  Reading a field of [eye[i]] past the end
    of the array throws a TypeError, rendered as [None]. *)
Definition calculateEAR (eye : list Point) : option JS.number :=
  e1 ← eye !! 1%nat; e5 ← eye !! 5%nat;
  let A := distance e1 e5 in
  e2 ← eye !! 2%nat; e4 ← eye !! 4%nat;
  let B := distance e2 e4 in
  e0 ← eye !! 0%nat; e3 ← eye !! 3%nat;
  let C := distance e0 e3 in
  Some ((A + B) / (2.0 * C))%float.

(** Lines 105-127 of the interval callback, from the computed [avgEAR] on.
    [isEyeClosed], [lastBlinkTime] and [blinkCount] are the [const]s of the
    render [c] that called [startBlinkDetection]; only the updater passed to
    [setBlinkCount] sees the live count. *)
Definition onSample (c : State) (avgEAR : JS.number) (currentTime : Z) (k : Comp) : Comp :=
  if JS.lt avgEAR blinkThreshold then
    if negb (isEyeClosed c) && (currentTime - lastBlinkTime c >? 500)
    then withSt (setIsEyeClosed true) k
    else k
  else
    if isEyeClosed c && (currentTime - lastBlinkTime c >? 200) then
      let newCount := blinkCount (st k) + 1 in
      let k1 :=
        if newCount >=? requiredBlinks
        then
          let k' := withSt (setStatus completed) k in
          mkComp (st k') (videoRef k') (srcObject k') (intervalRef k') (intervals k')
                 (nextTimer k') (timeouts k') (S (settles k')) (toasts k') (blinkCompletes k')
        else k in
      let k2 := withSt (setBlinkCount newCount) k1 in
      let k3 := withSt (setLastBlinkTime currentTime) k2 in
      let k4 := withSt (setIsEyeClosed false) k3 in
      toast (ToastBlink (blinkCount c + 1)) k4
    else k.

(** The interval callback, lines 83-131.  [detection] is what the detector
    resolved to for the current frame; an exception inside [try] is caught and
    logged, which leaves the component as it was. *)
Definition intervalCallback (c : State) (detection : option Detection)
    (currentTime : Z) (k : Comp) : Comp :=
  if negb (videoRef k) || negb (isActive c) then k else
  match detection with
  | None => k
  | Some d =>
    match calculateEAR (getLeftEye d), calculateEAR (getRightEye d) with
    | Some leftEAR, Some rightEAR =>
      let avgEAR := ((leftEAR + rightEAR) / 2)%float in
      onSample c avgEAR currentTime k
    | _, _ => k
    end
  end.

(** The 30 second timer, lines 134-140. *)
Definition timeoutCallback (c : State) (k : Comp) : Comp :=
  if (blinkCount c <? requiredBlinks) && Status_eqb (status c) detecting
  then toast ToastTimedOut
         (stopCamera (withSt (setStatus failed) k))
  else k.

(** The 1000ms timer armed on completion, lines 115-119. *)
Definition settleCallback (k : Comp) : Comp :=
  let k1 := stopCamera k in
  toast ToastSuccessful
    (mkComp (st k1) (videoRef k1) (srcObject k1) (intervalRef k1) (intervals k1)
            (nextTimer k1) (timeouts k1) (settles k1) (toasts k1) (S (blinkCompletes k1))).

(** [startBlinkDetection]: lines 80-141, called from render [c]. *)
Definition startBlinkDetection (c : State) (k : Comp) : Comp :=
  let k1 := withSt (setStatus detecting) k in
  let id := nextTimer k1 in
  mkComp (st k1) (videoRef k1) (srcObject k1) (Some id)
         (intervals k1 ++ [mkInterval id 100 c])
         (S id) (timeouts k1 ++ [mkTimeout 30000 c])
         (settles k1) (toasts k1) (blinkCompletes k1).

(** [startCamera] once [getUserMedia] has settled: lines 52-66. *)
Definition startCamera (c : State) (granted : bool) (k : Comp) : Comp :=
  if granted then
    if videoRef k then
      let k1 := mkComp (st k) (videoRef k) true (intervalRef k) (intervals k)
                       (nextTimer k) (timeouts k) (settles k) (toasts k) (blinkCompletes k) in
      startBlinkDetection c (withSt (setIsActive true) k1)
    else k
  else toast ToastCameraDenied k.

(** [loadModels] once the models have settled: lines 37-50.  With
    [isLoading] false the component renders the video element. *)
Definition loadModels (loaded : bool) (k : Comp) : Comp :=
  if loaded then
    let k1 := withSt (setIsLoading false) k in
    mkComp (st k1) true (srcObject k1) (intervalRef k1) (intervals k1)
           (nextTimer k1) (timeouts k1) (settles k1) (toasts k1) (blinkCompletes k1)
  else toast ToastModelsFailed k.

(** The button of lines 243-252, clicked in the render showing [st k]. *)
Definition clickStart (k : Comp) : Comp :=
  let c := st k in
  startBlinkDetection c (withSt (setStatus waiting) (withSt (setBlinkCount 0) k)).

Definition mount : Comp := mkComp initialState false false None [] 0 [] 0 [] 0.

(** What can happen to a mounted component.  [loadModels] and [startCamera]
    run once, from the effect of the first render, so their closure is
    [initialState]; a click runs the handler of the render on screen. *)
Inductive Phase := Loading | AwaitingCamera | Settled.

Inductive Event :=
| ModelsSettle (loaded : bool)
| CameraSettles (granted : bool)
| IntervalFires (id : nat) (detection : option Detection) (currentTime : Z)
| TimeoutFires (n : nat)
| SettleFires
| ClickStart.

Definition buttonShown (k : Comp) : bool :=
  negb (isLoading (st k)) &&
  (Status_eqb (status (st k)) failed || Status_eqb (status (st k)) waiting).

Definition step (pk : Phase * Comp) (e : Event) : option (Phase * Comp) :=
  let '(p, k) := pk in
  match e with
  | ModelsSettle loaded =>
    match p with
    | Loading => Some (if loaded then AwaitingCamera else Settled, loadModels loaded k)
    | _ => None
    end
  | CameraSettles granted =>
    match p with
    | AwaitingCamera => Some (Settled, startCamera initialState granted k)
    | _ => None
    end
  | IntervalFires id detection currentTime =>
    match filter (fun i => Nat.eqb (intervalId i) id) (intervals k) with
    | i :: _ => Some (p, intervalCallback (closure i) detection currentTime k)
    | [] => None
    end
  | TimeoutFires n =>
    match timeouts k !! n with
    | Some t =>
      Some (p, timeoutCallback (armedBy t)
                 (mkComp (st k) (videoRef k) (srcObject k) (intervalRef k) (intervals k)
                         (nextTimer k) (take n (timeouts k) ++ drop (S n) (timeouts k))
                         (settles k) (toasts k) (blinkCompletes k)))
    | None => None
    end
  | SettleFires =>
    match settles k with
    | S n =>
      Some (p, settleCallback
                 (mkComp (st k) (videoRef k) (srcObject k) (intervalRef k) (intervals k)
                         (nextTimer k) (timeouts k) n (toasts k) (blinkCompletes k)))
    | O => None
    end
  | ClickStart => if buttonShown k then Some (p, clickStart k) else None
  end.

Fixpoint run (pk : Phase * Comp) (es : list Event) : option (Phase * Comp) :=
  match es with
  | [] => Some pk
  | e :: es' =>
    match step pk e with
    | Some pk' => run pk' es'
    | None => None
    end
  end.

End BlinkVerification.

(** ** The FaceVerification component *)
Module FaceVerification.
Import Store.

Inductive Status := waiting | verifying | success | failed.

(** The [useState] cells of the component. *)
Record State := mkState {
  isLoading : bool;
  isActive : bool;
  isVerifying : bool;
  storedDescriptor : option (list JS.number);
  verificationStatus : Status
}.

Definition setIsActive (b : bool) (s : State) : State :=
  mkState (isLoading s) b (isVerifying s) (storedDescriptor s) (verificationStatus s).
Definition setIsVerifying (b : bool) (s : State) : State :=
  mkState (isLoading s) (isActive s) b (storedDescriptor s) (verificationStatus s).
Definition setVerificationStatus (v : Status) (s : State) : State :=
  mkState (isLoading s) (isActive s) (isVerifying s) (storedDescriptor s) v.

(** [maxAttempts]: "5 seconds at 100ms intervals". *)
Definition maxAttempts : Z := 50.

(** [threshold]: "Lower = more strict". *)
Definition threshold : JS.number := 0.6%float.

Inductive Toast :=
| ToastCameraDenied
| ToastTimedOut
| ToastVerified.

(** A [setInterval] of [startVerification]: its period in ms, the [userId]
    and the state of the render it was started from, its own [let attempts],
    and whether it has not been cleared.  A cleared interval fires no more,
    but the calls of its callback that are suspended at an [await] still
    read its [attempts]. *)
Record Timer := mkTimer {
  timerId : nat;
  period : Z;
  owner : string;
  closure : State;
  attempts : Z;
  live : bool
}.

(** A call of the interval callback that is suspended at an [await]: the
    detection of a face in the frame (lines 826-829) in the callback of the
    interval [id], the insert of the timeout row (lines 811-815), the insert
    of the success row (lines 847-855). *)
Inductive Pending :=
| Detecting (id : nat)
| InsertingTimeout (row : AuditLog.t)
| InsertingSuccess (row : AuditLog.t).

Record Comp := mkComp {
  st : State;
  videoRef : bool;                 (* videoRef.current is an element *)
  srcObject : bool;                (* a camera stream is attached and live *)
  intervalRef : option nat;        (* intervalRef.current *)
  intervals : list Timer;          (* the setInterval timers, running or cleared *)
  nextTimer : nat;
  pending : list Pending;          (* suspended calls of the interval callback *)
  audit_logs : list AuditLog.t;    (* rows sent to audit_logs whose insert was answered *)
  toasts : list Toast;
  completions : nat;               (* armed 1500ms timers of line 858 *)
  reported : list bool             (* calls of onVerificationComplete *)
}.

Definition withSt (f : State -> State) (k : Comp) : Comp :=
  mkComp (f (st k)) (videoRef k) (srcObject k) (intervalRef k) (intervals k)
         (nextTimer k) (pending k) (audit_logs k) (toasts k) (completions k) (reported k).

Definition withIntervals (l : list Timer) (k : Comp) : Comp :=
  mkComp (st k) (videoRef k) (srcObject k) (intervalRef k) l
         (nextTimer k) (pending k) (audit_logs k) (toasts k) (completions k) (reported k).

Definition withPending (l : list Pending) (k : Comp) : Comp :=
  mkComp (st k) (videoRef k) (srcObject k) (intervalRef k) (intervals k)
         (nextTimer k) l (audit_logs k) (toasts k) (completions k) (reported k).

Definition toast (msg : Toast) (k : Comp) : Comp :=
  mkComp (st k) (videoRef k) (srcObject k) (intervalRef k) (intervals k)
         (nextTimer k) (pending k) (audit_logs k) (toasts k ++ [msg]) (completions k)
         (reported k).

Definition insertAudit (row : AuditLog.t) (k : Comp) : Comp :=
  mkComp (st k) (videoRef k) (srcObject k) (intervalRef k) (intervals k)
         (nextTimer k) (pending k) (audit_logs k ++ [row]) (toasts k) (completions k)
         (reported k).

Definition armCompletion (k : Comp) : Comp :=
  mkComp (st k) (videoRef k) (srcObject k) (intervalRef k) (intervals k)
         (nextTimer k) (pending k) (audit_logs k) (toasts k) (S (completions k))
         (reported k).

(** The callback reaches an [await] and is suspended there. *)
Definition await (p : Pending) (k : Comp) : Comp := withPending (pending k ++ [p]) k.

(** The suspended call [i] is resumed. *)
Definition resume (i : nat) (k : Comp) : Comp := withPending (delete i (pending k)) k.

Definition isTimer (id : nat) (t : Timer) : bool := Nat.eqb (timerId t) id.

Definition clearInterval (id : nat) (k : Comp) : Comp :=
  withIntervals
    (map (fun t => if isTimer id t
                   then mkTimer (timerId t) (period t) (owner t) (closure t) (attempts t) false
                   else t)
         (intervals k)) k.

(** [if (intervalRef.current) clearInterval(intervalRef.current)]. *)
Definition clearCurrent (k : Comp) : Comp :=
  match intervalRef k with
  | Some id => clearInterval id k
  | None => k
  end.

(** [attempts++] in the timer [id]. *)
Definition setAttempts (id : nat) (n : Z) (k : Comp) : Comp :=
  withIntervals
    (map (fun t => if isTimer id t
                   then mkTimer (timerId t) (period t) (owner t) (closure t) n (live t)
                   else t)
         (intervals k)) k.

(** The interval [id] has not been cleared. *)
Definition running (id : nat) (k : Comp) : bool :=
  existsb (fun t => isTimer id t && live t) (intervals k).

(** [stopCamera]: lines 783-793. *)
Definition stopCamera (k : Comp) : Comp :=
  let k1 :=
    if videoRef k && srcObject k
    then mkComp (st k) (videoRef k) false (intervalRef k) (intervals k)
                (nextTimer k) (pending k) (audit_logs k) (toasts k) (completions k)
                (reported k)
    else k in
  clearCurrent (withSt (setIsActive false) k1).

(** The row of lines 811-815. *)
Definition timeoutRow (userId : string) : AuditLog.t :=
  AuditLog.mk userId "FACE_VERIFICATION_FAILED" (AuditLog.VerificationFailed "timeout").

(** The row of lines 847-855. *)
Definition successRow (userId : string) (distance : JS.number) (attempts : Z) : AuditLog.t :=
  AuditLog.mk userId "FACE_VERIFICATION_SUCCESS"
              (AuditLog.VerificationSuccess distance threshold attempts).

(** The interval callback of [startVerification] for the timer [id], from
    its start to where it returns or is suspended: lines 803-829.  On a
    timeout the interval is not cleared here but after the insert has been
    answered, so it goes on firing until then. *)
Definition intervalCallback (id : nat) (k : Comp) : Comp :=
  match find (isTimer id) (intervals k) with
  | None => k
  | Some t =>
    let c := closure t in
    if negb (videoRef k) || negb (isActive c) || (attempts t >=? maxAttempts) then
      if attempts t >=? maxAttempts then
        await (InsertingTimeout (timeoutRow (owner t)))
          (toast ToastTimedOut
             (withSt (setIsVerifying false)
                (withSt (setVerificationStatus failed) k)))
      else clearCurrent k
    else
      await (Detecting id) (setAttempts id (attempts t + 1) k)
  end.

(** The callback once the insert of the timeout row has been answered:
    lines 817-820. *)
Definition afterTimeoutInsert (row : AuditLog.t) (k : Comp) : Comp :=
  clearCurrent (insertAudit row k).

(** The callback once the insert of the success row has been answered:
    lines 857-861. *)
Definition afterSuccessInsert (row : AuditLog.t) (k : Comp) : Comp :=
  armCompletion (toast ToastVerified (insertAudit row k)).

Section WithProps.

(** [faceapi.euclideanDistance] of face-api.js, which is not part of the
    repository; [None] stands for the exception it throws. *)
Variable euclideanDistance : list JS.number -> list JS.number -> option JS.number.

(** The callback of the timer [id] once the detection it awaited has
    settled, to where it returns or is suspended again: lines 831-855.
    [detection] is the descriptor of the face found in the frame, if any;
    [attempts] is read now, after the firings that happened in between. *)
Definition afterDetection (id : nat) (detection : option (list JS.number))
    (k : Comp) : Comp :=
  match find (isTimer id) (intervals k) with
  | None => k
  | Some t =>
    match detection with
    | None => k
    | Some descriptor =>
      match storedDescriptor (closure t) with
      | None => k
      | Some stored =>
        match euclideanDistance stored descriptor with
        | None => k
        | Some distance =>
          if JS.lt distance threshold then
            let k1 := withSt (setIsVerifying false)
                        (withSt (setVerificationStatus success) k) in
            let k2 := clearCurrent k1 in
            await (InsertingSuccess (successRow (owner t) distance (attempts t))) k2
          else k
        end
      end
    end
  end.

(** The [userId] prop. *)
Variable userId : string.

(** [startVerification], lines 795-802 and 803, called from render [c]. *)
Definition startVerification (c : State) (k : Comp) : Comp :=
  match storedDescriptor c with
  | None => k
  | Some _ =>
    let k1 := withSt (setVerificationStatus verifying) (withSt (setIsVerifying true) k) in
    let id := nextTimer k1 in
    mkComp (st k1) (videoRef k1) (srcObject k1) (Some id)
           (intervals k1 ++ [mkTimer id 100 userId c 0 true]) (S id)
           (pending k1) (audit_logs k1) (toasts k1) (completions k1) (reported k1)
  end.

(** Clicking "Verify Face" ([onClick={startVerification}]) in the render on
    screen. *)
Definition clickVerify (k : Comp) : Comp := startVerification (st k) k.

End WithProps.

(** The 1500ms timer armed on success, lines 858-861. *)
Definition completionCallback (k : Comp) : Comp :=
  let k1 := stopCamera k in
  mkComp (st k1) (videoRef k1) (srcObject k1) (intervalRef k1) (intervals k1)
         (nextTimer k1) (pending k1) (audit_logs k1) (toasts k1) (completions k1)
         (reported k1 ++ [true]).

(** The component as it is shown with the "Verify Face" button enabled:
    loaded, camera on, reference descriptor in state, nothing started yet. *)
Definition ready (reference : list JS.number) : Comp :=
  mkComp (mkState false true false (Some reference) waiting)
         true true None [] 0 [] [] [] 0 [].

End FaceVerification.

(** ** FaceRegistration.tsx *)
Module FaceRegistration.
Import Store.

(** The [useState] cells of the component (lines 17-23). *)
Record State := mkState {
  isLoading : bool;
  isCameraActive : bool;
  faceDescriptor : option (list JS.number);
  isProcessing : bool;
  capturedImages : list string;
  currentStep : Z;
  allDescriptors : list (list JS.number)
}.

Definition initialState : State := mkState true false None false [] 1 [].

Definition maxSteps : Z := 3.

Definition setIsLoading (b : bool) (s : State) : State :=
  mkState b (isCameraActive s) (faceDescriptor s) (isProcessing s)
          (capturedImages s) (currentStep s) (allDescriptors s).
Definition setIsCameraActive (b : bool) (s : State) : State :=
  mkState (isLoading s) b (faceDescriptor s) (isProcessing s)
          (capturedImages s) (currentStep s) (allDescriptors s).
Definition setFaceDescriptor (d : option (list JS.number)) (s : State) : State :=
  mkState (isLoading s) (isCameraActive s) d (isProcessing s)
          (capturedImages s) (currentStep s) (allDescriptors s).
Definition setIsProcessing (b : bool) (s : State) : State :=
  mkState (isLoading s) (isCameraActive s) (faceDescriptor s) b
          (capturedImages s) (currentStep s) (allDescriptors s).
(** [setCapturedImages(prev => [...prev, imageDataUrl])]. *)
Definition pushCapturedImage (url : string) (s : State) : State :=
  mkState (isLoading s) (isCameraActive s) (faceDescriptor s) (isProcessing s)
          (capturedImages s ++ [url]) (currentStep s) (allDescriptors s).
(** [setAllDescriptors(prev => [...prev, detection.descriptor])]. *)
Definition pushDescriptor (d : list JS.number) (s : State) : State :=
  mkState (isLoading s) (isCameraActive s) (faceDescriptor s) (isProcessing s)
          (capturedImages s) (currentStep s) (allDescriptors s ++ [d]).
(** [setCurrentStep(prev => prev + 1)]. *)
Definition nextStep (s : State) : State :=
  mkState (isLoading s) (isCameraActive s) (faceDescriptor s) (isProcessing s)
          (capturedImages s) (currentStep s + 1) (allDescriptors s).

Inductive Toast :=
| ToastNoFace
| ToastUploadFailed
| ToastStepCaptured (step : Z)
| ToastSaveFailed
| ToastAllCaptured
| ToastProcessFailed
| ToastCameraDenied.

(** An object written to the [face-images] bucket: the step and the
    [Date.now()] that make up its name under the user's folder. *)
Record Upload := mkUpload { uploadStep : Z; uploadTime : Z }.

Record Comp := mkComp {
  st : State;
  srcObject : bool;          (* a camera stream is attached and live *)
  db : DB;
  uploads : list Upload;
  toasts : list Toast;
  completions : nat          (* armed 1500ms timers calling onComplete *)
}.

Definition mount (db0 : DB) : Comp := mkComp initialState false db0 [] [] 0.

Definition withSt (f : State -> State) (k : Comp) : Comp :=
  mkComp (f (st k)) (srcObject k) (db k) (uploads k) (toasts k) (completions k).
Definition withDb (f : DB -> DB) (k : Comp) : Comp :=
  mkComp (st k) (srcObject k) (f (db k)) (uploads k) (toasts k) (completions k).
Definition toast (msg : Toast) (k : Comp) : Comp :=
  mkComp (st k) (srcObject k) (db k) (uploads k) (toasts k ++ [msg]) (completions k).
Definition upload (u : Upload) (k : Comp) : Comp :=
  mkComp (st k) (srcObject k) (db k) (uploads k ++ [u]) (toasts k) (completions k).
Definition armCompletion (k : Comp) : Comp :=
  mkComp (st k) (srcObject k) (db k) (uploads k) (toasts k) (S (completions k)).

(** The video and canvas elements are rendered by the branch of line 247. *)
Definition refsMounted (s : State) : bool :=
  negb (isLoading s) && (currentStep s <=? maxSteps) &&
  (Z.of_nat (length (capturedImages s)) <? maxSteps).

(** [stopCamera]: lines 64-71. *)
Definition stopCamera (k : Comp) : Comp :=
  let k1 :=
    if refsMounted (st k) && srcObject k
    then mkComp (st k) false (db k) (uploads k) (toasts k) (completions k)
    else k in
  withSt (setIsCameraActive false) k1.

(** [desc[i]], [undefined] past the end, which makes the sum NaN. *)
Definition at_ (desc : list JS.number) (i : nat) : JS.number :=
  default nan (desc !! i).

(** The inner loop of lines 142-145. *)
Definition columnSum (descriptors : list (list JS.number)) (i : nat) : JS.number :=
  foldl (fun sum desc => (sum + at_ desc i)%float) 0%float descriptors.

(** Lines 140-147: the [Float32Array] of the column means of [descriptors];
    [descriptors[0].length] throws on the empty list. *)
Definition averageDescriptors (descriptors : list (list JS.number))
    : option (list JS.number) :=
  match descriptors with
  | [] => None
  | d0 :: _ =>
    Some (map (fun i => JS.fround (columnSum descriptors i / JS.ofNat (length descriptors))%float)
              (seq 0 (length d0)))
  end.

(** What one run of [captureFace] gets from outside the component. *)
Record Frame := mkFrame {
  detection : option (list JS.number);  (* descriptor of the detected face *)
  blob : bool;                          (* canvas.toBlob produced a blob *)
  imageDataUrl : string;
  now : Z;                              (* Date.now() *)
  uploadError : bool;
  publicUrl : string;
  authEmail : option string;            (* user?.email *)
  dbError : bool
}.

Section WithProps.

(** The [userId] prop. *)
Variable userId : string.

(** [captureFace]: lines 73-192, created by render [c] and run on frame [f],
    with what it awaits answered at once ([RegistrationScreen.resume] takes
    it from one [await] to the next).  [currentStep] and [allDescriptors] are
    the [const]s of render [c]. *)
Definition captureFace (c : State) (f : Frame) (k : Comp) : Comp :=
  if negb (refsMounted (st k)) then k else
  let k := withSt (setIsProcessing true) k in
  match detection f with
  | None => withSt (setIsProcessing false) (toast ToastNoFace k)
  | Some descriptor =>
    if negb (blob f) then k else
    let k := withSt (pushCapturedImage (imageDataUrl f)) k in
    let k := withSt (pushDescriptor descriptor) k in
    let k := upload (mkUpload (currentStep c) (now f)) k in
    if uploadError f
    then withSt (setIsProcessing false) (toast ToastUploadFailed k)
    else
      let k := toast (ToastStepCaptured (currentStep c)) k in
      if currentStep c <? maxSteps then
        withSt (setIsProcessing false) (withSt nextStep k)
      else
        match averageDescriptors (allDescriptors c) with
        | None => k
        | Some avgDescriptor =>
          if dbError f
          then withSt (setIsProcessing false) (toast ToastSaveFailed k)
          else
            let k := withDb (upsert_profile userId (default "" (authEmail f))
                               avgDescriptor (publicUrl f) true) k in
            let k := withSt (setFaceDescriptor (Some avgDescriptor)) k in
            let k := toast ToastAllCaptured k in
            let k := withDb (insert_audit
                               (AuditLog.mk userId "FACE_REGISTERED"
                                  (AuditLog.FaceRegistered true maxSteps
                                     (Z.of_nat (length (allDescriptors c)))))) k in
            let k := withSt (setIsProcessing false) k in
            armCompletion (stopCamera k)
        end
  end.

(** The "Capture Angle" button of lines 310-317, clicked in the render on
    screen: shown with the camera active and fewer than [maxSteps] images,
    disabled while processing. *)
Definition captureShown (k : Comp) : bool :=
  isCameraActive (st k) && (Z.of_nat (length (capturedImages (st k))) <? maxSteps) &&
  negb (isProcessing (st k)).

Definition clickCapture (f : Frame) (k : Comp) : option Comp :=
  if captureShown k then Some (captureFace (st k) f k) else None.

End WithProps.

(** [loadModels] once the models have settled: lines 33-47. *)
Definition loadModels (loaded : bool) (k : Comp) : Comp :=
  if loaded then withSt (setIsLoading false) k else k.

(** [startCamera] once [getUserMedia] has settled: lines 49-62. *)
Definition startCamera (granted : bool) (k : Comp) : Comp :=
  if granted then
    if refsMounted (st k)
    then withSt (setIsCameraActive true)
           (mkComp (st k) true (db k) (uploads k) (toasts k) (completions k))
    else k
  else toast ToastCameraDenied k.

End FaceRegistration.

(** ** The FaceVerification screen *)
Module VerificationScreen.
Import Store FaceVerification.

(** The value of the [face_descriptor] column in the reply: an array of
    numbers, or any other JSON value, of which only the truth value is
    read. *)
Inductive Json :=
| JArray (l : list JS.number)
| JOther (truthy : bool).

(** The reply to the query of lines 744-748: an error (no row, several rows,
    the network), or the row. *)
Inductive Reply :=
| QueryError
| Row (face_descriptor : Json).

(** What [loadModelsAndData] gets from outside the component. *)
Record Loaded := mkLoaded {
  modelsLoaded : bool;
  reply : Reply
}.

(** The two messages of [loadModelsAndData]. *)
Inductive Notice :=
| NoticeNoFaceData
| NoticeLoadFailed.

(** The component with the calls of [onCancel] and the messages that the
    matcher does not show. *)
Record View := mkView {
  comp : Comp;
  cancels : nat;
  notices : list Notice
}.

(** The first render: a spinner, no video element. *)
Definition mount : View :=
  mkView (mkComp (mkState true false false None waiting)
                 false false None [] 0 [] [] [] 0 [])
         0 [].

Definition withComp (f : Comp -> Comp) (v : View) : View :=
  mkView (f (comp v)) (cancels v) (notices v).
Definition notice (n : Notice) (v : View) : View :=
  mkView (comp v) (cancels v) (notices v ++ [n]).
Definition onCancel (v : View) : View :=
  mkView (comp v) (S (cancels v)) (notices v).

(** [setStoredDescriptor(new Float32Array(descriptorArray))] and
    [setIsLoading(false)], lines 759-760; the render that follows shows the
    video element. *)
Definition showVideo (descriptor : list JS.number) (k : Comp) : Comp :=
  mkComp (mkState false (isActive (st k)) (isVerifying (st k))
                  (Some (map JS.fround descriptor)) (verificationStatus (st k)))
         true (srcObject k) (intervalRef k) (intervals k) (nextTimer k)
         (pending k) (audit_logs k) (toasts k) (completions k) (reported k).

(** [loadModelsAndData]: lines 733-766, up to the call of [startCamera]. *)
Definition loadModelsAndData (l : Loaded) (v : View) : View :=
  if negb (modelsLoaded l) then notice NoticeLoadFailed v else
  match reply l with
  | QueryError => onCancel (notice NoticeNoFaceData v)
  | Row (JOther false) => onCancel (notice NoticeNoFaceData v)
  | Row (JOther true) => withComp (showVideo []) v
  | Row (JArray descriptorArray) => withComp (showVideo descriptorArray) v
  end.

(** Whether [loadModelsAndData] goes on to call [startCamera]. *)
Definition startsCamera (l : Loaded) : bool :=
  modelsLoaded l &&
  match reply l with
  | QueryError => false
  | Row (JOther truthy) => truthy
  | Row (JArray _) => true
  end.

(** [startCamera] once [getUserMedia] has settled: lines 768-781. *)
Definition startCamera (granted : bool) (k : Comp) : Comp :=
  if granted then
    if videoRef k
    then withSt (setIsActive true)
           (mkComp (st k) (videoRef k) true (intervalRef k) (intervals k)
                   (nextTimer k) (pending k) (audit_logs k) (toasts k) (completions k)
                   (reported k))
    else k
  else toast ToastCameraDenied k.

(** The "Try Again" button, lines 971-975. *)
Definition tryAgain (k : Comp) : Comp :=
  withSt (setIsVerifying false) (withSt (setVerificationStatus waiting) k).

Definition Status_eqb (a b : Status) : bool :=
  match a, b with
  | waiting, waiting | verifying, verifying | success, success | failed, failed => true
  | _, _ => false
  end.

Inductive Phase := Loading | AwaitingCamera | Settled | Stuck.

(** What happens to the component.  A handler or callback runs until it
    returns or reaches an [await]; what it awaits settles as an event of its
    own, after any number of other events: the interval [id] fires, the
    detection awaited by the suspended call [i] settles, the insert awaited
    by the suspended call [i] is answered. *)
Inductive Event :=
| DataSettles (l : Loaded)
| CameraSettles (granted : bool)
| ClickVerify
| IntervalFires (id : nat)
| DetectionSettles (i : nat) (detection : option (list JS.number))
| InsertSettles (i : nat)
| CompletionFires
| ClickTryAgain
| ClickCancel.

(** A click on a button of the component. *)
Definition isClick (e : Event) : bool :=
  match e with
  | ClickVerify | ClickTryAgain | ClickCancel => true
  | _ => false
  end.

(** The buttons of lines 951-985. *)
Definition verifyEnabled (k : Comp) : bool :=
  negb (isLoading (st k)) && Status_eqb (verificationStatus (st k)) waiting &&
  isActive (st k).

Definition tryAgainShown (k : Comp) : bool :=
  negb (isLoading (st k)) && Status_eqb (verificationStatus (st k)) failed.

Definition cancelShown (k : Comp) : bool :=
  negb (isLoading (st k)) &&
  (Status_eqb (verificationStatus (st k)) waiting ||
   Status_eqb (verificationStatus (st k)) failed).

Section WithProps.

Variable userId : string.
Variable euclideanDistance : list JS.number -> list JS.number -> option JS.number.

(** One event; [None] when it cannot happen: a button that is not shown or
    is disabled, an interval that was cleared, a call that is not suspended
    there, a completion that is not armed. *)
Definition step (pv : Phase * View) (e : Event) : option (Phase * View) :=
  let '(p, v) := pv in
  match e with
  | DataSettles l =>
    match p with
    | Loading =>
      Some (if startsCamera l then AwaitingCamera else Stuck, loadModelsAndData l v)
    | _ => None
    end
  | CameraSettles granted =>
    match p with
    | AwaitingCamera => Some (Settled, withComp (startCamera granted) v)
    | _ => None
    end
  | ClickVerify =>
    if verifyEnabled (comp v) then Some (p, withComp (clickVerify userId) v) else None
  | IntervalFires id =>
    if running id (comp v) then Some (p, withComp (intervalCallback id) v) else None
  | DetectionSettles i detection =>
    match pending (comp v) !! i with
    | Some (Detecting id) =>
      Some (p, withComp (fun k => afterDetection euclideanDistance id detection (resume i k)) v)
    | _ => None
    end
  | InsertSettles i =>
    match pending (comp v) !! i with
    | Some (InsertingTimeout row) =>
      Some (p, withComp (fun k => afterTimeoutInsert row (resume i k)) v)
    | Some (InsertingSuccess row) =>
      Some (p, withComp (fun k => afterSuccessInsert row (resume i k)) v)
    | _ => None
    end
  | CompletionFires =>
    if (length (reported (comp v)) <? completions (comp v))%nat
    then Some (p, withComp completionCallback v)
    else None
  | ClickTryAgain =>
    if tryAgainShown (comp v) then Some (p, withComp tryAgain v) else None
  | ClickCancel =>
    if cancelShown (comp v) then Some (p, onCancel v) else None
  end.

Fixpoint run (pv : Phase * View) (es : list Event) : option (Phase * View) :=
  match es with
  | [] => Some pv
  | e :: es' =>
    match step pv e with
    | Some pv' => run pv' es'
    | None => None
    end
  end.

End WithProps.

(** The audit rows of successful verifications. *)
Definition successRows (k : Comp) : list AuditLog.t :=
  filter (fun r => String.eqb (AuditLog.action r) "FACE_VERIFICATION_SUCCESS")
         (audit_logs k).

(** The audit rows of verifications that timed out. *)
Definition failureRows (k : Comp) : list AuditLog.t :=
  filter (fun r => String.eqb (AuditLog.action r) "FACE_VERIFICATION_FAILED")
         (audit_logs k).

(** The counter of every interval is within bounds. *)
Definition bounded (k : Comp) : Prop :=
  Forall (fun t => 0 <= attempts t <= maxAttempts) (intervals k).

(** The row that a suspended insert carries is of the kind of the insert. *)
Definition labelled (p : Pending) : Prop :=
  match p with
  | Detecting _ => True
  | InsertingTimeout row => AuditLog.action row = "FACE_VERIFICATION_FAILED"
  | InsertingSuccess row => AuditLog.action row = "FACE_VERIFICATION_SUCCESS"
  end.

Definition isVerifiedToast (t : Toast) : bool :=
  match t with
  | ToastVerified => true
  | _ => false
  end.

(** Every report is a success, and each has its audit row and its
    message. *)
Definition truthful (k : Comp) : Prop :=
  Forall (fun b => b = true) (reported k) /\
  (length (reported k) <= completions k)%nat /\
  completions k = length (successRows k) /\
  completions k = length (filter (fun t => isVerifiedToast t) (toasts k)) /\
  Forall labelled (pending k).

(** The component after the camera has been refused. *)
Definition denied (v : View) : Prop :=
  isLoading (st (comp v)) = false /\ isActive (st (comp v)) = false /\
  verificationStatus (st (comp v)) = waiting /\ intervals (comp v) = [] /\
  pending (comp v) = [] /\
  completions (comp v) = 0%nat /\ reported (comp v) = [] /\
  audit_logs (comp v) = [].

(** An interval that is running although [intervalRef] names another. *)
Definition orphan (id : nat) (k : Comp) : Prop :=
  running id k = true /\ intervalRef k <> Some id.

(** The identifiers of the intervals are below the next one. *)
Definition fresh (k : Comp) : Prop :=
  Forall (fun t => (timerId t < nextTimer k)%nat) (intervals k).

(** The video element is gone: [videoRef.current] is [null]. *)
Definition detach (k : Comp) : Comp :=
  mkComp (st k) false (srcObject k) (intervalRef k) (intervals k)
         (nextTimer k) (pending k) (audit_logs k) (toasts k) (completions k)
         (reported k).

(** The component is unmounted: the video element is removed, which empties
    [videoRef], and the cleanup of the effect runs (lines 725-730).  Which of
    the two comes first depends on the version of React: [cleanupFirst] says
    that the cleanup still finds the element.  The state cells stay those of
    the last render; nothing renders them again. *)
Definition unmount (cleanupFirst : bool) (k : Comp) : Comp :=
  if cleanupFirst
  then detach (clearCurrent (stopCamera k))
  else clearCurrent (stopCamera (detach k)).

End VerificationScreen.

(** ** The FaceRegistration screen *)
Module RegistrationScreen.
Import Store FaceRegistration.

(** The four setters at the head of [retakePhoto], lines 195-198. *)
Definition resetCaptures (s : State) : State :=
  mkState (isLoading s) (isCameraActive s) None (isProcessing s) [] 1 [].

(** [retakePhoto]: lines 194-200, up to the [getUserMedia] that the
    [startCamera] it calls awaits. *)
Definition retakePhoto (k : Comp) : Comp := withSt resetCaptures k.

(** Where a call of [captureFace] is suspended: at the [await] of line 79,
    in [canvas.toBlob] (line 99, whose callback runs later), and at the
    [await]s of lines 110, 137, 150 and 171. *)
Inductive Stage :=
| Detecting
| Encoding (descriptor : list JS.number)
| Uploading
| GettingUser
| Upserting (avgDescriptor : list JS.number)
| Auditing.

(** A call of [captureFace] in flight: the render that created it, what it
    gets from outside the component, and where it is suspended. *)
Record Capture := mkCapture {
  closure : State;
  frame : Frame;
  stage : Stage
}.

(** What the component is waiting for: the models ([loadModels] is called
    once, by the effect of the first render), the answers of [getUserMedia]
    and the calls of [captureFace] in flight. *)
Record Phase := mkPhase {
  modelsPending : bool;
  cameraRequests : nat;
  captures : list Capture
}.

Definition Loading : Phase := mkPhase true 0 [].
Definition Settled : Phase := mkPhase false 0 [].

Definition setCaptures (l : list Capture) (p : Phase) : Phase :=
  mkPhase (modelsPending p) (cameraRequests p) l.

Definition requestCamera (p : Phase) : Phase :=
  mkPhase (modelsPending p) (S (cameraRequests p)) (captures p).

(** What happens to the mounted component.  A click runs its handler up to
    the first thing it waits for; what it waits for settles in an event of
    its own, so that anything else can happen in between ("Cancel" and "Start
    Over" stay enabled while a capture is processed). *)
Inductive Event :=
| ModelsSettle (loaded : bool)
| ClickStartCamera
| CameraSettles (granted : bool)
| ClickCapture (f : Frame)
| CaptureSettles (i : nat)
| ClickCancel
| ClickStartOver.

Definition fewerThanMax (k : Comp) : bool :=
  Z.of_nat (length (capturedImages (st k))) <? maxSteps.

(** The buttons of lines 300-330; nothing but a spinner is rendered while
    [isLoading] (line 202). *)
Definition startCameraShown (k : Comp) : bool :=
  negb (isLoading (st k)) && negb (isCameraActive (st k)) && fewerThanMax k.

Definition cancelShown (k : Comp) : bool :=
  negb (isLoading (st k)) && isCameraActive (st k) && fewerThanMax k.

Definition startOverShown (k : Comp) : bool :=
  negb (isLoading (st k)) && (0 <? Z.of_nat (length (capturedImages (st k)))).

Section WithProps.

(** The [userId] prop. *)
Variable userId : string.

(** [captureFace] from the point where [cap] is suspended to the next one
    ([None] when the call is over).  The refs are read when the code gets to
    them: a canvas that is no longer rendered makes line 92 throw, into the
    [catch] of line 187.  An empty [allDescriptors] makes line 140 throw
    inside the callback of [toBlob], where nothing catches it. *)
Definition resume (cap : Capture) (k : Comp) : option Stage * Comp :=
  let c := closure cap in
  let f := frame cap in
  match stage cap with
  | Detecting =>
    match detection f with
    | None => (None, withSt (setIsProcessing false) (toast ToastNoFace k))
    | Some descriptor =>
      if refsMounted (st k) then (Some (Encoding descriptor), k)
      else (None, withSt (setIsProcessing false) (toast ToastProcessFailed k))
    end
  | Encoding descriptor =>
    if negb (blob f) then (None, k) else
    let k := withSt (pushCapturedImage (imageDataUrl f)) k in
    let k := withSt (pushDescriptor descriptor) k in
    (Some Uploading, upload (mkUpload (currentStep c) (now f)) k)
  | Uploading =>
    if uploadError f
    then (None, withSt (setIsProcessing false) (toast ToastUploadFailed k))
    else
      let k := toast (ToastStepCaptured (currentStep c)) k in
      if currentStep c <? maxSteps
      then (None, withSt (setIsProcessing false) (withSt nextStep k))
      else (Some GettingUser, k)
  | GettingUser =>
    match averageDescriptors (allDescriptors c) with
    | None => (None, k)
    | Some avgDescriptor => (Some (Upserting avgDescriptor), k)
    end
  | Upserting avgDescriptor =>
    if dbError f
    then (None, withSt (setIsProcessing false) (toast ToastSaveFailed k))
    else
      let k := withDb (upsert_profile userId (default "" (authEmail f))
                         avgDescriptor (publicUrl f) true) k in
      let k := withSt (setFaceDescriptor (Some avgDescriptor)) k in
      (Some Auditing, toast ToastAllCaptured k)
  | Auditing =>
    let k := withDb (insert_audit
                       (AuditLog.mk userId "FACE_REGISTERED"
                          (AuditLog.FaceRegistered true maxSteps
                             (Z.of_nat (length (allDescriptors c)))))) k in
    let k := withSt (setIsProcessing false) k in
    (None, armCompletion (stopCamera k))
  end.

(** One event; [None] when it cannot happen (a button that is not shown or
    is disabled, an answer nothing waits for).  The message of line 45 is not
    among the recorded toasts. *)
Definition step (pk : Phase * Comp) (e : Event) : option (Phase * Comp) :=
  let '(p, k) := pk in
  match e with
  | ModelsSettle loaded =>
    if modelsPending p
    then Some (mkPhase false (cameraRequests p) (captures p), loadModels loaded k)
    else None
  | ClickStartCamera =>
    if startCameraShown k then Some (requestCamera p, k) else None
  | CameraSettles granted =>
    match cameraRequests p with
    | O => None
    | S n => Some (mkPhase (modelsPending p) n (captures p), startCamera granted k)
    end
  | ClickCapture f =>
    if negb (isLoading (st k)) && captureShown k then
      if refsMounted (st k)
      then Some (setCaptures (captures p ++ [mkCapture (st k) f Detecting]) p,
                 withSt (setIsProcessing true) k)
      else Some (p, k)
    else None
  | CaptureSettles i =>
    match captures p !! i with
    | None => None
    | Some cap =>
      match resume cap k with
      | (Some s, k') =>
        Some (setCaptures (<[i := mkCapture (closure cap) (frame cap) s]> (captures p)) p, k')
      | (None, k') => Some (setCaptures (delete i (captures p)) p, k')
      end
    end
  | ClickCancel =>
    if cancelShown k then Some (p, stopCamera k) else None
  | ClickStartOver =>
    if startOverShown k then Some (requestCamera p, retakePhoto k) else None
  end.

Fixpoint run (pk : Phase * Comp) (es : list Event) : option (Phase * Comp) :=
  match es with
  | [] => Some pk
  | e :: es' =>
    match step pk e with
    | Some pk' => run pk' es'
    | None => None
    end
  end.

(** The call [cap] carried on for at most [fuel] stages with nothing in
    between. *)
Fixpoint finish (fuel : nat) (cap : Capture) (k : Comp) : Comp :=
  match fuel with
  | O => k
  | S fuel' =>
    match resume cap k with
    | (Some s, k') => finish fuel' (mkCapture (closure cap) (frame cap) s) k'
    | (None, k') => k'
    end
  end.

End WithProps.

Definition isCapture (e : Event) : bool :=
  match e with
  | ClickCapture _ => true
  | _ => false
  end.

Definition isStartOver (e : Event) : bool :=
  match e with
  | ClickStartOver => true
  | _ => false
  end.

Definition isCancel (e : Event) : bool :=
  match e with
  | ClickCancel => true
  | _ => false
  end.

(** The image and the descriptor of the call have been appended to state. *)
Definition pushed (s : Stage) : bool :=
  match s with
  | Detecting | Encoding _ => false
  | _ => true
  end.

(** The call is past the test of line 125, on the branch that enrolls. *)
Definition enrolling (s : Stage) : bool :=
  match s with
  | GettingUser | Upserting _ | Auditing => true
  | _ => false
  end.

(** What a call in flight satisfies in every run. *)
Definition wellFormed (cap : Capture) (k : Comp) : Prop :=
  let c := closure cap in
  isProcessing (st k) = true /\
  isLoading (st k) = false /\
  1 <= currentStep c <= maxSteps /\
  currentStep (st k) <= currentStep c /\
  length (allDescriptors c) = length (capturedImages c) /\
  Z.of_nat (length (capturedImages c)) < maxSteps /\
  (currentStep c = maxSteps -> (1 <= length (allDescriptors c))%nat) /\
  (length (capturedImages (st k)) <=
     length (capturedImages c) + (if pushed (stage cap) then 1 else 0))%nat /\
  (stage cap = Uploading -> currentStep (st k) = 2 ->
     (1 <= length (allDescriptors (st k)))%nat) /\
  (enrolling (stage cap) = true -> currentStep c = maxSteps) /\
  (forall avg, stage cap = Upserting avg ->
     averageDescriptors (allDescriptors c) = Some avg).

(** What every state of a run satisfies. *)
Definition consistent (p : Phase) (k : Comp) : Prop :=
  length (allDescriptors (st k)) = length (capturedImages (st k)) /\
  1 <= currentStep (st k) <= maxSteps /\
  Z.of_nat (length (capturedImages (st k))) <= maxSteps /\
  (isCameraActive (st k) = true -> srcObject k = true /\ isLoading (st k) = false) /\
  (currentStep (st k) = maxSteps -> (1 <= length (allDescriptors (st k)))%nat) /\
  (captures p = [] \/ exists cap, captures p = [cap] /\ wellFormed cap k).

(** What every state of a run without "Start Over" satisfies: a step is
    only left by a capture that has stored its image. *)
Definition paced (p : Phase) (k : Comp) : Prop :=
  match captures p with
  | [] => currentStep (st k) <= Z.of_nat (length (capturedImages (st k))) + 1
  | cap :: _ =>
    currentStep (st k) = currentStep (closure cap) /\
    currentStep (closure cap) <= Z.of_nat (length (capturedImages (closure cap))) + 1 /\
    length (capturedImages (st k)) =
      (length (capturedImages (closure cap)) + (if pushed (stage cap) then 1 else 0))%nat
  end.

(** An image is stored for the step on screen, which only a failed upload
    brings about in a run without "Start Over". *)
Definition wasted (p : Phase) (k : Comp) : Prop :=
  match captures p with
  | [] => currentStep (st k) <= Z.of_nat (length (capturedImages (st k)))
  | cap :: _ =>
    currentStep (st k) = currentStep (closure cap) /\
    currentStep (closure cap) <= Z.of_nat (length (capturedImages (closure cap))) /\
    length (capturedImages (st k)) =
      (length (capturedImages (closure cap)) + (if pushed (stage cap) then 1 else 0))%nat
  end.

(** A call in flight has the camera on, in a run without "Cancel". *)
Definition filming (p : Phase) (k : Comp) : Prop :=
  captures p <> [] -> isCameraActive (st k) = true.

(** The button is disabled, and a call still in flight is one on frame [f]
    that has not yet got to the callback of [toBlob]. *)
Definition jammed (f : Frame) (p : Phase) (k : Comp) : Prop :=
  isProcessing (st k) = true /\
  match captures p with
  | [] => True
  | cap :: _ => frame cap = f /\ pushed (stage cap) = false
  end.

End RegistrationScreen.

(** ** The VotingInterface component *)
Module VotingInterface.
Import Store.

Record Election := mkElection {
  id : string;
  title : string;
  description : string;
  options : list string
}.

(** The [useState] cells that [submitVote] reads and writes. *)
Record State := mkState {
  selectedElection : option Election;
  selectedOption : string;
  isSubmitting : bool;
  userVotes : gset string
}.

Definition setIsSubmitting (b : bool) (s : State) : State :=
  mkState (selectedElection s) (selectedOption s) b (userVotes s).
Definition addUserVote (e : string) (s : State) : State :=
  mkState (selectedElection s) (selectedOption s) (isSubmitting s) ({[ e ]} ∪ userVotes s).

Inductive Toast :=
| ToastSelectOption
| ToastAlreadyVoted
| ToastFailed
| ToastSubmitted.

(** The text of the error toasts. *)
Definition toastText (t : Toast) : string :=
  match t with
  | ToastSelectOption => "Please select an option to vote"
  | ToastAlreadyVoted => "You have already voted in this election"
  | ToastFailed => "Failed to submit vote"
  | ToastSubmitted => "Vote submitted successfully!"
  end.

Record Comp := mkComp {
  st : State;
  db : DB;
  voteInserts : list Vote.t;   (* insert requests sent to the votes table *)
  toasts : list Toast;
  completions : nat            (* armed 2000ms timers calling onVoteComplete *)
}.

Definition withSt (f : State -> State) (k : Comp) : Comp :=
  mkComp (f (st k)) (db k) (voteInserts k) (toasts k) (completions k).
Definition toast (msg : Toast) (k : Comp) : Comp :=
  mkComp (st k) (db k) (voteInserts k) (toasts k ++ [msg]) (completions k).

(** What one run of [submitVote] gets from outside the component. *)
Record Request := mkRequest {
  ipify : option string;        (* the ip that api.ipify.org answered, if it was reached *)
  userAgent : string;           (* navigator.userAgent *)
  outage : option string        (* a store error unrelated to the row *)
}.

(** [getUserIP]: lines 506-514. *)
Definition getUserIP (r : Request) : string := default "unknown" (ipify r).

(** What ends the insert of the request before the constraints of the table
    are looked at. *)
Definition fault (r : Request) : option string := vote_fault (outage r) (getUserIP r).

Section WithProps.

(** The [userId] prop. *)
Variable userId : string.

(** The row built at lines 457-465. *)
Definition voteRow (e : Election) (option : string) (r : Request) : Vote.t :=
  Vote.mk userId (id e) option true true (getUserIP r) (userAgent r).

(** [submitVote]: lines 445-504, created by render [c]. *)
Definition submitVote (c : State) (r : Request) (k : Comp) : Comp :=
  match selectedElection c with
  | None => toast ToastSelectOption k
  | Some election =>
    if String.eqb (selectedOption c) "" then toast ToastSelectOption k else
    let k := withSt (setIsSubmitting true) k in
    let row := voteRow election (selectedOption c) r in
    let '(db', voteError) := insert_vote (fault r) row (db k) in
    let k := mkComp (st k) db' (voteInserts k ++ [row]) (toasts k) (completions k) in
    match voteError with
    | Some code =>
      let k := if String.eqb code "23505"
               then toast ToastAlreadyVoted k
               else toast ToastFailed k in
      withSt (setIsSubmitting false) k
    | None =>
      let k := mkComp (st k)
                 (insert_audit
                    (AuditLog.mk userId "VOTE_SUBMITTED"
                       (AuditLog.VoteSubmitted (id election) (title election)
                          (selectedOption c)))
                    (db k))
                 (voteInserts k) (toasts k) (completions k) in
      let k := toast ToastSubmitted k in
      let k := withSt (addUserVote (id election)) k in
      let k := mkComp (st k) (db k) (voteInserts k) (toasts k) (S (completions k)) in
      withSt (setIsSubmitting false) k
    end
  end.

End WithProps.

End VotingInterface.

(** ** The VotingInterface screen *)
Module VotingScreen.
Import Store VotingInterface.

(** A row of [public.elections] as [loadElections] receives it: the columns
    the ballot reads, and those that [isElectionActive] reads.  A date is
    what [new Date(...)] makes of the column: milliseconds since the epoch,
    [None] for an invalid date. *)
Record ElectionRow := mkRow {
  election : Election;
  start_date : option Z;
  end_date : option Z;
  is_active : bool
}.

(** [isElectionActive]: lines 526-531, at time [now].  A comparison with an
    invalid date is false. *)
Definition isElectionActive (now : Z) (r : ElectionRow) : bool :=
  match start_date r, end_date r with
  | Some start, Some end_ => (start <=? now) && (now <=? end_) && is_active r
  | _, _ => false
  end.

(** The two messages of [loadElections]. *)
Inductive Notice :=
| NoticeElectionsFailed
| NoticeVotingDataFailed.

(** The component with the cells that [submitVote] does not read. *)
Record View := mkView {
  comp : Comp;
  elections : list ElectionRow;
  isLoading : bool;
  notices : list Notice
}.

Definition mount (db0 : DB) : View :=
  mkView (mkComp (mkState None "" false ∅) db0 [] [] 0) [] true [].

Definition setSelectedElection (e : Election) (s : State) : State :=
  mkState (Some e) (selectedOption s) (isSubmitting s) (userVotes s).
Definition setSelectedOption (o : string) (s : State) : State :=
  mkState (selectedElection s) o (isSubmitting s) (userVotes s).
Definition setUserVotes (u : gset string) (s : State) : State :=
  mkState (selectedElection s) (selectedOption s) (isSubmitting s) u.

Definition withState (f : State -> State) (v : View) : View :=
  mkView (withSt f (comp v)) (elections v) (isLoading v) (notices v).
Definition withComp (f : Comp -> Comp) (v : View) : View :=
  mkView (f (comp v)) (elections v) (isLoading v) (notices v).
Definition setElections (rows : list ElectionRow) (v : View) : View :=
  mkView (comp v) rows (isLoading v) (notices v).
Definition setIsLoading (b : bool) (v : View) : View :=
  mkView (comp v) (elections v) b (notices v).
Definition notice (n : Notice) (v : View) : View :=
  mkView (comp v) (elections v) (isLoading v) (notices v ++ [n]).

(** What the two queries of [loadElections] come back with: the rows of the
    elections marked active, or an error; whether the query of the votes
    failed; whether [JSON.parse] throws on the options of some row. *)
Record Loaded := mkLoaded {
  electionsResult : option (list ElectionRow);
  votesError : bool;
  transformThrows : bool
}.

(** [userVotes.has(id)]. *)
Definition has (u : gset string) (id : string) : bool := bool_decide (id ∈ u).

Section WithProps.

(** The [userId] prop. *)
Variable userId : string.

(** The election ids of the query of lines 410-413. *)
Definition votedBy (db : DB) : gset string :=
  list_to_set (Vote.election_id <$>
               filter (fun v => String.eqb (Vote.user_id v) userId) (votes db)).

(** [loadElections]: lines 394-443. *)
Definition loadElections (l : Loaded) (v : View) : View :=
  match electionsResult l with
  | None => setIsLoading false (notice NoticeElectionsFailed v)
  | Some rows =>
    let votedElectionIds := if votesError l then ∅ else votedBy (db (comp v)) in
    let v := withState (setUserVotes votedElectionIds) v in
    if transformThrows l then setIsLoading false (notice NoticeVotingDataFailed v) else
    let v := setElections rows v in
    let v :=
      match find (fun e => negb (has votedElectionIds (id (election e)))) rows with
      | Some availableElection =>
        withState (setSelectedElection (election availableElection)) v
      | None => v
      end in
    setIsLoading false v
  end.

(** The list of elections and the form are rendered once loading is over and
    some election has been loaded (lines 533 and 546). *)
Definition rendered (v : View) : bool :=
  negb (isLoading v) && negb (Nat.eqb (length (elections v)) 0).

(** The voting form of line 629, and the election it is shown for. *)
Definition formShown (v : View) : option Election :=
  if rendered v then
    match selectedElection (st (comp v)) with
    | Some e => if has (userVotes (st (comp v))) (id e) then None else Some e
    | None => None
    end
  else None.

(** What happens to the mounted component.  A handler runs to its end before
    the next event is taken; [now] is the time of the render on screen. *)
Inductive Event :=
| ElectionsSettle (l : Loaded)
| ClickElection (i : nat) (now : Z)
| ClickOption (j : nat)
| ClickCast (r : Request).

(** One event; [None] when it cannot happen.  A click on an election (line
    587) selects it only if the user has not voted in it and it is active;
    "Cast Vote" (lines 667-674) is disabled without an option and while a
    vote is being submitted. *)
Definition step (v : View) (e : Event) : option View :=
  match e with
  | ElectionsSettle l =>
    if isLoading v then Some (loadElections l v) else None
  | ClickElection i now =>
    if rendered v then
      match elections v !! i with
      | Some r =>
        let hasVoted := has (userVotes (st (comp v))) (id (election r)) in
        let isActive := isElectionActive now r in
        Some (if negb hasVoted && isActive
              then withState (setSelectedElection (election r)) v
              else v)
      | None => None
      end
    else None
  | ClickOption j =>
    match formShown v with
    | Some e =>
      match options e !! j with
      | Some option => Some (withState (setSelectedOption option) v)
      | None => None
      end
    | None => None
    end
  | ClickCast r =>
    match formShown v with
    | Some _ =>
      if negb (String.eqb (selectedOption (st (comp v))) "") &&
         negb (isSubmitting (st (comp v)))
      then Some (withComp (submitVote userId (st (comp v)) r) v)
      else None
    | None => None
    end
  end.

Fixpoint run (v : View) (es : list Event) : option View :=
  match es with
  | [] => Some v
  | e :: es' =>
    match step v e with
    | Some v' => run v' es'
    | None => None
    end
  end.

End WithProps.

(** The query of the votes succeeds, no insert meets an error of the store
    that has nothing to do with the row, and the address that [getUserIP]
    resolved to is one the INET column takes. *)
Definition faultless (e : Event) : Prop :=
  match e with
  | ElectionsSettle l => votesError l = false
  | ClickCast r => outage r = None /\ Store.inet (getUserIP r) = true
  | _ => True
  end.

(** The books of a run that started on the store [db0]: the votes added, the
    calls of [onVoteComplete] armed and the audit rows written. *)
Definition accounted (userId : string) (db0 : DB) (v : View) : Prop :=
  exists new,
    votes (db (comp v)) = votes db0 ++ new /\
    length new = completions (comp v) /\
    Forall (fun row => Vote.user_id row = userId) new /\
    length (audit_logs (db (comp v)))
      = (length (audit_logs db0) + completions (comp v))%nat /\
    profiles (db (comp v)) = profiles db0 /\
    (ToastSelectOption ∉ toasts (comp v)) /\
    isSubmitting (st (comp v)) = false.

(** Every election marked as voted has a row of the user in the table. *)
Definition badgesSound (userId : string) (v : View) : Prop :=
  forall e, e ∈ userVotes (st (comp v)) ->
    exists row, row ∈ votes (db (comp v)) /\
                Vote.user_id row = userId /\ Vote.election_id row = e.

(** With the votes of the user loaded, the elections marked as voted are
    exactly those with a row of the user, every request sent was persisted
    and every message shown is the success message. *)
Definition inStep (userId : string) (db0 : DB) (v : View) : Prop :=
  (isLoading v = true -> elections v = []) /\
  (rendered v = true -> userVotes (st (comp v)) = votedBy userId (db (comp v))) /\
  votes (db (comp v)) = votes db0 ++ voteInserts (comp v) /\
  toasts (comp v) = replicate (completions (comp v)) ToastSubmitted.

(** No election is selected, and every loaded election is marked as voted. *)
Definition exhausted (v : View) : Prop :=
  selectedElection (st (comp v)) = None /\
  Forall (fun r => has (userVotes (st (comp v))) (id (election r)) = true) (elections v).

(** Every loaded election, and the selected one, has a row of the user in
    the table [db0], which is the table of the component; no vote was
    persisted and every message shown is a refusal. *)
Definition spent (userId : string) (db0 : DB) (v : View) : Prop :=
  isLoading v = false /\
  db (comp v) = db0 /\ completions (comp v) = 0%nat /\
  Forall (fun t => t = ToastAlreadyVoted \/ t = ToastFailed) (toasts (comp v)) /\
  Forall (fun r => has (votedBy userId db0) (id (election r)) = true) (elections v) /\
  (forall e, selectedElection (st (comp v)) = Some e ->
             has (votedBy userId db0) (id e) = true).

End VotingScreen.

(** ** The Index page *)
Module Index.
Import Store.

Inductive AppState :=
| auth
| face_registration
| face_verification
| blink_verification
| voting
| complete.

(** The [useState] cells of the page; [user] is the id of the signed-in
    user. *)
Record State := mkState {
  user : option string;
  appState : AppState;
  userProfile : option Profile.t;
  isLoading : bool
}.

Definition initialState : State := mkState None auth None true.

Definition setUser (u : option string) (s : State) : State :=
  mkState u (appState s) (userProfile s) (isLoading s).
Definition setAppState (v : AppState) (s : State) : State :=
  mkState (user s) v (userProfile s) (isLoading s).
Definition setUserProfile (p : option Profile.t) (s : State) : State :=
  mkState (user s) (appState s) p (isLoading s).
Definition setIsLoading (b : bool) (s : State) : State :=
  mkState (user s) (appState s) (userProfile s) b.

Inductive Toast :=
| ToastLoadProfileFailed
| ToastCreateProfileFailed
| ToastSignedOut
| ToastVerificationFailed.

Record App := mkApp {
  st : State;
  db : DB;
  toasts : list Toast
}.

Definition initial (db0 : DB) : App := mkApp initialState db0 [].

Definition withSt (f : State -> State) (a : App) : App :=
  mkApp (f (st a)) (db a) (toasts a).
Definition toast (msg : Toast) (a : App) : App :=
  mkApp (st a) (db a) (toasts a ++ [msg]).

(** What one run of [loadUserProfile] gets from outside the page. *)
Record Fetch := mkFetch {
  selectError : option string;     (* error.code of the select, if it failed *)
  authEmail : option string;       (* user?.email *)
  authFullName : option string;    (* user?.user_metadata?.full_name *)
  insertFault : bool               (* the insert fails for a reason of the store *)
}.

(** A JSON value read as a condition: [null] is falsy, an array is truthy. *)
Definition truthy {A} (v : option A) : bool :=
  match v with Some _ => true | None => false end.

(** [x || d] for a string [x] that may be missing: [d] when [x] is
    [undefined], [null] or empty. *)
Definition orElse (x : option string) (d : string) : string :=
  match x with
  | Some s => if String.eqb s "" then d else s
  | None => d
  end.

(** [loadUserProfile]: lines 70-121. *)
Definition loadUserProfile (userId : string) (f : Fetch) (a : App) : App :=
  let rejected :=
    match selectError f with
    | Some code => negb (String.eqb code "PGRST116")
    | None => false
    end in
  if rejected then withSt (setIsLoading false) (toast ToastLoadProfileFailed a) else
  let profile :=
    match selectError f with
    | Some _ => None
    | None => profiles (db a) !! userId
    end in
  match profile with
  | None =>
    let '(db', insertError) :=
      insert_profile (insertFault f) userId (orElse (authEmail f) "")
                     (orElse (authFullName f) "User") (db a) in
    let a := mkApp (st a) db' (toasts a) in
    if insertError
    then withSt (setIsLoading false) (toast ToastCreateProfileFailed a)
    else withSt (setIsLoading false) (withSt (setAppState face_registration) a)
  | Some profile =>
    let a := withSt (setUserProfile (Some profile)) a in
    let a :=
      if negb (truthy (Profile.face_descriptor profile)) || negb (Profile.is_verified profile)
      then withSt (setAppState face_registration) a
      else withSt (setAppState face_verification) a in
    withSt (setIsLoading false) a
  end.

(** The body of the [onAuthStateChange] listener, lines 40-52, up to the
    deferred [loadUserProfile]. *)
Definition onAuthStateChange (session : option string) (a : App) : App :=
  let a := withSt (setUser session) a in
  match session with
  | Some _ => a
  | None => withSt (setUserProfile None) (withSt (setAppState auth) a)
  end.

(** The continuation of [getSession()], lines 56-65, up to
    [loadUserProfile]. *)
Definition onGetSession (session : option string) (a : App) : App :=
  let a := withSt (setUser session) a in
  match session with
  | Some _ => a
  | None => withSt (setIsLoading false) a
  end.

(** [handleSignOut]: lines 123-135. *)
Definition handleSignOut (a : App) : App :=
  toast ToastSignedOut
    (withSt (setAppState auth)
       (withSt (setUserProfile None) (withSt (setUser None) a))).

(** [handleAuthSuccess]: lines 137-139, "Auth state change will trigger
    profile loading". *)
Definition handleAuthSuccess (a : App) : App := a.

(** [handleFaceRegistrationComplete]: lines 141-146, up to the
    [loadUserProfile] it starts. *)
Definition handleFaceRegistrationComplete (a : App) : App :=
  withSt (setAppState face_verification) a.

(** [handleFaceVerificationComplete]: lines 148-155. *)
Definition handleFaceVerificationComplete (success : bool) (a : App) : App :=
  if success
  then withSt (setAppState blink_verification) a
  else withSt (setAppState face_verification) (toast ToastVerificationFailed a).

(** [handleBlinkComplete]: lines 157-159. *)
Definition handleBlinkComplete (a : App) : App := withSt (setAppState voting) a.

(** [handleVoteComplete]: lines 161-163. *)
Definition handleVoteComplete (a : App) : App := withSt (setAppState complete) a.

(** [resetToVoting]: lines 165-167. *)
Definition resetToVoting (a : App) : App := withSt (setAppState face_verification) a.

(** The events of the page.  A [loadUserProfile] that was started settles
    whenever the store answers.  A button is clicked while it is shown
    (lines 169-337).  The handlers passed to the children are called by them
    from buttons, but also from timers and from the continuations of
    requests, which no cleanup cancels (FaceRegistration.tsx lines 183,
    494-496, 750-753 and 858-861): they run whatever the page renders by
    then.  Which child has armed what is kept by [Page]. *)
Inductive Event :=
| GetSessionSettles (session : option string)
| AuthStateChange (session : option string)
| LoadUserProfileSettles (userId : string) (f : Fetch)
| ClickSignOut
| AuthSuccess
| FaceRegistrationComplete
| FaceVerificationComplete (success : bool)
| FaceVerificationCancel
| BlinkComplete
| BlinkCancel
| VoteComplete
| ClickVoteAgain.

Definition AppState_eqb (x y : AppState) : bool :=
  match x, y with
  | auth, auth | face_registration, face_registration
  | face_verification, face_verification
  | blink_verification, blink_verification
  | voting, voting | complete, complete => true
  | _, _ => false
  end.

(** [appState === v && user], past the [isLoading] spinner. *)
Definition shownWithUser (v : AppState) (a : App) : bool :=
  negb (isLoading (st a)) && AppState_eqb (appState (st a)) v && truthy (user (st a)).

(** [appState === v], past the [isLoading] spinner. *)
Definition shown (v : AppState) (a : App) : bool :=
  negb (isLoading (st a)) && AppState_eqb (appState (st a)) v.

Definition guard (b : bool) (a : App) : option App := if b then Some a else None.

Definition step (a : App) (e : Event) : option App :=
  match e with
  | GetSessionSettles session => Some (onGetSession session a)
  | AuthStateChange session => Some (onAuthStateChange session a)
  | LoadUserProfileSettles userId f => Some (loadUserProfile userId f a)
  | ClickSignOut =>
    guard (negb (isLoading (st a)) && truthy (user (st a))) (handleSignOut a)
  | AuthSuccess =>
    guard (shown auth a) (handleAuthSuccess a)
  | FaceRegistrationComplete => Some (handleFaceRegistrationComplete a)
  | FaceVerificationComplete success => Some (handleFaceVerificationComplete success a)
  | FaceVerificationCancel => Some (withSt (setAppState face_registration) a)
  | BlinkComplete => Some (handleBlinkComplete a)
  | BlinkCancel =>
    guard (shown blink_verification a) (withSt (setAppState face_verification) a)
  | VoteComplete => Some (handleVoteComplete a)
  | ClickVoteAgain =>
    guard (shown complete a) (resetToVoting a)
  end.

Fixpoint run (a : App) (es : list Event) : option App :=
  match es with
  | [] => Some a
  | e :: es' =>
    match step a e with
    | Some a' => run a' es'
    | None => None
    end
  end.

(** A click on a button of the page or of the form of the blink step. *)
Definition isClick (e : Event) : bool :=
  match e with
  | ClickSignOut | BlinkCancel | ClickVoteAgain => true
  | _ => false
  end.

End Index.

(** ** The page with the children it mounts *)
Module Page.

(** A [FaceVerification] instance that the page has mounted: the [userId]
    prop of its latest render, whether it is still mounted, and the
    component. *)
Record Verification := mkVerification {
  userId : string;
  mounted : bool;
  screen : VerificationScreen.Phase * VerificationScreen.View
}.

(** The page together with the children it has mounted so far.  Every
    [FaceVerification] and [BlinkVerification] instance is kept, the last one
    being the instance on screen while its step is rendered and the earlier
    ones unmounted, because the timers they armed and the requests they sent
    can still call back.  Of the [FaceRegistration] and [VotingInterface]
    children only the number mounted so far is kept. *)
Record t := mk {
  app : Index.App;
  registrations : nat;
  verifications : list Verification;
  blinks : list (BlinkVerification.Phase * BlinkVerification.Comp);
  ballots : nat
}.

Definition initial (db0 : Store.DB) : t := mk (Index.initial db0) 0 [] [] 0.

(** Lines 269, 276, 284 and 291 of the page: which step is rendered. *)
Definition rendersRegistration (a : Index.App) : bool :=
  Index.shownWithUser Index.face_registration a.
Definition rendersVerification (a : Index.App) : bool :=
  Index.shownWithUser Index.face_verification a.
Definition rendersBlink (a : Index.App) : bool :=
  Index.shown Index.blink_verification a.
Definition rendersBallot (a : Index.App) : bool :=
  Index.shownWithUser Index.voting a.

(** [user.id] where a step is rendered with a user. *)
Definition userOf (a : Index.App) : string := default "" (Index.user (Index.st a)).

(** An event of the page itself, an event of the [i]-th [FaceVerification]
    instance, or an event of the [i]-th blink detector. *)
Inductive Event :=
| OfPage (e : Index.Event)
| OfVerification (i : nat) (e : VerificationScreen.Event)
| OfBlink (i : nat) (e : BlinkVerification.Event).

(** The callbacks that the instances kept here make themselves. *)
Definition ofInstance (e : Index.Event) : bool :=
  match e with
  | Index.FaceVerificationComplete _ | Index.FaceVerificationCancel
  | Index.BlinkComplete => true
  | _ => false
  end.

(** [onComplete] and [onVoteComplete] are called from a timer of a child
    that has been mounted (FaceRegistration.tsx lines 183 and 494-496); any
    other event of the page is not tied to a child. *)
Definition armed (p : t) (e : Index.Event) : bool :=
  match e with
  | Index.FaceRegistrationComplete => negb (Nat.eqb (registrations p) 0)
  | Index.VoteComplete => negb (Nat.eqb (ballots p) 0)
  | _ => true
  end.

Definition setVerifications (l : list Verification) (p : t) : t :=
  mk (app p) (registrations p) l (blinks p) (ballots p).
Definition setBlinks (l : list (BlinkVerification.Phase * BlinkVerification.Comp)) (p : t)
    : t :=
  mk (app p) (registrations p) (verifications p) l (ballots p).

Section WithFaceApi.

Variable euclideanDistance : list JS.number -> list JS.number -> option JS.number.

(** Whether the cleanup of an effect runs while the elements of the
    component are still in place. *)
Variable cleanupFirst : bool.

(** The instance on screen leaves it: line 276 no longer renders it. *)
Definition dismiss (v : Verification) : Verification :=
  if mounted v
  then mkVerification (userId v) false
         ((screen v).1,
          VerificationScreen.withComp (VerificationScreen.unmount cleanupFirst)
            (screen v).2)
  else v.

(** The instance on screen is rendered again, with the [userId] of this
    render. *)
Definition refresh (u : string) (v : Verification) : Verification :=
  if mounted v then mkVerification u true (screen v) else v.

(** The children once the page has gone from rendering [a] to rendering
    [a']: a child is mounted when its step starts being rendered and
    unmounted when it stops; while it stays, React keeps the instance. *)
Definition render (a a' : Index.App) (p : t) : t :=
  mk a'
     (if negb (rendersRegistration a) && rendersRegistration a'
      then S (registrations p) else registrations p)
     (match rendersVerification a, rendersVerification a' with
      | false, true =>
        verifications p ++
        [mkVerification (userOf a') true
           (VerificationScreen.Loading, VerificationScreen.mount)]
      | true, false => map dismiss (verifications p)
      | true, true => map (refresh (userOf a')) (verifications p)
      | false, false => verifications p
      end)
     (if negb (rendersBlink a) && rendersBlink a'
      then blinks p ++ [(BlinkVerification.Loading, BlinkVerification.mount)]
      else blinks p)
     (if negb (rendersBallot a) && rendersBallot a'
      then S (ballots p) else ballots p).

(** One step.  The calls that an instance makes of its props reach the
    handlers of the page whether or not the instance is still mounted:
    [onVerificationComplete] is [handleFaceVerificationComplete] (line 279),
    [onCancel] sets the registration step (line 280), [onBlinkComplete] is
    [handleBlinkComplete] (line 286).  A [FaceVerification] that is no longer
    mounted takes no click and has no video element, whatever state it
    sets. *)
Definition step (p : t) (e : Event) : option t :=
  match e with
  | OfPage e =>
    if ofInstance e || negb (armed p e) then None else
    a' ← Index.step (app p) e;
    Some (render (app p) a' p)
  | OfVerification i e =>
    v ← verifications p !! i;
    if VerificationScreen.isClick e && negb (mounted v) then None else
    s' ← VerificationScreen.step (userId v) euclideanDistance (screen v) e;
    let reports :=
      drop (length (FaceVerification.reported (VerificationScreen.comp (screen v).2)))
           (FaceVerification.reported (VerificationScreen.comp s'.2)) in
    let cancels := (VerificationScreen.cancels s'.2
                    - VerificationScreen.cancels (screen v).2)%nat in
    let a1 := foldl (fun a b => Index.handleFaceVerificationComplete b a) (app p) reports in
    let a2 := Nat.iter cancels (Index.withSt (Index.setAppState Index.face_registration)) a1 in
    let s' := if mounted v then s'
              else (s'.1, VerificationScreen.withComp VerificationScreen.detach s'.2) in
    Some (render (app p) a2
            (setVerifications
               (<[i := mkVerification (userId v) (mounted v) s']> (verifications p)) p))
  | OfBlink i e =>
    pk ← blinks p !! i;
    pk' ← BlinkVerification.step pk e;
    let calls := (BlinkVerification.blinkCompletes pk'.2
                  - BlinkVerification.blinkCompletes pk.2)%nat in
    Some (render (app p) (Nat.iter calls Index.handleBlinkComplete (app p))
            (setBlinks (<[i := pk']> (blinks p)) p))
  end.

Fixpoint run (p : t) (es : list Event) : option t :=
  match es with
  | [] => Some p
  | e :: es' =>
    match step p e with
    | Some p' => run p' es'
    | None => None
    end
  end.

End WithFaceApi.

End Page.

(** * Scenarios and predicates of the properties *)

(** ** Eye contours *)
Module Eyes.
Import BlinkVerification.

Definition pt (a b : JS.number) : Point := mkPoint a b.
Arguments pt (a b)%_float.

(** An eye whose two corners coincide while the lids are apart. *)
Definition degenerate_eye : list Point :=
  [pt 0 0; pt 0 1; pt 0 2; pt 0 0; pt 0 3; pt 0 4].

(** An eye 20 wide whose lids are [h] apart: its ratio is [2h / 40]. *)
Definition eye (h : JS.number) : list Point :=
  [pt 0 0; pt 5 0; pt 15 0; pt 20 0; pt 15 h; pt 5 h].
Arguments eye h%_float.

(** The spec's |a - b|: the Euclidean norm of the difference of two
    points. *)
Definition norm_diff (a b : Point) : JS.number :=
  JS.sqrt (JS.pow2 (x a - x b) + JS.pow2 (y a - y b))%float.

(** The spec's [eyeAspectRatio]: (|p1-p5| + |p2-p4|) / (2 |p0-p3|). *)
Definition eyeAspectRatio (p0 p1 p2 p3 p4 p5 : Point) : JS.number :=
  ((norm_diff p1 p5 + norm_diff p2 p4) / (2 * norm_diff p0 p3))%float.

End Eyes.

(** ** Contours that collapse to a point *)
Module CollapsedEyes.
Import BlinkVerification.

(** [Number.isFinite]. *)
Definition finite (d : JS.number) : bool :=
  match Prim2SF d with
  | S754_nan | S754_infinity _ => false
  | _ => true
  end.

Definition finitePoint (p : Point) : bool := finite (x p) && finite (y p).

(** An eye contour whose six landmarks coincide. *)
Definition collapsed (p : Point) : list Point := replicate 6 p.

End CollapsedEyes.

(** ** Runs of the blink detector *)
Module BlinkRuns.
Import BlinkVerification Eyes.

(** What every callback of a mounted component was created with: a render in
    which the camera was not yet active and detection had not started. *)
Definition stale (k : Comp) : Prop :=
  blinkCount (st k) = 0 /\
  isEyeClosed (st k) = false /\
  (status (st k) = waiting \/ status (st k) = detecting) /\
  (isActive (st k) = true -> status (st k) = detecting) /\
  Forall (fun i => isActive (closure i) = false) (intervals k) /\
  Forall (fun t => status (armedBy t) <> detecting) (timeouts k) /\
  settles k = 0%nat.

(** The frames of an open, a closed and an open eye, 600ms apart, seen by
    the interval [0]. *)
Definition blink_frames (t : Z) : list Event :=
  [ IntervalFires 0 (Some (mkDetection (eye 7) (eye 7))) t;
    IntervalFires 0 (Some (mkDetection (eye 2) (eye 2))) (t + 600);
    IntervalFires 0 (Some (mkDetection (eye 7) (eye 7))) (t + 1200) ].

(** The samples handled by a callback that reads the state of the latest
    render, that is with [c] equal to the live state at every sample. *)
Definition feedFresh (samples : list (JS.number * Z)) (k : Comp) : Comp :=
  foldl (fun k s => onSample (st k) (fst s) (snd s) k) k samples.

End BlinkRuns.

(** ** Runs of the face matcher *)
Module MatcherRuns.
Import Store FaceVerification VerificationScreen.

(** The component on screen, its camera having settled. *)
Definition onScreen (k : Comp) : Phase * View := (Settled, mkView k 0 []).

(** The firings of intervals among the events. *)
Definition isFiring (e : Event) : bool :=
  match e with
  | IntervalFires _ => true
  | _ => false
  end.

Definition firings (es : list Event) : nat := length (List.filter isFiring es).

Section WithProps.

Variable userId : string.
Variable euclideanDistance : list JS.number -> list JS.number -> option JS.number.

(** A fresh session: "Verify Face" clicked on the ready component. *)
Definition session (reference : list JS.number) : Comp :=
  clickVerify userId (ready reference).

(** The frame shows a face whose descriptor is within the threshold of
    [stored]. *)
Definition matches (stored : list JS.number) (detection : option (list JS.number)) : bool :=
  match detection with
  | None => false
  | Some descriptor =>
    match euclideanDistance stored descriptor with
    | Some distance => JS.lt distance threshold
    | None => false
    end
  end.

(** What happens in a session in which no frame matches and nothing is
    clicked: its interval fires, a detection settles on a frame that does
    not match. *)
Definition unmatched (reference : list JS.number) (e : Event) : Prop :=
  match e with
  | IntervalFires id => id = 0%nat
  | DetectionSettles _ detection => matches reference detection = false
  | _ => False
  end.

(** The session while it counts: the interval has fired [n] times and the
    calls in [suspended] await their detection. *)
Definition counting (reference : list JS.number) (n : Z) (suspended : list Pending) : Comp :=
  mkComp (mkState false true true (Some reference) verifying) true true (Some 0%nat)
         [mkTimer 0 100 userId (st (ready reference)) n true] 1
         suspended [] [] 0 [].

(** The session once its interval has fired with the counter at 50, while
    no insert of a timeout row has been answered. *)
Definition expired (reference : list JS.number) (suspended : list Pending)
    (shown : list Toast) : Comp :=
  mkComp (mkState false true false (Some reference) failed) true true (Some 0%nat)
         [mkTimer 0 100 userId (st (ready reference)) 50 true] 1
         suspended [] shown 0 [].

(** A call suspended in a session without a match. *)
Definition awaited (p : Pending) : Prop :=
  p = Detecting 0 \/ p = InsertingTimeout (timeoutRow userId).

End WithProps.

Definition far_frame : option (list JS.number) := Some [1; 3]%float.
Definition near_frame : list JS.number := [1; 2.3]%float.

(** A tick whose detection settles before the next one. *)
Definition tick (detection : option (list JS.number)) : list Event :=
  [IntervalFires 0; DetectionSettles 0 detection].

(** [n] such ticks on frames that show [detection]. *)
Fixpoint ticks (n : nat) (detection : option (list JS.number)) : list Event :=
  match n with
  | O => []
  | S n' => tick detection ++ ticks n' detection
  end.

(** The interval fires three times before the detection of the first frame
    settles; the frame matches, and the insert of the row is answered. *)
Definition slowDetection : list Event :=
  [IntervalFires 0; IntervalFires 0; IntervalFires 0;
   DetectionSettles 0 (Some near_frame); InsertSettles 2].

(** ... and the detections of the second and the third frame settle as
    well, on matching frames; their inserts are answered and the timers that
    were armed fire. *)
Definition repeatedSuccess : list Event :=
  slowDetection ++
  [DetectionSettles 0 (Some near_frame); DetectionSettles 0 (Some near_frame);
   InsertSettles 0; InsertSettles 0;
   CompletionFires; CompletionFires; CompletionFires].

End MatcherRuns.

(** ** Runs of the verification screen *)
Module VerificationRuns.
Import FaceVerification VerificationScreen.

(** The profile row holds the descriptor [[1, 2]]. *)
Definition enrolledReply : Loaded := mkLoaded true (Row (JArray [1; 2]%float)).

(** The profile row holds no descriptor. *)
Definition unenrolledReply : Loaded := mkLoaded true (Row (JOther false)).

(** A verification that matches on its second frame and reports. *)
Definition matching : list Event :=
  [DataSettles enrolledReply; CameraSettles true; ClickVerify;
   IntervalFires 0; DetectionSettles 0 MatcherRuns.far_frame;
   IntervalFires 0; DetectionSettles 0 (Some MatcherRuns.near_frame);
   InsertSettles 0;
   CompletionFires].

(** The camera is refused, the user cancels. *)
Definition refused : list Event :=
  [DataSettles enrolledReply; CameraSettles false; ClickCancel].

(** A session times out; before the insert of the timeout row is answered
    the user clicks "Try Again" and "Verify Face"; then the insert is
    answered. *)
Definition retryBeforeAnswer : list Event :=
  [DataSettles enrolledReply; CameraSettles true; ClickVerify] ++
  MatcherRuns.ticks 50 MatcherRuns.far_frame ++
  [IntervalFires 0; ClickTryAgain; ClickVerify; InsertSettles 0].

End VerificationRuns.

(** ** Enrollment runs and the writes of the application *)
Module Enrollment.
Import Store FaceRegistration.

(** A capture on which everything outside the component succeeds. *)
Definition goodFrame (descriptor : list JS.number) (t : Z) : Frame :=
  mkFrame (Some descriptor) true "data:image/jpeg" t false "https://store/face.jpg"
          (Some "voter@example.org") false.

(** The component with the models loaded and the camera started. *)
Definition started (db0 : DB) : Comp := startCamera true (loadModels true (mount db0)).

(** Three captures in a row, each clicked in the render on screen. *)
Definition enroll (userId : string) (d1 d2 d3 : list JS.number) (db0 : DB) : option Comp :=
  k1 ← clickCapture userId (goodFrame d1 1000) (started db0);
  k2 ← clickCapture userId (goodFrame d2 2000) k1;
  clickCapture userId (goodFrame d3 3000) k2.

(** The component after two captures, on an empty store. *)
Definition two_captured : Comp :=
  mkComp (mkState false true None false
            ["data:image/jpeg"; "data:image/jpeg"] 3
            [[1; 1; 1]; [3; 3; 3]]%float)
         true Store.empty [] [] 0.

Definition plain_fetch : Index.Fetch := Index.mkFetch None None None false.

(** The writes the application issues on the store: audit rows, votes, the
    profile row created at first login, and the upsert of enrollment, which
    always carries [is_verified: true]. *)
Inductive write : DB -> DB -> Prop :=
| write_audit row db : write db (insert_audit row db)
| write_vote fault row db : write db (insert_vote fault row db).1
| write_profile fault u e n db : write db (insert_profile fault u e n db).1
| write_upsert u e d url db : write db (upsert_profile u e d url true db).

(** The profile row of [userId] holds a descriptor and is marked verified. *)
Definition enrolled (userId : string) (db : DB) : Prop :=
  exists p, profiles db !! userId = Some p /\
            Index.truthy (Profile.face_descriptor p) = true /\
            Profile.is_verified p = true.

End Enrollment.

(** ** Runs of the registration screen *)
Module RegistrationRuns.
Import FaceRegistration RegistrationScreen.

(** A capture for which the canvas yields no blob. *)
Definition noBlob : Frame :=
  mkFrame (Some [1; 1]%float) false "" 1000 false "" None false.

(** A capture whose upload is refused. *)
Definition noUpload : Frame :=
  mkFrame (Some [5; 5]%float) true "data:image/jpeg" 1500 true "" None false.

(** The models load and the camera is started. *)
Definition start : list Event :=
  [ModelsSettle true; ClickStartCamera; CameraSettles true].

(** One capture on frame [f], carried to its end with nothing in between. *)
Definition capture (f : Frame) (stages : nat) : list Event :=
  ClickCapture f :: repeat (CaptureSettles 0) stages.

(** Three good captures in a row. *)
Definition enrollment : list Event :=
  start ++ capture (Enrollment.goodFrame [1; 1]%float 1000) 3
        ++ capture (Enrollment.goodFrame [3; 3]%float 2000) 3
        ++ capture (Enrollment.goodFrame [8; 8]%float 3000) 6.

(** The same, up to the answer of the last insert. *)
Definition auditPending : list Event :=
  start ++ capture (Enrollment.goodFrame [1; 1]%float 1000) 3
        ++ capture (Enrollment.goodFrame [3; 3]%float 2000) 3
        ++ capture (Enrollment.goodFrame [8; 8]%float 3000) 5.

(** "Start Over" is clicked while the upload of the first capture is
    awaited; the third capture then gets to its upsert. *)
Definition startOverDuringUpload : list Event :=
  start ++ [ClickCapture (Enrollment.goodFrame [1; 1]%float 1000);
            CaptureSettles 0; CaptureSettles 0;
            ClickStartOver; CameraSettles true;
            CaptureSettles 0]
        ++ capture (Enrollment.goodFrame [3; 3]%float 2000) 3
        ++ capture (Enrollment.goodFrame [8; 8]%float 3000) 4.

(** A capture whose upload is refused, up to the answer of the upload. *)
Definition uploadPending : list Event :=
  start ++ capture noUpload 2.

(** Two good captures after the refused one; a third cannot be clicked. *)
Definition afterRefusal : list Event :=
  capture (Enrollment.goodFrame [1; 1]%float 2000) 3
  ++ capture (Enrollment.goodFrame [3; 3]%float 3000) 3.

End RegistrationRuns.

(** ** Ballots *)
Module Ballots.
Import Store VotingInterface.

(** The rows of the votes table carry pairwise different keys. *)
Definition unique_votes (db : DB) : Prop := NoDup (map vote_key (votes db)).

(** A voter with an election and an option selected. *)
Definition chosen : State :=
  mkState (Some (mkElection "e1" "Council" "" ["A"; "B"])) "A" false ∅.

Definition fresh : Comp := mkComp chosen Store.empty [] [] 0.

Definition request : Request := mkRequest (Some "203.0.113.7") "Mozilla/5.0" None.

(** The address service is not reached. *)
Definition offline : Request := mkRequest None "Mozilla/5.0" None.

End Ballots.

(** ** Runs of the ballot *)
Module BallotRuns.
Import Store VotingInterface VotingScreen.

(** An election whose voting window closed at time 2000. *)
Definition council : ElectionRow :=
  mkRow (mkElection "e1" "Council" "" ["Alice"; "Bob"]) (Some 1000) (Some 2000) true.

(** An election open from time 1000 to time 9000. *)
Definition budget : ElectionRow :=
  mkRow (mkElection "e2" "Budget" "" ["Yes"; "No"]) (Some 1000) (Some 9000) true.

(** Both queries of [loadElections] succeed. *)
Definition loaded : Loaded := mkLoaded (Some [council; budget]) false false.

(** The query of the votes fails. *)
Definition votesUnknown : Loaded := mkLoaded (Some [council; budget]) true false.

(** A store in which the user [u1] has voted in the election [e1]. *)
Definition voted : DB :=
  mkDB ∅ [Vote.mk "u1" "e1" "Alice" true true "203.0.113.7" "Mozilla/5.0"] [].

(** A store in which the user [u1] has voted in both elections. *)
Definition votedBoth : DB :=
  mkDB ∅ [Vote.mk "u1" "e1" "Alice" true true "203.0.113.7" "Mozilla/5.0";
          Vote.mk "u1" "e2" "Yes" true true "203.0.113.7" "Mozilla/5.0"] [].

End BallotRuns.

(** ** Runs of the page *)
Module Sessions.
Import Store.

(** The store holds the profile of the enrolled user u1, and none for u2. *)
Definition enrolled : DB :=
  mkDB {[ "u1" := Profile.mk "u1" "voter@example.org" (Some "User")
                    (Some [1; 2]%float) (Some "https://cdn.example.org/u1.jpg") true ]}
       [] [].

(** What [loadUserProfile] gets when the store answers. *)
Definition fetched (email : string) : Index.Fetch :=
  Index.mkFetch None (Some email) None false.

(** u1 signs in and is taken to face verification; the first frame matches
    and the success row is inserted, which arms the 1500ms timer of line
    858. *)
Definition verify : list Page.Event :=
  [ Page.OfPage (Index.AuthStateChange (Some "u1"));
    Page.OfPage (Index.LoadUserProfileSettles "u1" (fetched "voter@example.org"));
    Page.OfVerification 0 (VerificationScreen.DataSettles VerificationRuns.enrolledReply);
    Page.OfVerification 0 (VerificationScreen.CameraSettles true);
    Page.OfVerification 0 VerificationScreen.ClickVerify;
    Page.OfVerification 0 (VerificationScreen.IntervalFires 0);
    Page.OfVerification 0
      (VerificationScreen.DetectionSettles 0 (Some MatcherRuns.near_frame));
    Page.OfVerification 0 (VerificationScreen.InsertSettles 0) ].

(** ... u1 clicks "Sign Out" before the timer fires; then it fires. *)
Definition signOutAfterMatch : list Page.Event :=
  verify ++
  [ Page.OfPage Index.ClickSignOut;
    Page.OfVerification 0 VerificationScreen.CompletionFires ].

(** ... u1 clicks "Sign Out" and u2, who has no profile yet, signs in and is
    taken to registration, all before the timer fires; then it fires. *)
Definition takeover : list Page.Event :=
  verify ++
  [ Page.OfPage Index.ClickSignOut;
    Page.OfPage (Index.AuthStateChange (Some "u2"));
    Page.OfPage (Index.LoadUserProfileSettles "u2" (fetched "other@example.org"));
    Page.OfVerification 0 VerificationScreen.CompletionFires ].

(** u1 verifies, the timer fires, and u1 blinks in front of the detector
    that the page has mounted. *)
Definition login : list Page.Event :=
  verify ++
  [ Page.OfVerification 0 VerificationScreen.CompletionFires;
    Page.OfBlink 0 (BlinkVerification.ModelsSettle true);
    Page.OfBlink 0 (BlinkVerification.CameraSettles true);
    Page.OfBlink 0 (BlinkVerification.IntervalFires 0
                      (Some (BlinkVerification.mkDetection (Eyes.eye 2) (Eyes.eye 2)))
                      1700000000000);
    Page.OfBlink 0 (BlinkVerification.IntervalFires 0
                      (Some (BlinkVerification.mkDetection (Eyes.eye 7) (Eyes.eye 7)))
                      1700000000600) ].

(** The ballot has never been on screen. *)
Definition barred (p : Page.t) : Prop :=
  Index.appState (Index.st (Page.app p)) <> Index.voting /\
  Index.appState (Index.st (Page.app p)) <> Index.complete /\
  Forall (fun pk => BlinkRuns.stale pk.2) (Page.blinks p) /\
  Page.ballots p = 0%nat.

End Sessions.

(** ** Profile loads *)
Module ProfileLoads.
Import Store Index.

(** The row that [loadUserProfile] inserts for a user without one. *)
Definition defaultRow (userId : string) (f : Fetch) : Profile.t :=
  Profile.mk userId (orElse (authEmail f) "") (Some (orElse (authFullName f) "User"))
             None None false.

(** The store answers the select without an error and accepts the insert. *)
Definition answered (f : Fetch) : Prop :=
  selectError f = None /\ insertFault f = false.

(** Enrollment completes and starts a profile load; the user signs out
    before the store answers. *)
Definition signOutDuringLoad : list Event :=
  [ AuthStateChange (Some "u1");
    LoadUserProfileSettles "u1" (mkFetch None (Some "voter@example.org") None false);
    FaceRegistrationComplete;
    ClickSignOut;
    LoadUserProfileSettles "u1" (mkFetch None (Some "voter@example.org") None false) ].

End ProfileLoads.

(** * Properties *)

(** ** Numbers *)
Module JSFacts.

(** A positive number divided by (positive) zero is +Infinity. *)
Lemma div_pos_zero (v : JS.number) :
  (0 <? v)%float = true -> (v / 0)%float = infinity.
Proof.
  intros H. apply Prim2SF_inj. rewrite div_spec.
  rewrite ltb_spec in H.
  change (Prim2SF 0) with (S754_zero false) in *.
  change (Prim2SF infinity) with (S754_infinity false).
  destruct (Prim2SF v) as [s | s | | s m e]; simpl in H;
    try discriminate; destruct s; try discriminate; reflexivity.
Qed.

(** The magnitude of a rounded value does not depend on its sign. *)
Lemma binary_round_abs prec emax s m e :
  SFabs (binary_round prec emax s m e) = SFabs (binary_round prec emax (negb s) m e).
Proof.
  unfold binary_round, binary_round_aux.
  destruct (shl_align m e _) as [mz ez].
  destruct (shr_fexp prec emax (Z.pos mz) ez loc_Exact) as [mrs' e'].
  destruct (shr_fexp prec emax _ e' loc_Exact) as [mrs'' e''].
  destruct (shr_m mrs''); try reflexivity.
  destruct (e'' <=? emax - prec); reflexivity.
Qed.

Lemma binary_normalize_abs prec emax z e :
  SFabs (binary_normalize prec emax z e false)
  = SFabs (binary_normalize prec emax (- z) e false).
Proof.
  destruct z as [|m|m]; simpl; [reflexivity| |].
  - apply (binary_round_abs prec emax false).
  - apply (binary_round_abs prec emax true).
Qed.

(** [a - b] and [b - a] have the same magnitude. *)
Lemma SFsub_abs prec emax x y :
  SFabs (SFsub prec emax x y) = SFabs (SFsub prec emax y x).
Proof.
  destruct x as [sx|sx| |sx mx ex], y as [sy|sy| |sy my ey];
    try reflexivity;
    try (destruct sx; reflexivity); try (destruct sy; reflexivity);
    try (destruct sx, sy; reflexivity).
  cbn [SFsub]. rewrite (Z.min_comm ey ex).
  rewrite binary_normalize_abs. f_equal. f_equal. lia.
Qed.

(** A square depends on the magnitude only. *)
Lemma SFmul_self_abs prec emax f g :
  SFabs f = SFabs g -> SFmul prec emax f f = SFmul prec emax g g.
Proof.
  destruct f as [s|s| |s m e], g as [t|t| |t n d]; simpl; try discriminate;
    intros H; try reflexivity.
  - destruct s, t; reflexivity.
  - destruct s, t; reflexivity.
  - injection H as -> ->. destruct s, t; reflexivity.
Qed.

(** [(b - a)^2] and [(a - b)^2] are the same number, bit for bit. *)
Lemma pow2_diff_sym (a b : JS.number) :
  JS.pow2 (b - a)%float = JS.pow2 (a - b)%float.
Proof.
  unfold JS.pow2. apply Prim2SF_inj. rewrite !mul_spec, !sub_spec.
  apply SFmul_self_abs. apply SFsub_abs.
Qed.

Example fround_tenth : JS.fround 0.1%float = 0.10000000149011612%float.
Proof. vm_compute. reflexivity. Qed.

Example fround_overflow : JS.fround 1e40%float = infinity.
Proof. vm_compute. reflexivity. Qed.

End JSFacts.

(** ** The eye aspect ratio *)
Module EARFacts.
Import BlinkVerification Eyes.

Example ear_open : calculateEAR (eye 7) = Some 0.35%float.
Proof. vm_compute. reflexivity. Qed.

Example ear_closed : calculateEAR (eye 2) = Some 0.10%float.
Proof. vm_compute. reflexivity. Qed.

Example ear_short_array : calculateEAR [pt 0 0; pt 5 0; pt 15 0] = None.
Proof. reflexivity. Qed.

(** The [distance] of the code, which subtracts the first point from the
    second, is the spec's norm of the difference. *)
Lemma distance_norm_diff (a b : Point) : distance a b = norm_diff a b.
Proof.
  unfold distance, norm_diff.
  now rewrite (JSFacts.pow2_diff_sym (x a) (x b)), (JSFacts.pow2_diff_sym (y a) (y b)).
Qed.

(** C9 as stated fails: with the corners at the same place and the lids
    apart, [calculateEAR] neither throws nor returns NaN: it returns
    +Infinity. *)
Lemma calculateEAR_zero_width_is_infinity :
  norm_diff (pt 0 0) (pt 0 0) = 0%float /\
  calculateEAR degenerate_eye = Some infinity /\
  ~ (calculateEAR degenerate_eye = None \/
     exists r, calculateEAR degenerate_eye = Some r /\ JS.isNaN r = true).
Proof.
  assert (E : calculateEAR degenerate_eye = Some infinity) by (vm_compute; reflexivity).
  split; [vm_compute; reflexivity|]. split; [exact E|].
  rewrite E. intros [H | (r & H & Hn)]; [discriminate|].
  injection H as <-. vm_compute in Hn. discriminate.
Qed.

(** C9 (amended): on six points [calculateEAR] returns the spec's
    (|p1-p5| + |p2-p4|) / (2 |p0-p3|), the points counted from 0; when
    |p0-p3| is zero nothing fails: the result is +Infinity if the vertical
    sum is positive and NaN if the vertical sum is zero as well. *)
Theorem calculateEAR_formula (p0 p1 p2 p3 p4 p5 : Point) :
  let vertical := (norm_diff p1 p5 + norm_diff p2 p4)%float in
  let r := calculateEAR [p0; p1; p2; p3; p4; p5] in
  r = Some (eyeAspectRatio p0 p1 p2 p3 p4 p5) /\
  (norm_diff p0 p3 = 0%float -> (0 <? vertical)%float = true -> r = Some infinity) /\
  (norm_diff p0 p3 = 0%float -> vertical = 0%float -> r = Some nan).
Proof.
  intros vertical r.
  assert (E : r = Some (eyeAspectRatio p0 p1 p2 p3 p4 p5)).
  { subst r. unfold calculateEAR, eyeAspectRatio. simpl.
    now rewrite !distance_norm_diff. }
  split; [exact E|]. rewrite E. unfold eyeAspectRatio. fold vertical.
  split; intros HC HV; rewrite HC.
  - change (2 * 0)%float with 0%float. now rewrite JSFacts.div_pos_zero.
  - rewrite HV. vm_compute. reflexivity.
Qed.

Lemma calculateEAR_formula_witness :
  norm_diff (pt 0 0) (pt 0 0) = 0%float /\
  (0 <? norm_diff (pt 0 1) (pt 0 4) + norm_diff (pt 0 2) (pt 0 3))%float = true /\
  calculateEAR degenerate_eye = Some infinity.
Proof.
  split; [vm_compute; reflexivity|]. split; [vm_compute; reflexivity|].
  apply (calculateEAR_formula (pt 0 0) (pt 0 1) (pt 0 2) (pt 0 0) (pt 0 3) (pt 0 4));
    vm_compute; reflexivity.
Defined.

End EARFacts.

(** ** The blink detector *)
Module BlinkFacts.
Import BlinkVerification Eyes BlinkRuns.

Lemma stale_mount : stale mount.
Proof. unfold stale, mount; simpl. repeat split; auto; try discriminate. Qed.

Lemma filter_head_in {A} (f : A -> bool) (l : list A) (a : A) (r : list A) :
  filter f l = a :: r -> a ∈ l.
Proof.
  intros H. assert (I : a ∈ filter f l) by (rewrite H; left).
  apply list_elem_of_filter in I. tauto.
Qed.

Lemma Forall_remove_nth {A} (P : A -> Prop) (l : list A) (n : nat) :
  Forall P l -> Forall P (take n l ++ drop (S n) l).
Proof.
  intros H. apply Forall_app. split.
  - now apply Forall_take.
  - now apply Forall_drop.
Qed.

Ltac stale_fields :=
  unfold stale; simpl; repeat split; auto; try discriminate;
  try (apply Forall_app; split; auto; repeat constructor; simpl; auto; discriminate).

Lemma step_stale p k e p' k' :
  stale k -> step (p, k) e = Some (p', k') -> stale k'.
Proof.
  intros (Hc & He & Hs & Ha & Hi & Ht & Hz) Hstep.
  destruct e as [loaded | granted | id det now | n | | ]; simpl in Hstep.
  - destruct p; try discriminate. injection Hstep as _ <-.
    destruct loaded; stale_fields.
  - destruct p; try discriminate. injection Hstep as _ <-.
    destruct granted; unfold startCamera; [destruct (videoRef k)|]; stale_fields.
  - destruct (filter _ (intervals k)) as [|i r] eqn:F; [discriminate|].
    injection Hstep as _ <-.
    apply filter_head_in in F.
    assert (Hf : isActive (closure i) = false).
    { rewrite Forall_forall in Hi. exact (Hi _ F). }
    unfold intervalCallback. rewrite Hf, orb_true_r. stale_fields.
  - destruct (timeouts k !! n) as [t|] eqn:L; [|discriminate].
    injection Hstep as _ <-.
    assert (Hd : status (armedBy t) <> detecting).
    { rewrite Forall_forall in Ht. apply (Ht t).
      eapply list_elem_of_lookup_2; eauto. }
    unfold timeoutCallback.
    replace (Status_eqb (status (armedBy t)) detecting) with false
      by (destruct (status (armedBy t)); simpl; congruence).
    rewrite andb_false_r. stale_fields. now apply Forall_remove_nth.
  - rewrite Hz in Hstep. discriminate.
  - destruct (buttonShown k) eqn:B; [|discriminate]. injection Hstep as _ <-.
    unfold buttonShown in B. apply andb_true_iff in B as [_ B].
    assert (Hw : status (st k) <> detecting).
    { intros E. rewrite E in B. discriminate. }
    assert (HA : isActive (st k) = false).
    { destruct (isActive (st k)); auto. exfalso; auto. }
    unfold clickStart, startBlinkDetection. stale_fields.
Qed.

(** No run of a mounted component ever counts a blink, completes or fails:
    the callbacks keep reading the render that created them. *)
Lemma run_stale es : forall p k p' k',
  stale k -> run (p, k) es = Some (p', k') -> stale k'.
Proof.
  induction es as [|e es IH]; intros p k p' k' Hk Hrun; cbn [run] in Hrun.
  - congruence.
  - destruct (step (p, k) e) as [[p1 k1]|] eqn:S; [|discriminate].
    eapply IH; [|exact Hrun]. eapply step_stale; eauto.
Qed.

Lemma mounted_never_counts es p k :
  run (Loading, mount) es = Some (p, k) ->
  blinkCount (st k) = 0 /\ status (st k) <> completed /\ status (st k) <> failed.
Proof.
  intros H. apply run_stale in H; [|apply stale_mount].
  destruct H as (Hc & _ & Hs & _). split; [auto|].
  split; intros E; rewrite E in Hs; destruct Hs; discriminate.
Qed.

(** Even past the guard of line 84, a callback whose render has
    [isEyeClosed] false, as every render that starts detection has, never
    counts: the closing edge only ever sets the live flag, which the callback
    does not read. *)
Lemma onSample_stale_never_counts c avgEAR currentTime k :
  isEyeClosed c = false ->
  blinkCount (st (onSample c avgEAR currentTime k)) = blinkCount (st k) /\
  status (st (onSample c avgEAR currentTime k)) = status (st k).
Proof.
  intros H. unfold onSample. rewrite H. simpl.
  destruct (JS.lt avgEAR blinkThreshold); [|auto].
  destruct (currentTime - lastBlinkTime c >? 500); auto.
Qed.

(** C4: mounted with the models loaded and the camera granted, the component
    is shown frames whose ratios are 0.35, 0.10, 0.35, 600ms apart, and ends
    with [blinkCount] 0, not 1: the interval callback was created by the
    first render, whose [isActive] is false, so each tick returns at line 84.
    With the state of the latest render the same samples count one blink. *)
Theorem blink_sequence_not_counted :
  calculateEAR (eye 7) = Some 0.35%float /\
  calculateEAR (eye 2) = Some 0.10%float /\
  exists k,
    run (Loading, mount)
        ([ModelsSettle true; CameraSettles true] ++ blink_frames 1700000000000)
      = Some (Settled, k) /\
    status (st k) = detecting /\
    blinkCount (st k) = 0 /\
    toasts k = [] /\
    blinkCount (st (feedFresh [(0.35%float, 1700000000000);
                               (0.10%float, 1700000000600);
                               (0.35%float, 1700000001200)] k)) = 1.
Proof.
  split; [vm_compute; reflexivity|]. split; [vm_compute; reflexivity|].
  eexists. repeat split; vm_compute; reflexivity.
Qed.

(** C5: mounted with the models loaded and the camera granted, the component
    sees no blink and its 30000ms timer fires: [status] stays [detecting],
    the camera stays on and the interval keeps running, because the timer
    tests the [status] of the render that armed it, which is [waiting]. *)
Theorem blink_timeout_does_not_fail :
  exists k,
    run (Loading, mount) [ModelsSettle true; CameraSettles true; TimeoutFires 0]
      = Some (Settled, k) /\
    blinkCount (st k) = 0 /\
    status (st k) = detecting /\
    srcObject k = true /\
    isActive (st k) = true /\
    intervals k = [mkInterval 0 100 initialState] /\
    toasts k = [].
Proof. eexists. repeat split; vm_compute; reflexivity. Qed.

End BlinkFacts.

(** ** The face matcher *)
Module FaceVerificationFacts.
Import Store FaceVerification VerificationScreen MatcherRuns.

Section Matcher.

Variable userId : string.
Variable euclideanDistance : list JS.number -> list JS.number -> option JS.number.

Local Abbreviation step := (VerificationScreen.step userId euclideanDistance).
Local Abbreviation run := (VerificationScreen.run userId euclideanDistance).
Local Abbreviation matches := (MatcherRuns.matches euclideanDistance).
Local Abbreviation unmatched := (MatcherRuns.unmatched euclideanDistance).
Local Abbreviation session := (MatcherRuns.session userId).
Local Abbreviation counting := (MatcherRuns.counting userId).
Local Abbreviation expired := (MatcherRuns.expired userId).
Local Abbreviation awaited := (MatcherRuns.awaited userId).

Lemma geb_false (n m : Z) : n < m -> (n >=? m) = false.
Proof. intros H. rewrite Z.geb_leb. apply Z.leb_gt. exact H. Qed.

Lemma session_counting reference : session reference = counting reference 0 [].
Proof. reflexivity. Qed.

(** A detection that settles on a frame that does not match changes
    nothing. *)
Lemma afterDetection_miss id detection k t stored :
  find (isTimer id) (intervals k) = Some t ->
  storedDescriptor (closure t) = Some stored ->
  matches stored detection = false ->
  afterDetection euclideanDistance id detection k = k.
Proof.
  intros F Hs Hm. unfold afterDetection. rewrite F.
  destruct detection as [descriptor|]; [|reflexivity]. rewrite Hs.
  unfold MatcherRuns.matches in Hm.
  destruct (euclideanDistance stored descriptor); [|reflexivity].
  now rewrite Hm.
Qed.

Lemma isFiring_count e es :
  firings (e :: es) = ((if isFiring e then 1 else 0) + firings es)%nat.
Proof. unfold firings. cbn. destruct (isFiring e); reflexivity. Qed.

(** One event of a session without a match, while it counts. *)
Lemma step_counting reference n suspended c ns p e p' v' :
  0 <= n < maxAttempts ->
  Forall (fun q => q = Detecting 0) suspended ->
  unmatched reference e ->
  step (p, mkView (counting reference n suspended) c ns) e = Some (p', v') ->
  exists suspended',
    p' = p /\
    v' = mkView (counting reference (n + (if isFiring e then 1 else 0)) suspended') c ns /\
    Forall (fun q => q = Detecting 0) suspended'.
Proof.
  intros Hn Hs He S.
  destruct e as [l | granted | | id | i detection | i | | | ]; cbn in He; try contradiction.
  - subst id. cbn [VerificationScreen.step comp] in S.
    change (running 0 (counting reference n suspended)) with true in S.
    injection S as <- <-. exists (suspended ++ [Detecting 0]).
    split; [reflexivity|]. split.
    + unfold withComp, intervalCallback. cbn.
      rewrite (geb_false n maxAttempts) by lia. reflexivity.
    + apply Forall_app. split; [exact Hs | repeat constructor].
  - cbn [VerificationScreen.step comp] in S.
    change (pending (counting reference n suspended)) with suspended in S.
    destruct (suspended !! i) as [q|] eqn:L; [|discriminate].
    assert (Hq : q = Detecting 0).
    { rewrite Forall_forall in Hs. apply Hs. eapply list_elem_of_lookup_2; eauto. }
    subst q. injection S as <- <-. exists (delete i suspended).
    split; [reflexivity|]. split.
    + unfold withComp. cbn [comp cancels notices]. f_equal.
      rewrite (afterDetection_miss 0 detection _
                 (mkTimer 0 100 userId (st (ready reference)) n true) reference);
        [|reflexivity|reflexivity|exact He].
      cbn. now rewrite Z.add_0_r.
    + now apply Forall_delete.
Qed.

Lemma run_counting reference es : forall n suspended c ns p p' v',
  0 <= n -> n + Z.of_nat (firings es) <= maxAttempts ->
  Forall (fun q => q = Detecting 0) suspended ->
  Forall (unmatched reference) es ->
  run (p, mkView (counting reference n suspended) c ns) es = Some (p', v') ->
  exists suspended',
    p' = p /\
    v' = mkView (counting reference (n + Z.of_nat (firings es)) suspended') c ns /\
    Forall (fun q => q = Detecting 0) suspended'.
Proof.
  induction es as [|e es IH]; intros n suspended c ns p p' v' Hn Hle Hs Hall R;
    cbn [VerificationScreen.run] in R.
  - injection R as <- <-. exists suspended. cbn. rewrite Z.add_0_r. auto.
  - destruct (step _ e) as [[p1 v1]|] eqn:E; [|discriminate].
    apply Forall_cons in Hall as [He Hall]. rewrite isFiring_count in Hle |- *.
    assert (Hlt : isFiring e = true -> n < maxAttempts).
    { intros F. rewrite F in Hle. lia. }
    destruct (isFiring e) eqn:F.
    + destruct (step_counting reference n suspended c ns p e p1 v1
                  (conj Hn (Hlt eq_refl)) Hs He E) as (s1 & -> & -> & Hs1).
      rewrite F in R.
      destruct (IH (n + 1) s1 c ns p p' v') as (s2 & -> & -> & Hs2); auto; try lia.
      exists s2. repeat split; auto. do 2 f_equal. lia.
    + destruct e; cbn in He, F; try contradiction; try discriminate.
      (* a detection settles: the counter is not read by the step *)
      cbn [VerificationScreen.step comp] in E.
      change (pending (counting reference n suspended)) with suspended in E.
      destruct (suspended !! i) as [q|] eqn:L; [|discriminate].
      assert (Hq : q = Detecting 0).
      { rewrite Forall_forall in Hs. apply Hs. eapply list_elem_of_lookup_2; eauto. }
      subst q. injection E as <- <-.
      unfold withComp in R. cbn [comp cancels notices] in R.
      rewrite (afterDetection_miss 0 detection _
                 (mkTimer 0 100 userId (st (ready reference)) n true) reference) in R;
        [|reflexivity|reflexivity|exact He].
      destruct (IH n (delete i suspended) c ns p p' v') as (s2 & -> & -> & Hs2); auto;
        try lia.
      { now apply Forall_delete. }
      exists s2. repeat split; auto.
Qed.

(** One event of a session without a match, once it has expired. *)
Lemma step_expired reference suspended shown c ns p e p' v' :
  Forall awaited suspended ->
  unmatched reference e ->
  step (p, mkView (expired reference suspended shown) c ns) e = Some (p', v') ->
  exists suspended' shown',
    p' = p /\ v' = mkView (expired reference suspended' shown') c ns /\
    Forall awaited suspended'.
Proof.
  intros Hs He S.
  destruct e as [l | granted | | id | i detection | i | | | ]; cbn in He; try contradiction.
  - subst id. cbn [VerificationScreen.step comp] in S.
    change (running 0 (expired reference suspended shown)) with true in S.
    injection S as <- <-.
    exists (suspended ++ [InsertingTimeout (timeoutRow userId)]), (shown ++ [ToastTimedOut]).
    split; [reflexivity|]. split; [reflexivity|].
    apply Forall_app. split; [exact Hs|]. constructor; [now right | constructor].
  - cbn [VerificationScreen.step comp] in S.
    change (pending (expired reference suspended shown)) with suspended in S.
    destruct (suspended !! i) as [q|] eqn:L; [|discriminate].
    destruct q as [id | row | row]; try discriminate.
    assert (Hq : awaited (Detecting id)).
    { rewrite Forall_forall in Hs. apply Hs. eapply list_elem_of_lookup_2; eauto. }
    destruct Hq as [Hq | Hq]; [|discriminate]. injection Hq as ->.
    injection S as <- <-. exists (delete i suspended), shown.
    split; [reflexivity|]. split.
    + unfold withComp. cbn [comp cancels notices]. f_equal.
      rewrite (afterDetection_miss 0 detection _
                 (mkTimer 0 100 userId (st (ready reference)) 50 true) reference);
        [reflexivity|reflexivity|reflexivity|exact He].
    + now apply Forall_delete.
Qed.

Lemma run_expired reference es : forall suspended shown c ns p p' v',
  Forall awaited suspended ->
  Forall (unmatched reference) es ->
  run (p, mkView (expired reference suspended shown) c ns) es = Some (p', v') ->
  exists suspended' shown',
    p' = p /\ v' = mkView (expired reference suspended' shown') c ns /\
    Forall awaited suspended'.
Proof.
  induction es as [|e es IH]; intros suspended shown c ns p p' v' Hs Hall R;
    cbn [VerificationScreen.run] in R.
  - injection R as <- <-. eauto.
  - destruct (step _ e) as [[p1 v1]|] eqn:E; [|discriminate].
    apply Forall_cons in Hall as [He Hall].
    destruct (step_expired _ _ _ _ _ _ _ _ _ Hs He E) as (s1 & t1 & -> & -> & Hs1).
    eapply IH; eauto.
Qed.

Lemma clearCurrent_bounded k : bounded k -> bounded (clearCurrent k).
Proof.
  unfold bounded, clearCurrent. intros H. destruct (intervalRef k); [|exact H].
  cbn. apply Forall_map. eapply Forall_impl; [exact H|].
  intros t Ht. cbn. destruct (isTimer n t); exact Ht.
Qed.

(** The counters stay within bounds whatever happens to the component. *)
Lemma step_bounded p v e p' v' :
  bounded (comp v) -> step (p, v) e = Some (p', v') -> bounded (comp v').
Proof.
  intros B S.
  destruct e as [l | granted | | id | i detection | i | | | ];
    cbn [VerificationScreen.step] in S.
  - destruct p; try discriminate. injection S as _ <-.
    unfold loadModelsAndData. destruct (negb _); [exact B|].
    destruct (reply l) as [|[d|[|]]]; exact B.
  - destruct p; try discriminate. injection S as _ <-.
    unfold withComp, startCamera. cbn [comp].
    destruct granted; [destruct (videoRef (comp v))|]; exact B.
  - destruct (verifyEnabled (comp v)); [|discriminate]. injection S as _ <-.
    unfold withComp, clickVerify, startVerification. cbn [comp].
    destruct (storedDescriptor (st (comp v))); [|exact B].
    unfold bounded. cbn. apply Forall_app. split; [exact B|].
    constructor; [cbn; unfold maxAttempts; lia | constructor].
  - destruct (running id (comp v)); [|discriminate]. injection S as _ <-.
    unfold withComp, intervalCallback. cbn [comp].
    destruct (find _ _) as [t|] eqn:F; [|exact B].
    destruct (negb (videoRef (comp v)) || negb (isActive (closure t))
              || (attempts t >=? maxAttempts)) eqn:G.
    + destruct (attempts t >=? maxAttempts); [exact B|]. now apply clearCurrent_bounded.
    + apply orb_false_iff in G as [_ G].
      assert (Hlt : attempts t < maxAttempts).
      { rewrite Z.geb_leb in G. now apply Z.leb_gt in G. }
      assert (H0 : 0 <= attempts t).
      { apply find_some in F as [Hin _]. unfold bounded in B.
        rewrite Forall_forall in B. apply list_elem_of_In in Hin. apply B in Hin. lia. }
      unfold bounded. cbn. apply Forall_map. eapply Forall_impl; [exact B|].
      intros t' Ht'. cbn. destruct (isTimer id t'); cbn; [lia | exact Ht'].
  - destruct (pending (comp v) !! i) as [[id | row | row]|]; try discriminate.
    injection S as _ <-. unfold withComp, afterDetection. cbn [comp].
    change (intervals (resume i (comp v))) with (intervals (comp v)).
    destruct (find _ _) as [t|]; [|exact B].
    destruct detection as [descriptor|]; [|exact B].
    destruct (storedDescriptor (closure t)) as [stored|]; [|exact B].
    destruct (euclideanDistance stored descriptor) as [distance|]; [|exact B].
    destruct (JS.lt distance threshold); [|exact B].
    apply (clearCurrent_bounded
             (withSt (setIsVerifying false)
                (withSt (setVerificationStatus success) (resume i (comp v))))).
    exact B.
  - destruct (pending (comp v) !! i) as [[id | row | row]|]; try discriminate;
      injection S as _ <-; unfold withComp; cbn [comp].
    + apply (clearCurrent_bounded (insertAudit row (resume i (comp v)))). exact B.
    + exact B.
  - destruct (_ <? _)%nat; [|discriminate]. injection S as _ <-.
    unfold withComp, completionCallback, stopCamera. cbn [comp].
    match goal with |- bounded (mkComp _ _ _ _ (intervals (clearCurrent ?k)) _ _ _ _ _ _) =>
      change (bounded (clearCurrent k)) end.
    apply clearCurrent_bounded. destruct (_ && _); exact B.
  - destruct (tryAgainShown (comp v)); [|discriminate]. injection S as _ <-. exact B.
  - destruct (cancelShown (comp v)); [|discriminate]. injection S as _ <-. exact B.
Qed.

Lemma run_bounded es : forall p v p' v',
  bounded (comp v) -> run (p, v) es = Some (p', v') -> bounded (comp v').
Proof.
  induction es as [|e es IH]; intros p v p' v' B R; cbn [VerificationScreen.run] in R.
  - injection R as _ <-. exact B.
  - destruct (step (p, v) e) as [[p1 v1]|] eqn:E; [|discriminate].
    eapply IH; [|exact R]. eapply step_bounded; eauto.
Qed.


End Matcher.

Example far_distance : FaceApi.euclideanDistance [1; 2]%float [1; 3]%float = Some 1%float.
Proof. vm_compute. reflexivity. Qed.

Lemma ticks_unmatched reference n :
  matches FaceApi.euclideanDistance reference far_frame = false ->
  Forall (unmatched FaceApi.euclideanDistance reference) (ticks n far_frame).
Proof.
  intros H. induction n as [|n IH]; cbn; [constructor|].
  constructor; [reflexivity|]. constructor; [exact H | exact IH].
Qed.



(** C7: in a fresh session whose interval fires three times before the
    detection of the first frame settles, a first frame that matches is
    logged with attempts = 3, not 1: the callback reads the counter after
    the detection it awaited, and the interval went on firing meanwhile.
    When the detections of the other two frames settle on a match as well,
    the success is repeated for each: three rows, three messages, and
    [onVerificationComplete(true)] called three times. *)
Theorem first_match_logs_later_attempts :
  exists distance,
    FaceApi.euclideanDistance [1; 2]%float near_frame = Some distance /\
    JS.lt distance 0.6%float = true /\
    (exists p v,
       VerificationScreen.run "u1" FaceApi.euclideanDistance
         (onScreen (session "u1" [1; 2]%float)) slowDetection = Some (p, v) /\
       verificationStatus (st (comp v)) = success /\
       audit_logs (comp v) = [successRow "u1" distance 3] /\
       successRow "u1" distance 3 <> successRow "u1" distance 1) /\
    (exists p v,
       VerificationScreen.run "u1" FaceApi.euclideanDistance
         (onScreen (session "u1" [1; 2]%float)) repeatedSuccess = Some (p, v) /\
       audit_logs (comp v) = replicate 3 (successRow "u1" distance 3) /\
       toasts (comp v) = replicate 3 ToastVerified /\
       reported (comp v) = [true; true; true]).
Proof.
  destruct (FaceApi.euclideanDistance [1; 2]%float near_frame) as [distance|] eqn:D;
    [|vm_compute in D; discriminate].
  exists distance. split; [reflexivity|].
  vm_compute in D. injection D as <-.
  split; [vm_compute; reflexivity|]. split.
  - eexists _, _. split; [vm_compute; reflexivity|].
    split; [reflexivity|]. split; [reflexivity|]. discriminate.
  - eexists _, _. split; [vm_compute; reflexivity|].
    split; [reflexivity|]. split; reflexivity.
Qed.

End FaceVerificationFacts.

(** ** Enrollment *)
Module FaceRegistrationFacts.
Import Store FaceRegistration Enrollment.

Example average_of_three :
  averageDescriptors [[1; 1; 1]; [3; 3; 3]; [5; 5; 5]]%float = Some [3; 3; 3]%float.
Proof. vm_compute. reflexivity. Qed.

Lemma average_two d1 d2 :
  averageDescriptors [d1; d2]
  = Some (map (fun i => JS.fround ((0 + at_ d1 i + at_ d2 i) / 2)%float)
              (seq 0 (length d1))).
Proof. reflexivity. Qed.

(** The last capture when everything outside the component succeeds: what is
    written and what is armed. *)
Lemma captureFace_final userId c f k descriptor avg :
  refsMounted (st k) = true ->
  detection f = Some descriptor ->
  blob f = true ->
  uploadError f = false ->
  (currentStep c <? maxSteps) = false ->
  averageDescriptors (allDescriptors c) = Some avg ->
  dbError f = false ->
  let k' := captureFace userId c f k in
  db k' = insert_audit
            (AuditLog.mk userId "FACE_REGISTERED"
               (AuditLog.FaceRegistered true maxSteps
                  (Z.of_nat (length (allDescriptors c)))))
            (upsert_profile userId (default "" (authEmail f)) avg (publicUrl f) true (db k)) /\
  faceDescriptor (st k') = Some avg /\
  allDescriptors (st k') = allDescriptors (st k) ++ [descriptor] /\
  completions k' = S (completions k).
Proof.
  intros Hr Hd Hb Hu Hs Ha He k'. subst k'. unfold captureFace.
  rewrite Hr, Hd, Hb, Hu, Hs, Ha, He. cbn [negb].
  unfold stopCamera. 
  match goal with |- context [if ?b then _ else _] => destruct b end;
    repeat split.
Qed.

(** The third capture never enters the mean: the handler clicked at step 3
    belongs to the render in which [allDescriptors] holds two captures. *)
Lemma enroll_ignores_third userId d1 d2 d3 db0 :
  exists k,
    enroll userId d1 d2 d3 db0 = Some k /\
    allDescriptors (st k) = [d1; d2; d3] /\
    faceDescriptor (st k) = averageDescriptors [d1; d2] /\
    (Profile.face_descriptor <$> (profiles (db k) !! userId))
      = Some (averageDescriptors [d1; d2]).
Proof.
  set (k2 := mkComp (mkState false true None false
                       ["data:image/jpeg"; "data:image/jpeg"] 3 [d1; d2])
                    true db0 [mkUpload 1 1000; mkUpload 2 2000]
                    [ToastStepCaptured 1; ToastStepCaptured 2] 0).
  exists (captureFace userId (st k2) (goodFrame d3 3000) k2).
  split; [reflexivity|].
  destruct (captureFace_final userId (st k2) (goodFrame d3 3000) k2 d3 _
              eq_refl eq_refl eq_refl eq_refl eq_refl (average_two d1 d2) eq_refl)
    as (Hdb & Hf & Hall & _).
  split; [exact Hall|]. split; [rewrite Hf; symmetry; apply average_two|].
  rewrite Hdb, average_two. unfold upsert_profile, insert_audit. cbn [profiles].
  rewrite lookup_insert_eq. reflexivity.
Qed.

(** C8: the captures [1,1,1], [3,3,3], [5,5,5] are enrolled on an empty
    store.  The profile that is written holds [2,2,2], the mean of the first
    two captures, not [3,3,3]; the audit row counts 2 descriptors.  The code
    means to average all three ("Average all descriptors for better
    accuracy") but reads [allDescriptors] of the render that created the
    handler, in which the third capture is not yet present. *)
Theorem enrollment_averages_first_two :
  match enroll "u1" [1; 1; 1]%float [3; 3; 3]%float [5; 5; 5]%float Store.empty with
  | Some k =>
    allDescriptors (st k) = [[1; 1; 1]; [3; 3; 3]; [5; 5; 5]]%float /\
    (Profile.face_descriptor <$> (profiles (db k) !! "u1")) = Some (Some [2; 2; 2]%float) /\
    audit_logs (db k) =
      [AuditLog.mk "u1" "FACE_REGISTERED" (AuditLog.FaceRegistered true 3 2)] /\
    averageDescriptors (allDescriptors (st k)) = Some [3; 3; 3]%float
  | None => False
  end.
Proof. vm_compute. repeat split. Qed.

Lemma write_enrolled userId db db' :
  enrolled userId db -> write db db' -> enrolled userId db'.
Proof.
  intros (p & Hp & Hd & Hv) W. destruct W as [row db | fault row db | fault u e n db | u e d url db].
  - exists p. auto.
  - exists p. unfold insert_vote. destruct fault; [auto|].
    destruct (existsb _ _); auto.
  - unfold insert_profile. destruct fault; [exists p; auto|].
    destruct (profiles db !! u) eqn:L; [exists p; auto|].
    exists p. split; [|auto]. cbn [fst profiles]. rewrite lookup_insert_ne; [exact Hp|].
    intros ->. rewrite Hp in L. discriminate.
  - unfold upsert_profile, enrolled. cbn [profiles].
    destruct (decide (u = userId)) as [->|N].
    + rewrite lookup_insert_eq. eexists. split; [reflexivity|]. auto.
    + rewrite lookup_insert_ne by exact N. exists p. auto.
Qed.

Lemma writes_enrolled userId db db' :
  enrolled userId db -> rtc write db db' -> enrolled userId db'.
Proof.
  intros H W. induction W as [|x y z Hxy _ IH]; [exact H|].
  apply IH. eapply write_enrolled; eauto.
Qed.

(** The entry decision for a user whose row is enrolled. *)
Lemma enrolled_routes userId fetch a :
  enrolled userId (Index.db a) ->
  let a' := Index.loadUserProfile userId fetch a in
  (Index.selectError fetch = None ->
   Index.appState (Index.st a') = Index.face_verification) /\
  (Index.appState (Index.st a') = Index.face_verification \/
   Index.appState (Index.st a') = Index.appState (Index.st a)).
Proof.
  intros (p & Hp & Hd & Hv) a'. subst a'. unfold Index.loadUserProfile.
  destruct (Index.selectError fetch) as [code|].
  - split; [discriminate|]. right.
    destruct (negb (String.eqb code "PGRST116")); [reflexivity|].
    unfold insert_profile. destruct (Index.insertFault fetch); [reflexivity|].
    rewrite Hp. reflexivity.
  - rewrite Hp, Hd, Hv. simpl. split; [reflexivity | left; reflexivity].
Qed.

(** C10: a run of [captureFace] that completes enrollment (it arms the call
    of [onComplete]) has upserted the row of the user with [is_verified] true,
    the averaged descriptor and the public URL of the image; and after any
    further writes of the application, every later [loadUserProfile] of that
    user that reads the row routes to face verification, and none routes
    back to registration. *)
Theorem enrollment_routes_to_verification userId c f k :
  let k' := captureFace userId c f k in
  completions k' = S (completions k) ->
  (exists avg,
     averageDescriptors (allDescriptors c) = Some avg /\
     profiles (db k') !! userId =
       Some (Profile.mk userId (default "" (authEmail f))
               (match profiles (db k) !! userId with
                | Some old => Profile.full_name old
                | None => None
                end)
               (Some avg) (Some (publicUrl f)) true)) /\
  (forall db' fetch a,
     rtc write (db k') db' -> Index.db a = db' ->
     let a' := Index.loadUserProfile userId fetch a in
     (Index.selectError fetch = None ->
      Index.appState (Index.st a') = Index.face_verification) /\
     (Index.appState (Index.st a') = Index.face_verification \/
      Index.appState (Index.st a') = Index.appState (Index.st a))).
Proof.
  intros k' Hc.
  assert (Hup : exists avg,
     averageDescriptors (allDescriptors c) = Some avg /\
     profiles (db k') !! userId =
       Some (Profile.mk userId (default "" (authEmail f))
               (match profiles (db k) !! userId with
                | Some old => Profile.full_name old
                | None => None
                end)
               (Some avg) (Some (publicUrl f)) true)).
  { subst k'. unfold captureFace in *.
    destruct (refsMounted (st k)); cbn [negb] in *; [|lia].
    destruct (detection f) as [descriptor|]; [|cbn in Hc; lia].
    destruct (blob f); cbn [negb] in *; [|cbn in Hc; lia].
    destruct (uploadError f); [cbn in Hc; lia|].
    destruct (currentStep c <? maxSteps); [cbn in Hc; lia|].
    destruct (averageDescriptors (allDescriptors c)) as [avg|]; [|cbn in Hc; lia].
    destruct (dbError f); [cbn in Hc; lia|].
    exists avg. split; [reflexivity|].
    unfold stopCamera.
    match goal with |- context [if ?b then _ else _] => destruct b end;
      cbn [db withDb withSt toast upload armCompletion];
      unfold insert_audit, upsert_profile; cbn [profiles];
      rewrite lookup_insert_eq; reflexivity. }
  split; [exact Hup|].
  intros db' fetch a W <-. apply enrolled_routes.
  eapply writes_enrolled; [|exact W].
  destruct Hup as (avg & _ & Hp). eexists. split; [exact Hp|]. split; reflexivity.
Qed.

Lemma db_mkApp s d t : Index.db (Index.mkApp s d t) = d.
Proof. reflexivity. Qed.

Lemma enrollment_routes_to_verification_witness :
  let k' := captureFace "u1" (st two_captured) (goodFrame [5; 5; 5]%float 3000)
                        two_captured in
  completions k' = S (completions two_captured) /\
  let a' := Index.loadUserProfile "u1" plain_fetch
              (Index.mkApp Index.initialState (db k') []) in
  Index.appState (Index.st a') = Index.face_verification.
Proof.
  intros k'.
  assert (H : completions k' = S (completions two_captured))
    by (vm_compute; reflexivity).
  split; [exact H|].
  pose proof (enrollment_routes_to_verification "u1" (st two_captured)
                (goodFrame [5; 5; 5]%float 3000) two_captured H) as [_ R].
  fold k' in R.
  pose proof (R (db k') plain_fetch (Index.mkApp Index.initialState (db k') [])
                (rtc_refl write (db k')) (db_mkApp _ _ _)) as [R1 _].
  exact (R1 eq_refl).
Defined.

End FaceRegistrationFacts.

(** ** Casting a vote *)
Module VotingFacts.
Import Store VotingInterface Ballots.

Lemma same_key_spec (a b : Vote.t) : same_key a b = true <-> vote_key a = vote_key b.
Proof.
  unfold same_key, vote_key. rewrite andb_true_iff, !String.eqb_eq.
  split; [intros [-> ->]; reflexivity | intros H; injection H; auto].
Qed.

Lemma insert_vote_unique fault row db :
  unique_votes db -> unique_votes (insert_vote fault row db).1.
Proof.
  unfold unique_votes, insert_vote. intros H. destruct fault; [exact H|].
  destruct (existsb (same_key row) (votes db)) eqn:E; [exact H|].
  cbn [fst votes]. rewrite map_app. apply NoDup_app. split; [exact H|].
  split; [|apply NoDup_singleton].
  intros key Hin Hrow. apply list_elem_of_singleton in Hrow. subst key.
  apply list_elem_of_fmap in Hin as (v & Hk & Hv).
  assert (T : existsb (same_key row) (votes db) = true).
  { apply existsb_exists. exists v. split; [now apply list_elem_of_In|].
    now apply same_key_spec. }
  congruence.
Qed.

Lemma submitVote_db userId c r k :
  db (submitVote userId c r k) = db k \/
  exists election,
    selectedElection c = Some election /\
    insert_vote (fault r) (voteRow userId election (selectedOption c) r) (db k)
    = (mkDB (profiles (db k))
            (votes (db k) ++ [voteRow userId election (selectedOption c) r])
            (audit_logs (db k)), None) /\
    votes (db (submitVote userId c r k))
    = votes (db k) ++ [voteRow userId election (selectedOption c) r].
Proof.
  unfold submitVote. destruct (selectedElection c) as [election|]; [|left; reflexivity].
  destruct (String.eqb (selectedOption c) ""); [left; reflexivity|].
  cbv zeta. cbn [db withSt]. unfold insert_vote.
  destruct (fault r) as [code|].
  - left. destruct (String.eqb code "23505"); reflexivity.
  - destruct (existsb _ _) eqn:E; [left; reflexivity|].
    right. exists election. rewrite E. split; [reflexivity|]. split; reflexivity.
Qed.

(** C2: every row that [submitVote] adds to the votes table carries
    [face_verified = true] and [blink_verified = true], and so does every
    insert request it sends; the flags are literals of the row, so any two
    runs, whatever happened in face or blink verification before them, write
    the same flag values. *)
Theorem vote_flags_are_constants :
  (forall userId c r k row,
     row ∈ votes (db (submitVote userId c r k)) -> row ∉ votes (db k) ->
     Vote.face_verified row = true /\ Vote.blink_verified row = true) /\
  (forall userId1 c1 r1 k1 row1 userId2 c2 r2 k2 row2
          (face1 face2 : FaceVerification.Status)
          (blink1 blink2 : BlinkVerification.Status),
     row1 ∈ voteInserts (submitVote userId1 c1 r1 k1) -> row1 ∉ voteInserts k1 ->
     row2 ∈ voteInserts (submitVote userId2 c2 r2 k2) -> row2 ∉ voteInserts k2 ->
     Vote.face_verified row1 = Vote.face_verified row2 /\
     Vote.blink_verified row1 = Vote.blink_verified row2 /\
     Vote.face_verified row1 = true /\ Vote.blink_verified row1 = true).
Proof.
  assert (Sent : forall userId c r k row,
            row ∈ voteInserts (submitVote userId c r k) -> row ∉ voteInserts k ->
            Vote.face_verified row = true /\ Vote.blink_verified row = true).
  { intros userId c r k row Hin Hnot. unfold submitVote in Hin.
    destruct (selectedElection c) as [election|]; [|contradiction].
    destruct (String.eqb (selectedOption c) ""); [contradiction|].
    destruct (insert_vote _ _ _) as [db' [code|]];
      [destruct (String.eqb code "23505")|]; cbn in Hin;
      apply elem_of_app in Hin as [Hin|Hin]; try contradiction;
      apply list_elem_of_singleton in Hin; subst row; split; reflexivity. }
  split.
  - intros userId c r k row Hin Hnot.
    destruct (submitVote_db userId c r k) as [E | (election & _ & _ & E)].
    + rewrite E in Hin. contradiction.
    + rewrite E in Hin. apply elem_of_app in Hin as [Hin|Hin]; [contradiction|].
      apply list_elem_of_singleton in Hin. subst row. split; reflexivity.
  - intros userId1 c1 r1 k1 row1 userId2 c2 r2 k2 row2 _ _ _ _ H1 N1 H2 N2.
    destruct (Sent _ _ _ _ _ H1 N1) as [F1 B1].
    destruct (Sent _ _ _ _ _ H2 N2) as [F2 B2].
    rewrite F1, F2, B1, B2. repeat split.
Qed.

Lemma vote_flags_are_constants_witness :
  let row := voteRow "u1" (mkElection "e1" "Council" "" ["A"; "B"]) "A" request in
  Vote.face_verified row = true /\ Vote.blink_verified row = true.
Proof.
  intros row.
  refine (proj1 vote_flags_are_constants "u1" chosen request fresh row _ _).
  - vm_compute. left.
  - vm_compute. intros H. inversion H.
Defined.

(** C3: the votes table never holds two rows with the same
    (user_id, election_id): every insert keeps the keys distinct, and a row
    whose key is present is refused with 23505.  When the insert of
    [submitVote] returns 23505 the "already voted" message is shown, which is
    not the generic failure message; exactly one insert request was sent; the
    store is left as it was; no audit row is written and [onVoteComplete] is
    not armed. *)
Theorem duplicate_vote_is_reported :
  (forall fault row db,
     unique_votes db -> unique_votes (insert_vote fault row db).1) /\
  (forall row db,
     (exists v, v ∈ votes db /\ vote_key v = vote_key row) ->
     insert_vote None row db = (db, Some "23505")) /\
  (forall userId c r k,
     unique_votes (db k) -> unique_votes (db (submitVote userId c r k))) /\
  (forall userId c r k election,
     selectedElection c = Some election ->
     selectedOption c <> "" ->
     (insert_vote (fault r) (voteRow userId election (selectedOption c) r) (db k)).2
       = Some "23505" ->
     let k' := submitVote userId c r k in
     toasts k' = toasts k ++ [ToastAlreadyVoted] /\
     toastText ToastAlreadyVoted <> toastText ToastFailed /\
     voteInserts k' = voteInserts k ++ [voteRow userId election (selectedOption c) r] /\
     db k' = db k /\
     completions k' = completions k /\
     isSubmitting (st k') = false).
Proof.
  split; [exact insert_vote_unique|]. split; [|split].
  - intros row db (v & Hin & Hk). unfold insert_vote.
    replace (existsb (same_key row) (votes db)) with true; [reflexivity|].
    symmetry. apply existsb_exists. exists v. split; [now apply list_elem_of_In|].
    apply same_key_spec. congruence.
  - intros userId c r k H.
    destruct (submitVote_db userId c r k) as [E | (election & _ & I & E)].
    + now rewrite E.
    + unfold unique_votes. rewrite E.
      pose proof (insert_vote_unique (fault r)
                    (voteRow userId election (selectedOption c) r) (db k) H) as U.
      rewrite I in U. exact U.
  - intros userId c r k election He Ho Hi k'. subst k'. unfold submitVote.
    rewrite He. replace (String.eqb (selectedOption c) "") with false
      by (symmetry; now apply String.eqb_neq).
    destruct (insert_vote _ _ _) as [db' err] eqn:I. cbn [snd] in Hi. subst err.
    assert (Hdb : db' = db k).
    { unfold insert_vote in I. destruct (fault r); [congruence|].
      destruct (existsb _ _); congruence. }
    subst db'. cbn. repeat split. discriminate.
Qed.

Lemma duplicate_vote_is_reported_witness :
  let once := submitVote "u1" chosen request fresh in
  let twice := submitVote "u1" chosen request once in
  toasts twice = [ToastSubmitted; ToastAlreadyVoted] /\ db twice = db once.
Proof.
  intros once twice.
  destruct duplicate_vote_is_reported as (_ & _ & _ & H).
  destruct (H "u1" chosen request once (mkElection "e1" "Council" "" ["A"; "B"]))
    as (Ht & _ & _ & Hd & _).
  - reflexivity.
  - discriminate.
  - vm_compute. reflexivity.
  - split; [exact Ht | exact Hd].
Defined.

End VotingFacts.

(** ** The session state machine *)
Module IndexFacts.
Import Store Index Sessions.

Lemma AppState_eqb_eq x y : AppState_eqb x y = true -> x = y.
Proof. destruct x, y; simpl; congruence. Qed.

Lemma guard_some b a a' : guard b a = Some a' -> b = true /\ a' = a.
Proof. unfold guard. destruct b; intros H; [injection H as <-; auto | discriminate]. Qed.

Lemma shown_state v a : shown v a = true -> appState (st a) = v.
Proof.
  unfold shown. intros H. apply andb_true_iff in H as [_ H].
  now apply AppState_eqb_eq.
Qed.

Lemma shownWithUser_state v a : shownWithUser v a = true -> appState (st a) = v.
Proof.
  unfold shownWithUser. intros H. apply andb_true_iff in H as [H _].
  apply andb_true_iff in H as [_ H]. now apply AppState_eqb_eq.
Qed.

(** [loadUserProfile] leaves the step alone or moves to one of the two
    face steps. *)
Lemma loadUserProfile_state userId f a :
  let v := appState (st (loadUserProfile userId f a)) in
  v = appState (st a) \/ v = face_registration \/ v = face_verification.
Proof.
  unfold loadUserProfile.
  destruct (match selectError f with Some code => negb _ | None => false end);
    [left; reflexivity|].
  destruct (match selectError f with Some _ => None | None => _ end) as [p|].
  - destruct (negb _ || negb _); simpl; auto.
  - destruct (insert_profile _ _ _ _ _) as [db' []]; simpl; auto.
Qed.

(** The ballot and the complete step are entered by [handleBlinkComplete]
    and [handleVoteComplete] only. *)
Lemma step_keeps_out a e a' :
  step a e = Some a' ->
  e <> BlinkComplete -> e <> VoteComplete ->
  appState (st a) <> voting -> appState (st a) <> complete ->
  appState (st a') <> voting /\ appState (st a') <> complete.
Proof.
  intros H Nb Nv Hv Hc.
  destruct e as [s | s | u f | | | | success | | | | | ]; cbn [step] in H.
  - injection H as <-. destruct s; auto.
  - injection H as <-. destruct s; simpl; auto; split; discriminate.
  - injection H as <-.
    destruct (loadUserProfile_state u f a) as [E | [E | E]]; cbv zeta in E; rewrite E;
      auto; split; discriminate.
  - apply guard_some in H as [_ ->]. simpl. split; discriminate.
  - apply guard_some in H as [_ ->]. auto.
  - injection H as <-. simpl. split; discriminate.
  - injection H as <-. destruct success; simpl; split; discriminate.
  - injection H as <-. simpl. split; discriminate.
  - congruence.
  - apply guard_some in H as [_ ->]. simpl. split; discriminate.
  - congruence.
  - apply guard_some in H as [_ ->]. simpl. split; discriminate.
Qed.

(** C1: the page can skip steps.  u1 verifies the face and clicks "Sign Out"
    before the 1500ms timer of the verification fires; the timer, which the
    cleanup of the component does not cancel, then calls
    [handleFaceVerificationComplete(true)]: the page goes from the sign-in
    step to the blink step with nobody signed in, line 284 rendering the
    detector without a user.  When u2, who has no face data, signs in before
    the timer fires, it takes u2 from registration to the blink step: u2 has
    passed no face verification, the only [FaceVerification] ever mounted
    was that of u1, and from there [handleBlinkComplete] renders the ballot
    for u2.  This is so in whichever order React empties the refs and runs
    the cleanup. *)
Theorem sign_out_keeps_verification_timer (cleanupFirst : bool) :
  (exists p,
     Page.run FaceApi.euclideanDistance cleanupFirst (Page.initial enrolled)
       signOutAfterMatch = Some p /\
     user (st (Page.app p)) = None /\
     appState (st (Page.app p)) = blink_verification /\
     Page.rendersBlink (Page.app p) = true /\
     length (Page.blinks p) = 1%nat) /\
  (exists p,
     Page.run FaceApi.euclideanDistance cleanupFirst (Page.initial enrolled) takeover
       = Some p /\
     user (st (Page.app p)) = Some "u2" /\
     appState (st (Page.app p)) = blink_verification /\
     Page.rendersBlink (Page.app p) = true /\
     profiles (db (Page.app p)) !! "u2"
       = Some (Profile.mk "u2" "other@example.org" (Some "User") None None false) /\
     map Page.userId (Page.verifications p) = ["u1"] /\
     Page.rendersBallot (handleBlinkComplete (Page.app p)) = true).
Proof.
  split.
  - destruct (Page.run FaceApi.euclideanDistance cleanupFirst (Page.initial enrolled)
                signOutAfterMatch) as [p|] eqn:R;
      [|destruct cleanupFirst; vm_compute in R; discriminate].
    exists p. split; [reflexivity|].
    destruct cleanupFirst; vm_compute in R; injection R as <-; repeat split.
  - destruct (Page.run FaceApi.euclideanDistance cleanupFirst (Page.initial enrolled)
                takeover) as [p|] eqn:R;
      [|destruct cleanupFirst; vm_compute in R; discriminate].
    exists p. split; [reflexivity|].
    destruct cleanupFirst; vm_compute in R; injection R as <-; repeat split.
Qed.

End IndexFacts.

(** * Further properties of the code *)

(** ** Landmark geometry *)
Module GeometryFacts.
Import BlinkVerification.

(** [distance] does not depend on the order of its two points, on every
    pair of IEEE doubles (NaN and infinities included). *)
Theorem distance_symmetric (a b : Point) : distance a b = distance b a.
Proof.
  unfold distance.
  now rewrite (JSFacts.pow2_diff_sym (x a) (x b)), (JSFacts.pow2_diff_sym (y a) (y b)).
Qed.

(** [calculateEAR] throws exactly on contours of fewer than six points;
    points past the sixth are ignored. *)
Theorem calculateEAR_throws_iff_short (eye : list Point) :
  (calculateEAR eye = None <-> (length eye < 6)%nat) /\
  (forall more, (6 <= length eye)%nat -> calculateEAR (eye ++ more) = calculateEAR eye).
Proof.
  destruct eye as [|p0 [|p1 [|p2 [|p3 [|p4 [|p5 rest]]]]]]; simpl;
    try (split; [split; [intros _; lia | reflexivity] | intros more H; lia]).
  split; [split; [discriminate | lia] | reflexivity].
Qed.

Lemma calculateEAR_throws_iff_short_witness :
  calculateEAR (Eyes.eye 7 ++ [Eyes.pt 9 9]) = calculateEAR (Eyes.eye 7).
Proof.
  apply (proj2 (calculateEAR_throws_iff_short (Eyes.eye 7)) [Eyes.pt 9 9]).
  simpl. lia.
Defined.

Lemma sub_self (d : JS.number) :
  CollapsedEyes.finite d = true -> (d - d = 0)%float.
Proof.
  unfold CollapsedEyes.finite. intros F. apply Prim2SF_inj. rewrite sub_spec.
  change (Prim2SF 0) with (S754_zero false).
  destruct (Prim2SF d) as [s| s | |s m e]; try discriminate.
  - destruct s; reflexivity.
  - unfold SF64sub, SFsub. cbv zeta. rewrite Z.sub_diag. reflexivity.
Qed.

Lemma distance_self (p : Point) :
  CollapsedEyes.finitePoint p = true -> distance p p = 0%float.
Proof.
  unfold CollapsedEyes.finitePoint, distance. intros F.
  apply andb_prop in F as [Fx Fy]. now rewrite (sub_self _ Fx), (sub_self _ Fy).
Qed.

(** A contour whose six landmarks coincide has no aspect ratio: the result
    is NaN, for both eyes the average is NaN too, and since [NaN < 0.25] is
    false the sample is handled exactly as a sample of an open eye. *)
Theorem collapsed_eyes_read_as_open (c : State) (p q : Point) (t : Z) (k : Comp) :
  CollapsedEyes.finitePoint p = true -> CollapsedEyes.finitePoint q = true ->
  calculateEAR (CollapsedEyes.collapsed p) = Some nan /\
  intervalCallback c (Some (mkDetection (CollapsedEyes.collapsed p)
                                        (CollapsedEyes.collapsed q))) t k
  = (if negb (videoRef k) || negb (isActive c) then k else onSample c nan t k) /\
  (forall ear, JS.lt ear blinkThreshold = false ->
               onSample c nan t k = onSample c ear t k).
Proof.
  intros Fp Fq.
  assert (E : forall r, CollapsedEyes.finitePoint r = true ->
                        calculateEAR (CollapsedEyes.collapsed r) = Some nan).
  { intros r Fr. unfold calculateEAR, CollapsedEyes.collapsed. cbn -[distance].
    rewrite (distance_self r Fr). reflexivity. }
  split; [exact (E p Fp)|]. split.
  - unfold intervalCallback. cbn [getLeftEye getRightEye].
    rewrite (E p Fp), (E q Fq). reflexivity.
  - intros ear Hear. unfold onSample. rewrite Hear. reflexivity.
Qed.

Lemma collapsed_eyes_read_as_open_witness :
  calculateEAR (CollapsedEyes.collapsed (Eyes.pt 3 4)) = Some nan /\
  onSample (mkState false true 0 true 0 detecting) nan 1000
           (mkComp (mkState false true 0 true 0 detecting) true true None [] 0 [] 0 [] 0)
  = onSample (mkState false true 0 true 0 detecting) 0.35%float 1000
           (mkComp (mkState false true 0 true 0 detecting) true true None [] 0 [] 0 [] 0).
Proof.
  destruct (collapsed_eyes_read_as_open (mkState false true 0 true 0 detecting)
              (Eyes.pt 3 4) (Eyes.pt 3 4) 1000
              (mkComp (mkState false true 0 true 0 detecting) true true None [] 0 [] 0 [] 0)
              eq_refl eq_refl) as (H1 & _ & H3).
  split; [exact H1|]. apply H3. reflexivity.
Defined.

End GeometryFacts.

(** ** What the blink detector never does *)
Module BlinkSilenceFacts.
Import BlinkVerification BlinkRuns.

(** Nothing was reported and only the two start-up failures were shown. *)
Lemma step_silent p k e p' k' :
  stale k -> step (p, k) e = Some (p', k') ->
  blinkCompletes k' = blinkCompletes k /\
  (toasts k' = toasts k \/ toasts k' = toasts k ++ [ToastModelsFailed] \/
   toasts k' = toasts k ++ [ToastCameraDenied]).
Proof.
  intros (Hc & He & Hs & Ha & Hi & Ht & Hz) Hstep.
  destruct e as [loaded | granted | id det now | n | | ]; simpl in Hstep.
  - destruct p; try discriminate. injection Hstep as _ <-.
    destruct loaded; simpl; auto.
  - destruct p; try discriminate. injection Hstep as _ <-.
    destruct granted; unfold startCamera; [destruct (videoRef k)|]; simpl; auto.
  - destruct (filter _ (intervals k)) as [|i r] eqn:F; [discriminate|].
    injection Hstep as _ <-. apply BlinkFacts.filter_head_in in F.
    assert (Hf : isActive (closure i) = false).
    { rewrite Forall_forall in Hi. exact (Hi _ F). }
    unfold intervalCallback. rewrite Hf, orb_true_r. auto.
  - destruct (timeouts k !! n) as [t|] eqn:L; [|discriminate].
    injection Hstep as _ <-.
    assert (Hd : status (armedBy t) <> detecting).
    { rewrite Forall_forall in Ht. apply (Ht t).
      eapply list_elem_of_lookup_2; eauto. }
    unfold timeoutCallback.
    replace (Status_eqb (status (armedBy t)) detecting) with false
      by (destruct (status (armedBy t)); simpl; congruence).
    rewrite andb_false_r. simpl. auto.
  - rewrite Hz in Hstep. discriminate.
  - destruct (buttonShown k); [|discriminate]. injection Hstep as _ <-.
    simpl. auto.
Qed.

(** In every run of a mounted blink detector, whatever the frames, the
    clicks and the timers: no blink is counted, the status is [waiting] or
    [detecting], [onBlinkComplete] is never called, the completion timer is
    never armed, and the only messages shown are the failure to load the
    models and the refusal of the camera. *)
Theorem blink_detector_never_reports es p k :
  run (Loading, mount) es = Some (p, k) ->
  blinkCount (st k) = 0 /\
  (status (st k) = waiting \/ status (st k) = detecting) /\
  blinkCompletes k = 0%nat /\
  settles k = 0%nat /\
  Forall (fun t => t = ToastModelsFailed \/ t = ToastCameraDenied) (toasts k).
Proof.
  assert (G : forall es p0 k0 p k,
            stale k0 -> blinkCompletes k0 = 0%nat ->
            Forall (fun t => t = ToastModelsFailed \/ t = ToastCameraDenied) (toasts k0) ->
            run (p0, k0) es = Some (p, k) ->
            stale k /\ blinkCompletes k = 0%nat /\
            Forall (fun t => t = ToastModelsFailed \/ t = ToastCameraDenied) (toasts k)).
  { clear. induction es as [|e es IH]; intros p0 k0 p k S0 B0 T0 R; cbn [run] in R.
    - injection R as <- <-. auto.
    - destruct (step (p0, k0) e) as [[p1 k1]|] eqn:E; [|discriminate].
      destruct (step_silent _ _ _ _ _ S0 E) as [B1 T1].
      eapply IH; [eapply BlinkFacts.step_stale; eauto | congruence | | exact R].
      destruct T1 as [-> | [-> | ->]]; auto;
        apply Forall_app; split; auto. }
  intros R. destruct (G es Loading mount p k BlinkFacts.stale_mount eq_refl (Forall_nil_2 _) R)
    as ((Hc & _ & Hs & _ & _ & _ & Hz) & Hb & Ht).
  auto.
Qed.

Lemma blink_detector_never_reports_witness :
  exists k,
    run (Loading, mount)
        ([ModelsSettle true; CameraSettles true] ++ blink_frames 1700000000000
         ++ [TimeoutFires 0; ClickStart]) = None /\
    run (Loading, mount)
        ([ModelsSettle true; CameraSettles true] ++ blink_frames 1700000000000
         ++ [TimeoutFires 0]) = Some (Settled, k) /\
    blinkCompletes k = 0%nat.
Proof.
  destruct (run (Loading, mount)
              ([ModelsSettle true; CameraSettles true] ++ blink_frames 1700000000000
               ++ [TimeoutFires 0])) as [[p k]|] eqn:R; [|vm_compute in R; discriminate].
  assert (P : p = Settled) by (vm_compute in R; congruence). subst p.
  exists k. split; [vm_compute; reflexivity|]. split; [reflexivity|].
  exact (proj1 (proj2 (proj2 (blink_detector_never_reports _ _ _ R)))).
Defined.

End BlinkSilenceFacts.

(** ** What the page never reaches *)
Module PageFacts.
Import Page Sessions.

Section WithFaceApi.

Variable euclideanDistance : list JS.number -> list JS.number -> option JS.number.
Variable cleanupFirst : bool.

Local Abbreviation step := (Page.step euclideanDistance cleanupFirst).
Local Abbreviation run := (Page.run euclideanDistance cleanupFirst).
Local Abbreviation render := (Page.render cleanupFirst).

Lemma rendersBallot_voting a :
  rendersBallot a = true -> Index.appState (Index.st a) = Index.voting.
Proof. apply IndexFacts.shownWithUser_state. Qed.

Lemma render_barred a a' p :
  Index.appState (Index.st a') <> Index.voting ->
  Index.appState (Index.st a') <> Index.complete ->
  Forall (fun pk => BlinkRuns.stale pk.2) (blinks p) ->
  ballots p = 0%nat ->
  barred (render a a' p).
Proof.
  intros Hv Hc Hb H0. unfold barred, render. cbn [app blinks ballots].
  split; [exact Hv|]. split; [exact Hc|]. split.
  - destruct (negb _ && rendersBlink a'); [|exact Hb].
    apply Forall_app. split; [exact Hb|]. constructor; [|constructor].
    exact BlinkFacts.stale_mount.
  - destruct (rendersBallot a') eqn:B.
    + apply rendersBallot_voting in B. contradiction.
    + now rewrite andb_false_r.
Qed.

Lemma reports_keep_out l a :
  Index.appState (Index.st a) <> Index.voting ->
  Index.appState (Index.st a) <> Index.complete ->
  let a' := foldl (fun a b => Index.handleFaceVerificationComplete b a) a l in
  Index.appState (Index.st a') <> Index.voting /\
  Index.appState (Index.st a') <> Index.complete.
Proof.
  revert a. induction l as [|b l IH]; intros a Hv Hc; cbn; [auto|].
  apply IH; destruct b; cbn; discriminate.
Qed.

Lemma cancels_keep_out n a :
  Index.appState (Index.st a) <> Index.voting ->
  Index.appState (Index.st a) <> Index.complete ->
  let a' := Nat.iter n (Index.withSt (Index.setAppState Index.face_registration)) a in
  Index.appState (Index.st a') <> Index.voting /\
  Index.appState (Index.st a') <> Index.complete.
Proof.
  intros Hv Hc. destruct n as [|n]; cbn; [auto|]. split; discriminate.
Qed.

Lemma step_barred p e p' : barred p -> step p e = Some p' -> barred p'.
Proof.
  intros (Hv & Hc & Hb & H0) S. destruct e as [e | i e | i e]; cbn [Page.step] in S.
  - destruct (ofInstance e || negb (armed p e)) eqn:G; [discriminate|].
    apply orb_false_iff in G as [G1 G2]. apply negb_false_iff in G2.
    destruct (Index.step (app p) e) as [a'|] eqn:E; [|discriminate].
    cbn [mbind option_bind] in S. injection S as <-.
    assert (Nb : e <> Index.BlinkComplete) by (intros ->; discriminate).
    assert (Nv : e <> Index.VoteComplete).
    { intros ->. cbn in G2. rewrite H0 in G2. discriminate. }
    destruct (IndexFacts.step_keeps_out _ _ _ E Nb Nv Hv Hc) as [Hv' Hc'].
    now apply render_barred.
  - destruct (verifications p !! i) as [v|]; [|discriminate].
    cbn [mbind option_bind] in S.
    destruct (VerificationScreen.isClick e && negb (mounted v)); [discriminate|].
    destruct (VerificationScreen.step _ _ _ e) as [s'|]; [|discriminate].
    cbn [mbind option_bind] in S. injection S as <-.
    match goal with |- barred (render _ (Nat.iter ?n _ (foldl _ _ ?l)) _) =>
      destruct (reports_keep_out l (app p) Hv Hc) as [Hv1 Hc1];
      destruct (cancels_keep_out n _ Hv1 Hc1) as [Hv2 Hc2] end.
    now apply render_barred.
  - destruct (blinks p !! i) as [[ph k]|] eqn:L; [|discriminate].
    cbn [mbind option_bind] in S.
    destruct (BlinkVerification.step (ph, k) e) as [[ph' k']|] eqn:E; [|discriminate].
    cbn [mbind option_bind snd] in S. injection S as <-.
    assert (Sk : BlinkRuns.stale k).
    { rewrite Forall_forall in Hb. apply (Hb (ph, k)).
      eapply list_elem_of_lookup_2; eauto. }
    destruct (BlinkSilenceFacts.step_silent _ _ _ _ _ Sk E) as [-> _].
    rewrite Nat.sub_diag. cbn [Nat.iter nat_rect].
    apply render_barred; auto. cbn [blinks setBlinks].
    apply Forall_insert; [exact Hb|]. cbn. eapply BlinkFacts.step_stale; eauto.
Qed.

(** In no run of the page with the face matchers and the blink detectors it
    mounts does the voting step or the complete step come on screen: the page enters the voting
    step only through [handleBlinkComplete], which only a blink detector
    calls, and no blink detector ever calls it. *)
Theorem voting_step_is_unreachable db0 es p :
  run (initial db0) es = Some p ->
  Index.appState (Index.st (app p)) <> Index.voting /\
  Index.appState (Index.st (app p)) <> Index.complete.
Proof.
  assert (G : forall es p0 p, barred p0 -> run p0 es = Some p -> barred p).
  { clear. induction es as [|e es IH]; intros p0 p B R; cbn [Page.run] in R.
    - injection R as <-. auto.
    - destruct (step p0 e) as [p1|] eqn:E; [|discriminate].
      eapply IH; [|exact R]. eapply step_barred; eauto. }
  intros R.
  destruct (G es (initial db0) p) as (Hv & Hc & _); [|exact R|auto].
  unfold barred. cbn. repeat split; try discriminate. constructor.
Qed.

End WithFaceApi.

(** An enrolled user verifies the face, then blinks in front of the detector
    the page has mounted. *)
Lemma voting_step_is_unreachable_witness :
  exists p,
    run FaceApi.euclideanDistance false (initial Sessions.enrolled) Sessions.login
      = Some p /\
    Index.appState (Index.st (app p)) = Index.blink_verification /\
    Index.appState (Index.st (app p)) <> Index.voting /\
    Index.appState (Index.st (app p)) <> Index.complete.
Proof.
  destruct (run FaceApi.euclideanDistance false (initial Sessions.enrolled) Sessions.login)
    as [p|] eqn:R; [|vm_compute in R; discriminate].
  exists p. split; [reflexivity|].
  split; [vm_compute in R; injection R as <-; reflexivity|].
  exact (voting_step_is_unreachable _ _ _ _ _ R).
Defined.

End PageFacts.

(** ** The mean of the captured descriptors *)
Module AverageFacts.
Import FaceRegistration.

Lemma add_nan_l (x : float) : (nan + x = nan)%float.
Proof. apply Prim2SF_inj. rewrite add_spec. reflexivity. Qed.

Lemma add_nan_r (x : float) : (x + nan = nan)%float.
Proof.
  apply Prim2SF_inj. rewrite add_spec.
  change (Prim2SF nan) with S754_nan.
  destruct (Prim2SF x) as [ | | |s m e]; try destruct s; reflexivity.
Qed.

Lemma div_nan_l (y : float) : (nan / y = nan)%float.
Proof. apply Prim2SF_inj. rewrite div_spec. reflexivity. Qed.

Lemma fround_nan : JS.fround nan = nan.
Proof. reflexivity. Qed.

Lemma foldl_nan (i : nat) (ds : list (list JS.number)) (acc : JS.number) :
  acc = nan \/ (exists d, d ∈ ds /\ at_ d i = nan) ->
  foldl (fun sum desc => (sum + at_ desc i)%float) acc ds = nan.
Proof.
  revert acc. induction ds as [|d ds IH]; intros acc H; cbn [foldl].
  - destruct H as [H | (d & Hd & _)]; [exact H | inversion Hd].
  - apply IH. destruct H as [-> | (d' & Hd & Hn)].
    + left. apply add_nan_l.
    + apply elem_of_cons in Hd as [-> | Hd].
      * left. rewrite Hn. apply add_nan_r.
      * right. eauto.
Qed.

(** The mean is taken over the positions of the first descriptor only, and a
    position that some descriptor of the list does not have is NaN in the
    mean: reading past the end of a [Float32Array] gives [undefined], which
    turns the sum into NaN.  The empty list is the only one on which the
    computation throws. *)
Theorem averageDescriptors_ragged (ds : list (list JS.number)) :
  (averageDescriptors ds = None <-> ds = []) /\
  (forall d0 rest avg,
     ds = d0 :: rest -> averageDescriptors ds = Some avg ->
     length avg = length d0 /\
     forall i d, (i < length d0)%nat -> d ∈ ds -> (length d <= i)%nat ->
                 avg !! i = Some nan).
Proof.
  split.
  - destruct ds; simpl; split; congruence.
  - intros d0 rest avg -> H. cbn [averageDescriptors] in H. injection H as <-.
    split.
    + now rewrite length_map, length_seq.
    + intros i d Hi Hd Hl.
      change (map ?f ?l) with (f <$> l).
      rewrite list_lookup_fmap, lookup_seq_lt by exact Hi. cbn [fmap option_fmap option_map].
      f_equal. change (0 + i)%nat with i.
      unfold columnSum. rewrite (foldl_nan i (d0 :: rest) 0%float).
      * rewrite div_nan_l. apply fround_nan.
      * right. exists d. split; [exact Hd|].
        unfold at_. now rewrite lookup_ge_None_2.
Qed.

Lemma averageDescriptors_ragged_witness :
  exists avg,
    averageDescriptors [[1; 2]%float; [3]%float] = Some avg /\
    length avg = 2%nat /\ avg !! 1%nat = Some nan.
Proof.
  exists [2; nan]%float. split; [vm_compute; reflexivity|].
  destruct (proj2 (averageDescriptors_ragged [[1; 2]%float; [3]%float])
              [1; 2]%float [[3]%float] [2; nan]%float eq_refl eq_refl) as [L N].
  split; [exact L|].
  apply (N 1%nat [3]%float); [simpl; lia | set_solver | simpl; lia].
Defined.

End AverageFacts.

(** ** Runs of the FaceRegistration screen *)
Module RegistrationFacts.
Import Store FaceRegistration RegistrationScreen RegistrationRuns.

Ltac bools :=
  repeat match goal with
  | H : _ && _ = true |- _ => apply andb_prop in H as [? ?]
  | H : _ && _ = false |- _ => apply andb_false_iff in H
  | H : _ = false \/ _ = false |- _ => destruct H
  | H : negb _ = true |- _ => apply negb_true_iff in H
  | H : negb _ = false |- _ => apply negb_false_iff in H
  | H : (_ <? _) = true |- _ => apply Z.ltb_lt in H
  | H : (_ <? _) = false |- _ => apply Z.ltb_ge in H
  | H : (_ <=? _) = true |- _ => apply Z.leb_le in H
  | H : (_ <=? _) = false |- _ => apply Z.leb_gt in H
  end.

Ltac open_screen :=
  unfold startCameraShown, cancelShown, startOverShown, captureShown, fewerThanMax,
    loadModels, startCamera, stopCamera, retakePhoto, resetCaptures, resume,
    setCaptures, requestCamera, refsMounted, maxSteps,
    withSt, withDb, toast, upload, armCompletion,
    setIsLoading, setIsCameraActive, setFaceDescriptor, setIsProcessing,
    pushCapturedImage, pushDescriptor, nextStep in *;
  cbn in *.

Ltac split_ifs H :=
  repeat match type of H with
  | context [if ?b then _ else _] => destruct b eqn:?; cbn in H
  | context [match ?x with Some _ => _ | None => _ end] => destruct x eqn:?; cbn in H
  | context [match ?x with O => _ | S _ => _ end] => destruct x eqn:?; cbn in H
  end.

Ltac arith :=
  rewrite ?length_app in *; cbn in *; bools;
  repeat match goal with
  | H : ?x = ?x -> _ |- _ => specialize (H eq_refl)
  end;
  try match goal with
  | H : context [if pushed ?s then _ else _] |- _ =>
    let E := fresh "E" in destruct (pushed s) eqn:E; rewrite ?E in *
  end;
  repeat split; intros; try discriminate; try congruence; try tauto; try lia;
  eauto.

(** A call of [captureFace] which nothing interrupts does what the handler
    does when it is taken in one piece. *)
Lemma captureFace_uninterrupted userId c f k :
  refsMounted (st k) = true ->
  finish userId 6 (mkCapture c f Detecting) (withSt (setIsProcessing true) k) =
  captureFace userId c f k.
Proof.
  intros M. unfold captureFace. rewrite M. cbn [negb].
  cbn [finish resume closure frame stage].
  destruct (detection f); [|reflexivity].
  change (refsMounted (st (withSt (setIsProcessing true) k))) with (refsMounted (st k)).
  rewrite M. cbn [finish resume closure frame stage].
  destruct (blob f); cbn [negb]; [|reflexivity].
  cbn [finish resume closure frame stage].
  destruct (uploadError f); [reflexivity|].
  destruct (currentStep c <? maxSteps); [reflexivity|].
  cbn [finish resume closure frame stage].
  destruct (averageDescriptors (allDescriptors c)); [|reflexivity].
  cbn [finish resume closure frame stage].
  destruct (dbError f); reflexivity.
Qed.

Lemma mount_consistent db0 : consistent Loading (mount db0).
Proof. unfold consistent, maxSteps. cbn. repeat split; try lia; try discriminate. now left. Qed.

Ltac close :=
  unfold consistent, wellFormed; open_screen;
  repeat match goal with |- _ /\ _ => split end;
  first [ left; reflexivity
        | right; eexists; split; [reflexivity|]; cbn; arith; fail
        | arith ].

Ltac screen_cases p k e C S :=
  destruct p as [mp cr cs];
  destruct k as [s src d ups ts cn]; destruct s as [ld ca fd pr im cst ds];
  unfold consistent in C; cbn in C; destruct C as (K1 & K2 & K3 & K4 & K6 & K5);
  destruct K5 as [-> | ([[ld0 ca0 fd0 pr0 im0 cst0 ds0] f0 sg] & -> & W)];
    [|unfold wellFormed in W; cbn in W;
      destruct W as (W1 & W2 & W3 & W4 & W5 & W6 & W7 & W8 & W9 & W10 & W11)];
    (destruct e as [loaded | | granted | f | i | | ]; cbn [step] in S;
     [ | | | | destruct i as [|i]; cbn in S; try discriminate;
             try (destruct sg; cbn in S) | | ]);
    open_screen; split_ifs S; try discriminate; injection S as <- <-.

Lemma step_consistent userId p k e p' k' :
  consistent p k -> step userId (p, k) e = Some (p', k') -> consistent p' k'.
Proof. intros C S. screen_cases p k e C S; close. Qed.

Lemma run_consistent userId es p k p' k' :
  consistent p k -> run userId (p, k) es = Some (p', k') -> consistent p' k'.
Proof.
  revert p k. induction es as [|e es IH]; intros p k C R; cbn [run] in R.
  - injection R as <- <-. exact C.
  - destruct (step userId (p, k) e) as [[p1 k1]|] eqn:E; [|discriminate].
    eapply IH; [|exact R]. eapply step_consistent; eauto.
Qed.


Lemma run_from_mount userId db0 es p k :
  run userId (Loading, mount db0) es = Some (p, k) -> consistent p k.
Proof. apply run_consistent, mount_consistent. Qed.

Lemma step_paced userId p k e p' k' :
  consistent p k -> paced p k -> isStartOver e = false ->
  step userId (p, k) e = Some (p', k') -> paced p' k'.
Proof.
  intros C N O S. screen_cases p k e C S; unfold paced in *; cbn in *; arith.
Qed.

Lemma run_paced userId es p k p' k' :
  consistent p k -> paced p k -> Forall (fun e => isStartOver e = false) es ->
  run userId (p, k) es = Some (p', k') -> paced p' k'.
Proof.
  revert p k. induction es as [|e es IH]; intros p k C N O R; cbn [run] in R.
  - injection R as <- <-. exact N.
  - destruct (step userId (p, k) e) as [[p1 k1]|] eqn:E; [|discriminate].
    inversion O; subst.
    eapply IH; [| |eassumption|exact R].
    + eapply step_consistent; eauto.
    + eapply step_paced; eauto.
Qed.

Lemma mount_paced db0 : paced Loading (mount db0).
Proof. unfold paced. cbn. lia. Qed.

Lemma step_wasted userId p k e p' k' :
  consistent p k -> wasted p k -> isStartOver e = false ->
  step userId (p, k) e = Some (p', k') ->
  wasted p' k' /\ db k' = db k /\ completions k' = completions k.
Proof.
  intros C N O S. screen_cases p k e C S; unfold wasted in *; cbn in *; arith.
Qed.

Lemma run_wasted userId es p k p' k' :
  consistent p k -> wasted p k -> Forall (fun e => isStartOver e = false) es ->
  run userId (p, k) es = Some (p', k') ->
  db k' = db k /\ completions k' = completions k.
Proof.
  revert p k. induction es as [|e es IH]; intros p k C N O R; cbn [run] in R.
  - injection R as <- <-. auto.
  - destruct (step userId (p, k) e) as [[p1 k1]|] eqn:E; [|discriminate].
    inversion O; subst.
    destruct (step_wasted _ _ _ _ _ _ C N ltac:(eassumption) E) as (N1 & D1 & C1).
    destruct (IH p1 k1 (step_consistent _ _ _ _ _ _ C E) N1 ltac:(eassumption) R)
      as (D2 & C2).
    split; congruence.
Qed.


Lemma step_filming userId p k e p' k' :
  consistent p k -> filming p k -> isCancel e = false ->
  step userId (p, k) e = Some (p', k') -> filming p' k'.
Proof.
  intros C N O S. screen_cases p k e C S; unfold filming in *; cbn in *; arith.
Qed.

Lemma run_filming userId es p k p' k' :
  consistent p k -> filming p k -> Forall (fun e => isCancel e = false) es ->
  run userId (p, k) es = Some (p', k') -> filming p' k'.
Proof.
  revert p k. induction es as [|e es IH]; intros p k C N O R; cbn [run] in R.
  - injection R as <- <-. exact N.
  - destruct (step userId (p, k) e) as [[p1 k1]|] eqn:E; [|discriminate].
    inversion O; subst.
    eapply IH; [| |eassumption|exact R].
    + eapply step_consistent; eauto.
    + eapply step_filming; eauto.
Qed.

Lemma step_jammed userId fr p k e p' k' :
  detection fr <> None -> blob fr = false ->
  consistent p k -> jammed fr p k ->
  step userId (p, k) e = Some (p', k') ->
  jammed fr p' k' /\ db k' = db k /\ completions k' = completions k /\
  isCapture e = false.
Proof.
  intros Hd Hb C J S.
  screen_cases p k e C S; unfold jammed in *; cbn in *;
    destruct J as [J1 J2];
    try match type of J2 with _ /\ _ => destruct J2 as [J2 J3] end; subst; arith.
Qed.

Lemma run_jammed userId fr es p k p' k' :
  detection fr <> None -> blob fr = false ->
  consistent p k -> jammed fr p k ->
  run userId (p, k) es = Some (p', k') ->
  isProcessing (st k') = true /\ db k' = db k /\ completions k' = completions k /\
  Forall (fun e => isCapture e = false) es.
Proof.
  intros Hd Hb. revert p k.
  induction es as [|e es IH]; intros p k C J R; cbn [run] in R.
  - injection R as <- <-. destruct J. auto.
  - destruct (step userId (p, k) e) as [[p1 k1]|] eqn:E; [|discriminate].
    destruct (step_jammed _ _ _ _ _ _ _ Hd Hb C J E) as (J1 & D1 & C1 & N1).
    destruct (IH _ _ (step_consistent _ _ _ _ _ _ C E) J1 R) as (P2 & D2 & C2 & N2).
    repeat split; first [congruence | constructor; auto].
Qed.

Lemma click_jammed userId fr p k p1 k1 :
  consistent p k ->
  step userId (p, k) (ClickCapture fr) = Some (p1, k1) ->
  jammed fr p1 k1 /\ db k1 = db k /\ completions k1 = completions k.
Proof.
  intros C S. remember (ClickCapture fr) as e eqn:E.
  screen_cases p k e C S; try discriminate E; injection E as <-;
    unfold jammed; cbn; arith.
Qed.


Lemma mount_filming db0 : filming Loading (mount db0).
Proof. intros H. now destruct H. Qed.

(** The cases of an answer to the call [cap] in flight. *)
Ltac at_capture p k j C S Hc Hs :=
  let e := fresh "e" in
  let E := fresh "E" in
  remember (CaptureSettles j) as e eqn:E;
  screen_cases p k e C S; try discriminate E; injection E as <-;
  cbn in Hc; try discriminate Hc; injection Hc as <-;
  cbn in Hs; try discriminate Hs.



(** The descriptor that enrollment writes to the profile is the mean of
    [allDescriptors] as the clicked render had it, one or two descriptors:
    the descriptor of the completing capture never enters it. *)
Theorem enrollment_averages_clicked_render userId db0 es p k j cap avg p' k' :
  run userId (Loading, mount db0) es = Some (p, k) ->
  captures p !! j = Some cap -> stage cap = Upserting avg ->
  dbError (frame cap) = false ->
  step userId (p, k) (CaptureSettles j) = Some (p', k') ->
  averageDescriptors (allDescriptors (closure cap)) = Some avg /\
  (1 <= length (allDescriptors (closure cap)) <= 2)%nat /\
  db k' = upsert_profile userId (default "" (authEmail (frame cap))) avg
            (publicUrl (frame cap)) true (db k) /\
  faceDescriptor (st k') = Some avg.
Proof.
  intros R Hc Hs He S. pose proof (run_from_mount _ _ _ _ _ R) as C.
  at_capture p k j C S Hc Hs; injection Hs as <-; cbn in He;
    specialize (W10 eq_refl); specialize (W11 _ eq_refl); cbn;
    repeat split; try congruence; try lia.
Qed.

Lemma enrollment_averages_clicked_render_witness :
  exists p k cap p' k',
    run "u1" (Loading, mount Store.empty) startOverDuringUpload = Some (p, k) /\
    captures p !! 0%nat = Some cap /\
    step "u1" (p, k) (CaptureSettles 0) = Some (p', k') /\
    allDescriptors (closure cap) = [[3; 3]%float] /\
    faceDescriptor (st k') = Some [3; 3]%float.
Proof.
  destruct (run "u1" (Loading, mount Store.empty) startOverDuringUpload)
    as [[p k]|] eqn:R; [|vm_compute in R; discriminate].
  destruct (captures p !! 0%nat) as [cap|] eqn:Hc;
    [|vm_compute in R; injection R as <- _; discriminate].
  destruct (step "u1" (p, k) (CaptureSettles 0)) as [[p' k']|] eqn:S;
    [|vm_compute in R; injection R as <- <-; vm_compute in S; discriminate].
  exists p, k, cap, p', k'. do 3 (split; [first [reflexivity | eassumption]|]).
  assert (Hs : stage cap = Upserting [3; 3]%float).
  { vm_compute in R. injection R as <- _. injection Hc as <-. reflexivity. }
  assert (He : dbError (frame cap) = false).
  { vm_compute in R. injection R as <- _. injection Hc as <-. reflexivity. }
  assert (Hd : allDescriptors (closure cap) = [[3; 3]%float]).
  { vm_compute in R. injection R as <- _. injection Hc as <-. reflexivity. }
  destruct (enrollment_averages_clicked_render _ _ _ _ _ _ _ _ _ _ R Hc Hs He S)
    as (_ & _ & _ & H).
  split; [exact Hd | exact H].
Defined.

(** In a run without "Start Over" and "Cancel", the [stopCamera] that
    ends enrollment stops nothing: three images are in state by then, the
    video element is no longer rendered, and the stream stays live although
    [isCameraActive] is set to false. *)
Theorem enrollment_leaves_camera_on userId db0 es p k j cap p' k' :
  run userId (Loading, mount db0) es = Some (p, k) ->
  Forall (fun e => isStartOver e = false) es ->
  Forall (fun e => isCancel e = false) es ->
  captures p !! j = Some cap -> stage cap = Auditing ->
  step userId (p, k) (CaptureSettles j) = Some (p', k') ->
  completions k' = S (completions k) /\
  length (capturedImages (st k')) = 3%nat /\
  isCameraActive (st k') = false /\ srcObject k' = true.
Proof.
  intros R O1 O2 Hc Hs S. pose proof (run_from_mount _ _ _ _ _ R) as C.
  pose proof (run_paced _ _ _ _ _ _ (mount_consistent db0) (mount_paced db0) O1 R) as N.
  pose proof (run_filming _ _ _ _ _ _ (mount_consistent db0) (mount_filming db0) O2 R) as F.
  at_capture p k j C S Hc Hs; unfold paced, filming in *; cbn in *;
    specialize (F ltac:(discriminate)); arith.
Qed.

Lemma enrollment_leaves_camera_on_witness :
  exists p k p' k',
    run "u1" (Loading, mount Store.empty) auditPending = Some (p, k) /\
    step "u1" (p, k) (CaptureSettles 0) = Some (p', k') /\
    completions k' = 1%nat /\ isCameraActive (st k') = false /\ srcObject k' = true.
Proof.
  destruct (run "u1" (Loading, mount Store.empty) auditPending)
    as [[p k]|] eqn:R; [|vm_compute in R; discriminate].
  destruct (captures p !! 0%nat) as [cap|] eqn:Hc;
    [|vm_compute in R; injection R as <- _; discriminate].
  destruct (step "u1" (p, k) (CaptureSettles 0)) as [[p' k']|] eqn:S;
    [|vm_compute in R; injection R as <- <-; vm_compute in S; discriminate].
  exists p, k, p', k'. do 2 (split; [first [reflexivity | eassumption]|]).
  assert (Hs : stage cap = Auditing).
  { vm_compute in R. injection R as <- _. injection Hc as <-. reflexivity. }
  assert (Hn : completions k = 0%nat).
  { vm_compute in R. injection R as _ <-. reflexivity. }
  destruct (enrollment_leaves_camera_on "u1" Store.empty auditPending p k 0 cap p' k' R
              ltac:(vm_compute; repeat constructor)
              ltac:(vm_compute; repeat constructor) Hc Hs S)
    as (H1 & _ & H3 & H4).
  rewrite Hn in H1. auto.
Defined.

(** When the canvas yields no blob for a capture with a face in it, the
    handler returns without resetting [isProcessing]: from then on, in every
    continuation of the run ("Start Over" and "Cancel" included), the
    capture button stays disabled, nothing is written to the store and
    enrollment is never completed. *)
Theorem null_blob_blocks_capture userId db0 es0 p k f p1 k1 es p' k' :
  run userId (Loading, mount db0) es0 = Some (p, k) ->
  step userId (p, k) (ClickCapture f) = Some (p1, k1) ->
  detection f <> None -> blob f = false ->
  run userId (p1, k1) es = Some (p', k') ->
  isProcessing (st k') = true /\ db k' = db k /\ completions k' = completions k /\
  Forall (fun e => isCapture e = false) es.
Proof.
  intros R0 S Hd Hb R.
  pose proof (run_from_mount _ _ _ _ _ R0) as C.
  destruct (click_jammed _ _ _ _ _ _ C S) as (J & D1 & C1).
  destruct (run_jammed _ _ _ _ _ _ _ Hd Hb (step_consistent _ _ _ _ _ _ C S) J R)
    as (P & D2 & C2 & N).
  repeat split; first [congruence | exact N].
Qed.

Lemma null_blob_blocks_capture_witness :
  let es0 := start ++ capture (Enrollment.goodFrame [1; 1]%float 1000) 3 in
  let es := [CaptureSettles 0; CaptureSettles 0; ClickStartOver; CameraSettles true;
             ClickCancel; ClickStartCamera; CameraSettles true] in
  exists p k p1 k1 p' k',
    run "u1" (Loading, mount Store.empty) es0 = Some (p, k) /\
    step "u1" (p, k) (ClickCapture noBlob) = Some (p1, k1) /\
    run "u1" (p1, k1) es = Some (p', k') /\
    isProcessing (st k') = true /\ db k' = db k /\ completions k' = completions k.
Proof.
  intros es0 es.
  destruct (run "u1" (Loading, mount Store.empty) es0)
    as [[p k]|] eqn:R0; [|vm_compute in R0; discriminate].
  destruct (step "u1" (p, k) (ClickCapture noBlob)) as [[p1 k1]|] eqn:S;
    [|vm_compute in R0; injection R0 as <- <-; vm_compute in S; discriminate].
  destruct (run "u1" (p1, k1) es) as [[p' k']|] eqn:R;
    [|vm_compute in R0; injection R0 as <- <-; vm_compute in S; injection S as <- <-;
      vm_compute in R; discriminate].
  exists p, k, p1, k1, p', k'. do 3 (split; [first [reflexivity | eassumption]|]).
  destruct (null_blob_blocks_capture "u1" Store.empty es0 p k noBlob p1 k1 es p' k'
              R0 S ltac:(discriminate) eq_refl R) as (H1 & H2 & H3 & _).
  auto.
Defined.

Lemma fail_wasted userId p k j cap p1 k1 :
  consistent p k -> paced p k ->
  captures p !! j = Some cap -> stage cap = Uploading ->
  uploadError (frame cap) = true ->
  step userId (p, k) (CaptureSettles j) = Some (p1, k1) ->
  wasted p1 k1 /\ captures p1 = [] /\ db k1 = db k /\ completions k1 = completions k.
Proof.
  intros C N Hc Hs He S.
  at_capture p k j C S Hc Hs; unfold paced, wasted in *; cbn in *; arith.
Qed.

(** In a run without "Start Over", a capture whose upload fails
    leaves its image stored for the step on screen, and from then on, as
    long as "Start Over" is not clicked, nothing is written to the store and
    enrollment is never completed: step 3 cannot be captured with fewer than
    three images stored. *)
Theorem failed_upload_blocks_enrollment userId db0 es0 p k j cap p1 k1 es p' k' :
  run userId (Loading, mount db0) es0 = Some (p, k) ->
  Forall (fun e => isStartOver e = false) es0 ->
  captures p !! j = Some cap -> stage cap = Uploading ->
  uploadError (frame cap) = true ->
  step userId (p, k) (CaptureSettles j) = Some (p1, k1) ->
  run userId (p1, k1) es = Some (p', k') ->
  Forall (fun e => isStartOver e = false) es ->
  currentStep (st k1) <= Z.of_nat (length (capturedImages (st k1))) /\
  db k' = db k /\ completions k' = completions k.
Proof.
  intros R0 O0 Hc Hs He S R O.
  pose proof (run_from_mount _ _ _ _ _ R0) as C.
  pose proof (run_paced _ _ _ _ _ _ (mount_consistent db0) (mount_paced db0) O0 R0) as N.
  destruct (fail_wasted _ _ _ _ _ _ _ C N Hc Hs He S) as (W & E & D1 & C1).
  destruct (run_wasted _ _ _ _ _ _ (step_consistent _ _ _ _ _ _ C S) W O R) as (D2 & C2).
  split; [|split; congruence].
  unfold wasted in W. rewrite E in W. exact W.
Qed.

Lemma failed_upload_blocks_enrollment_witness :
  exists p k p1 k1 p' k',
    run "u1" (Loading, mount Store.empty) uploadPending = Some (p, k) /\
    step "u1" (p, k) (CaptureSettles 0) = Some (p1, k1) /\
    run "u1" (p1, k1) afterRefusal = Some (p', k') /\
    db k' = Store.empty /\ completions k' = 0%nat /\
    step "u1" (p', k') (ClickCapture noBlob) = None.
Proof.
  destruct (run "u1" (Loading, mount Store.empty) uploadPending)
    as [[p k]|] eqn:R0; [|vm_compute in R0; discriminate].
  destruct (captures p !! 0%nat) as [cap|] eqn:Hc;
    [|vm_compute in R0; injection R0 as <- _; discriminate].
  destruct (step "u1" (p, k) (CaptureSettles 0)) as [[p1 k1]|] eqn:S;
    [|vm_compute in R0; injection R0 as <- <-; vm_compute in S; discriminate].
  destruct (run "u1" (p1, k1) afterRefusal) as [[p' k']|] eqn:R;
    [|vm_compute in R0; injection R0 as <- <-; vm_compute in S; injection S as <- <-;
      vm_compute in R; discriminate].
  exists p, k, p1, k1, p', k'. do 3 (split; [first [reflexivity | eassumption]|]).
  assert (Hs : stage cap = Uploading /\ uploadError (frame cap) = true).
  { vm_compute in R0. injection R0 as <- _. injection Hc as <-. split; reflexivity. }
  assert (Hk : db k = Store.empty /\ completions k = 0%nat).
  { vm_compute in R0. injection R0 as _ <-. split; reflexivity. }
  destruct (failed_upload_blocks_enrollment "u1" Store.empty uploadPending p k 0 cap
              p1 k1 afterRefusal p' k' R0 ltac:(vm_compute; repeat constructor)
              Hc (proj1 Hs) (proj2 Hs) S R ltac:(vm_compute; repeat constructor))
    as (_ & H1 & H2).
  destruct Hk as [Hk1 Hk2]. rewrite Hk1 in H1. rewrite Hk2 in H2.
  repeat split; auto.
  vm_compute in R0. injection R0 as <- <-. vm_compute in S. injection S as <- <-.
  vm_compute in R. injection R as <- <-. vm_compute. reflexivity.
Defined.

End RegistrationFacts.

(** ** Runs of the VotingInterface screen *)
Module VotingScreenFacts.
Import Store VotingInterface VotingScreen BallotRuns.

(** The two outcomes of [submitVote] once an election and an option are
    selected. *)
Lemma submitVote_cases userId c r k e :
  selectedElection c = Some e -> String.eqb (selectedOption c) "" = false ->
  let row := voteRow userId e (selectedOption c) r in
  (exists t,
     (t = ToastAlreadyVoted \/ t = ToastFailed) /\
     (fault r <> None \/ existsb (same_key row) (votes (db k)) = true) /\
     submitVote userId c r k =
       mkComp (mkState (selectedElection (st k)) (selectedOption (st k)) false
                 (userVotes (st k)))
              (db k) (voteInserts k ++ [row]) (toasts k ++ [t]) (completions k)) \/
  (fault r = None /\ existsb (same_key row) (votes (db k)) = false /\
   submitVote userId c r k =
     mkComp (mkState (selectedElection (st k)) (selectedOption (st k)) false
               ({[ id e ]} ∪ userVotes (st k)))
            (mkDB (profiles (db k)) (votes (db k) ++ [row])
               (audit_logs (db k) ++
                [AuditLog.mk userId "VOTE_SUBMITTED"
                   (AuditLog.VoteSubmitted (id e) (title e) (selectedOption c))]))
            (voteInserts k ++ [row]) (toasts k ++ [ToastSubmitted])
            (S (completions k))).
Proof.
  intros He Ho row. subst row. unfold submitVote. rewrite He, Ho.
  cbv zeta. cbn [db withSt]. unfold insert_vote.
  destruct (fault r) as [code|] eqn:F.
  - left. destruct (String.eqb code "23505");
      eexists; (split; [|split; [left; discriminate|reflexivity]]); auto.
  - destruct (existsb _ _) eqn:E.
    + left. cbn. eexists. split; [left; reflexivity|]. split; [right; reflexivity|].
      reflexivity.
    + right. split; [reflexivity|]. split; [reflexivity|]. reflexivity.
Qed.

Lemma fault_None r : outage r = None -> inet (getUserIP r) = true -> fault r = None.
Proof. unfold fault, vote_fault. now intros -> ->. Qed.

Lemma mount_accounted userId db0 : accounted userId db0 (mount db0).
Proof.
  exists []. cbn. rewrite app_nil_r, Nat.add_0_r.
  repeat split; auto. inversion 1.
Qed.

Lemma loadElections_comp userId l v :
  db (comp (loadElections userId l v)) = db (comp v) /\
  completions (comp (loadElections userId l v)) = completions (comp v) /\
  toasts (comp (loadElections userId l v)) = toasts (comp v) /\
  voteInserts (comp (loadElections userId l v)) = voteInserts (comp v) /\
  isSubmitting (st (comp (loadElections userId l v))) = isSubmitting (st (comp v)) /\
  isLoading (loadElections userId l v) = false.
Proof.
  unfold loadElections. destruct (electionsResult l) as [rows|]; [|cbn; repeat split].
  cbv zeta. destruct (transformThrows l); [cbn; repeat split|].
  match goal with |- context [find ?f rows] => destruct (find f rows) end;
    cbn; repeat split.
Qed.

Lemma step_accounted userId db0 v e v' :
  accounted userId db0 v -> step userId v e = Some v' -> accounted userId db0 v'.
Proof.
  intros (new & Hv & Hn & Hu & Ha & Hp & Ht & Hs) S.
  destruct e as [l | i now | j | r]; cbn [step] in S.
  - destruct (isLoading v); [|discriminate]. injection S as <-.
    destruct (loadElections_comp userId l v) as (E1 & E2 & E3 & _ & E5 & _).
    exists new. rewrite E1, E2, E3, E5. auto 10.
  - destruct (rendered v); [|discriminate].
    destruct (elections v !! i) as [row|]; [|discriminate]. injection S as <-.
    exists new. destruct (_ && _); cbn; auto 10.
  - destruct (formShown v) as [el|]; [|discriminate].
    destruct (options el !! j); [|discriminate]. injection S as <-.
    exists new. cbn. auto 10.
  - destruct (formShown v) as [el|] eqn:F; [|discriminate].
    destruct (negb (String.eqb (selectedOption (st (comp v))) "")) eqn:O;
      [|discriminate].
    cbn [andb] in S. destruct (negb (isSubmitting (st (comp v)))); [|discriminate].
    injection S as <-. apply negb_true_iff in O.
    unfold formShown in F. destruct (rendered v); [|discriminate].
    destruct (selectedElection (st (comp v))) as [el'|] eqn:Se; [|discriminate].
    destruct (submitVote_cases userId (st (comp v)) r (comp v) el' Se O)
      as [(t & Ht' & _ & E) | (_ & _ & E)].
    + exists new. cbn. rewrite E. cbn. repeat split; auto.
      rewrite elem_of_app, list_elem_of_singleton.
      intros [X | X]; [auto | destruct Ht'; congruence].
    + exists (new ++ [voteRow userId el' (selectedOption (st (comp v))) r]). cbn.
      rewrite E. cbn.
      rewrite Hv, !length_app, Hn, Ha. cbn.
      repeat split; auto; try lia.
      * now rewrite app_assoc.
      * apply Forall_app. split; [exact Hu|]. constructor; [reflexivity|constructor].
      * rewrite elem_of_app, list_elem_of_singleton.
        intros [X | X]; [auto | discriminate].
Qed.

Lemma run_accounted userId db0 es v v' :
  accounted userId db0 v -> run userId v es = Some v' -> accounted userId db0 v'.
Proof.
  revert v. induction es as [|e es IH]; intros v A R; cbn [run] in R.
  - injection R as <-. exact A.
  - destruct (step userId v e) as [v1|] eqn:E; [|discriminate].
    eapply IH; [|exact R]. eapply step_accounted; eauto.
Qed.


Lemma elem_of_votedBy userId db e :
  e ∈ votedBy userId db <->
  exists row, row ∈ votes db /\ Vote.user_id row = userId /\ Vote.election_id row = e.
Proof.
  unfold votedBy. rewrite elem_of_list_to_set, list_elem_of_fmap. split.
  - intros (row & -> & H). apply list_elem_of_filter in H as [H1 H2].
    exists row. repeat split; auto.
    apply Is_true_true in H1. now apply String.eqb_eq in H1.
  - intros (row & H1 & H2 & H3). exists row. split; [auto|].
    apply list_elem_of_filter. split; [|exact H1].
    apply Is_true_true. now apply String.eqb_eq.
Qed.

Lemma not_voted_no_key userId db e o r :
  id e ∉ votedBy userId db ->
  existsb (same_key (voteRow userId e o r)) (votes db) = false.
Proof.
  intros N. destruct (existsb _ _) eqn:E; [|reflexivity]. exfalso. apply N.
  apply existsb_exists in E as (row & Hin & Hk).
  apply VotingFacts.same_key_spec in Hk. unfold vote_key, voteRow in Hk. cbn in Hk.
  injection Hk as Hu He.
  apply elem_of_votedBy. exists row. split; [now apply list_elem_of_In|]. auto.
Qed.

Lemma votedBy_insert userId db db' row :
  Vote.user_id row = userId ->
  votes db' = votes db ++ [row] ->
  votedBy userId db' = {[ Vote.election_id row ]} ∪ votedBy userId db.
Proof.
  intros Hu Hv. apply set_eq. intros e.
  rewrite elem_of_union, elem_of_singleton, !elem_of_votedBy. rewrite Hv. split.
  - intros (r & Hin & H1 & H2). apply elem_of_app in Hin as [Hin | Hin].
    + right. exists r. auto.
    + apply list_elem_of_singleton in Hin. subst r. left. auto.
  - intros [-> | (r & Hin & H1 & H2)].
    + exists row. split; [|auto]. apply elem_of_app. right. now apply list_elem_of_singleton.
    + exists r. split; [|auto]. apply elem_of_app. now left.
Qed.

Lemma mount_badgesSound userId db0 : badgesSound userId (mount db0).
Proof. intros e H. cbn in H. set_solver. Qed.

Lemma loadElections_userVotes userId l v e :
  e ∈ userVotes (st (comp (loadElections userId l v))) ->
  e ∈ userVotes (st (comp v)) \/ e ∈ votedBy userId (db (comp v)).
Proof.
  unfold loadElections. destruct (electionsResult l) as [rows|]; [|cbn; auto].
  cbv zeta. destruct (transformThrows l).
  - cbn. destruct (votesError l); [set_solver | auto].
  - match goal with |- context [find ?f rows] => destruct (find f rows) end;
      cbn; (destruct (votesError l); [set_solver | auto]).
Qed.

Lemma step_badgesSound userId v e v' :
  badgesSound userId v -> step userId v e = Some v' -> badgesSound userId v'.
Proof.
  intros B S.
  destruct e as [l | i now | j | r]; cbn [step] in S.
  - destruct (isLoading v); [|discriminate]. injection S as <-.
    intros e He. destruct (loadElections_comp userId l v) as (-> & _).
    apply loadElections_userVotes in He as [He | He]; [now apply B|].
    now apply elem_of_votedBy.
  - destruct (rendered v); [|discriminate].
    destruct (elections v !! i) as [row|]; [|discriminate]. injection S as <-.
    destruct (_ && _); [|exact B]. exact B.
  - destruct (formShown v) as [el|]; [|discriminate].
    destruct (options el !! j); [|discriminate]. injection S as <-. exact B.
  - destruct (formShown v) as [el|] eqn:F; [|discriminate].
    destruct (negb (String.eqb (selectedOption (st (comp v))) "")) eqn:O;
      [|discriminate].
    cbn [andb] in S. destruct (negb (isSubmitting (st (comp v)))); [|discriminate].
    injection S as <-. apply negb_true_iff in O.
    unfold formShown in F. destruct (rendered v); [|discriminate].
    destruct (selectedElection (st (comp v))) as [el'|] eqn:Se; [|discriminate].
    destruct (submitVote_cases userId (st (comp v)) r (comp v) el' Se O)
      as [(t & Ht' & _ & E) | (_ & _ & E)];
      unfold badgesSound; cbn; rewrite E; cbn.
    + exact B.
    + intros e He. apply elem_of_union in He as [He | He].
      * apply elem_of_singleton in He. subst e. eexists. split.
        { apply elem_of_app. right. now apply list_elem_of_singleton. }
        split; reflexivity.
      * destruct (B e He) as (row & H1 & H2). exists row. split; [|exact H2].
        apply elem_of_app. now left.
Qed.

(** An election is marked as voted only if the votes table holds a row of
    the user for it, in every run of the ballot: when loaded, when the query
    of the votes failed, and after each vote cast. *)
Theorem voted_badges_are_sound userId db0 es v e :
  run userId (mount db0) es = Some v ->
  e ∈ userVotes (st (comp v)) ->
  exists row, row ∈ votes (db (comp v)) /\
              Vote.user_id row = userId /\ Vote.election_id row = e.
Proof.
  intros R. revert e. change (badgesSound userId v).
  pose proof (mount_badgesSound userId db0) as B.
  revert R B. generalize (mount db0). induction es as [|ev es IH]; intros v0 R B; cbn [run] in R.
  - injection R as <-. exact B.
  - destruct (step userId v0 ev) as [v1|] eqn:E; [|discriminate].
    eapply IH; [exact R|]. eapply step_badgesSound; eauto.
Qed.

Lemma mount_inStep userId db0 : inStep userId db0 (mount db0).
Proof.
  unfold inStep. cbn. rewrite app_nil_r. repeat split; auto. discriminate.
Qed.

Lemma step_inStep userId db0 v e v' :
  inStep userId db0 v -> faultless e -> step userId v e = Some v' ->
  inStep userId db0 v'.
Proof.
  intros (Hl & Hu & Hv & Ht) Fl S.
  destruct e as [l | i now | j | r]; cbn [step] in S; cbn [faultless] in Fl.
  - destruct (isLoading v) eqn:L; [|discriminate]. injection S as <-.
    specialize (Hl eq_refl).
    assert (Hr : rendered v = false) by (unfold rendered; now rewrite L).
    unfold inStep, loadElections. rewrite Fl.
    destruct (electionsResult l) as [rows|].
    + cbv zeta. destruct (transformThrows l).
      * unfold rendered. cbn. rewrite Hl. cbn. repeat split; auto; discriminate.
      * match goal with |- context [find ?f rows] => destruct (find f rows) end;
          cbn; repeat split; auto; discriminate.
    + unfold rendered. cbn. rewrite Hl. cbn. repeat split; auto; discriminate.
  - destruct (rendered v) eqn:Rd; [|discriminate].
    destruct (elections v !! i) as [row|]; [|discriminate]. injection S as <-.
    unfold inStep. destruct (_ && _); unfold rendered in *; cbn; auto.
  - destruct (formShown v) as [el|]; [|discriminate].
    destruct (options el !! j); [|discriminate]. injection S as <-.
    unfold inStep, rendered in *. cbn. auto.
  - destruct (formShown v) as [el|] eqn:F; [|discriminate].
    destruct (negb (String.eqb (selectedOption (st (comp v))) "")) eqn:O;
      [|discriminate].
    cbn [andb] in S. destruct (negb (isSubmitting (st (comp v)))); [|discriminate].
    injection S as <-. apply negb_true_iff in O.
    unfold formShown in F. destruct (rendered v) eqn:Rd; [|discriminate].
    destruct (selectedElection (st (comp v))) as [el'|] eqn:Se; [|discriminate].
    unfold has in F. destruct (bool_decide (id el' ∈ userVotes (st (comp v)))) eqn:Hh;
      [discriminate|].
    apply bool_decide_eq_false in Hh. rewrite (Hu eq_refl) in Hh.
    pose proof (not_voted_no_key userId (db (comp v)) el'
                  (selectedOption (st (comp v))) r Hh) as Nk.
    destruct Fl as [Fl Fi]. pose proof (fault_None r Fl Fi) as Fr.
    destruct (submitVote_cases userId (st (comp v)) r (comp v) el' Se O)
      as [(t & _ & [X | X] & _) | (_ & _ & E)]; [congruence | congruence |].
    unfold inStep, rendered in *. cbn. rewrite E. cbn.
    split; [exact Hl|]. split; [|split].
    + intros _. rewrite (Hu eq_refl). symmetry.
      apply (votedBy_insert userId (db (comp v))
               (mkDB (profiles (db (comp v)))
                  (votes (db (comp v)) ++
                   [voteRow userId el' (selectedOption (st (comp v))) r]) [])
               (voteRow userId el' (selectedOption (st (comp v))) r));
        reflexivity.
    + rewrite Hv. now rewrite app_assoc.
    + rewrite Ht. now rewrite replicate_cons_app.
Qed.

(** When the query of the user's votes succeeds and no insert meets a fault
    of the store, the ballot never sends a vote that the store refuses:
    every row sent is persisted, the already-voted and failure messages are
    never shown, and the elections marked as voted are exactly those the
    user has a row for. *)
Theorem loaded_votes_prevent_duplicates userId db0 es v :
  run userId (mount db0) es = Some v ->
  Forall faultless es ->
  votes (db (comp v)) = votes db0 ++ voteInserts (comp v) /\
  toasts (comp v) = replicate (completions (comp v)) ToastSubmitted /\
  (rendered v = true -> userVotes (st (comp v)) = votedBy userId (db (comp v))).
Proof.
  intros R F.
  assert (G : inStep userId db0 v).
  { pose proof (mount_inStep userId db0) as B.
    revert R F B. generalize (mount db0).
    induction es as [|ev es IH]; intros v0 R F B; cbn [run] in R.
    - injection R as <-. exact B.
    - destruct (step userId v0 ev) as [v1|] eqn:E; [|discriminate].
      apply Forall_cons in F as [F1 F2].
      eapply IH; [exact R | exact F2 |]. eapply step_inStep; eauto. }
  destruct G as (_ & G1 & G2 & G3). auto.
Qed.


Lemma voted_badges_are_sound_witness :
  exists v row,
    run "u1" (mount voted) [ElectionsSettle loaded] = Some v /\
    "e1" ∈ userVotes (st (comp v)) /\
    row ∈ votes (db (comp v)) /\ Vote.election_id row = "e1".
Proof.
  destruct (run "u1" (mount voted) [ElectionsSettle loaded]) as [v|] eqn:R;
    [|vm_compute in R; discriminate].
  assert (H : "e1" ∈ userVotes (st (comp v))).
  { cbn in R. injection R as <-. cbn. unfold votedBy. cbn. set_solver. }
  destruct (voted_badges_are_sound _ _ _ _ _ R H) as (row & H1 & _ & H3).
  exists v, row. auto.
Defined.

Lemma loaded_votes_prevent_duplicates_witness :
  exists v,
    run "u1" (mount voted)
        [ElectionsSettle loaded; ClickOption 0; ClickCast Ballots.request] = Some v /\
    votes (db (comp v)) = votes voted ++ voteInserts (comp v) /\
    toasts (comp v) = replicate (completions (comp v)) ToastSubmitted.
Proof.
  destruct (run "u1" (mount voted)
              [ElectionsSettle loaded; ClickOption 0; ClickCast Ballots.request])
    as [v|] eqn:R; [|vm_compute in R; discriminate].
  exists v. split; [reflexivity|].
  destruct (loaded_votes_prevent_duplicates _ _ _ _ R) as (H1 & H2 & _).
  - repeat constructor.
  - auto.
Defined.

(** A vote cast from the form with nothing in its way is persisted. *)
Lemma cast_persists userId v e req :
  formShown v = Some e ->
  String.eqb (selectedOption (st (comp v))) "" = false ->
  isSubmitting (st (comp v)) = false ->
  fault req = None ->
  existsb (same_key (voteRow userId e (selectedOption (st (comp v))) req))
          (votes (db (comp v))) = false ->
  exists v',
    step userId v (ClickCast req) = Some v' /\
    votes (db (comp v'))
    = votes (db (comp v)) ++ [voteRow userId e (selectedOption (st (comp v))) req] /\
    completions (comp v') = S (completions (comp v)).
Proof.
  intros F Ho Hs Hq Hk. cbn [step]. rewrite F, Ho, Hs. cbn [negb andb].
  eexists. split; [reflexivity|]. unfold withComp. cbn [comp].
  unfold formShown in F. destruct (rendered v); [|discriminate].
  destruct (selectedElection (st (comp v))) as [e'|] eqn:Se; [|discriminate].
  destruct (has _ _); [discriminate|]. injection F as ->.
  destruct (submitVote_cases userId (st (comp v)) req (comp v) e Se Ho)
    as [(t & _ & [X | X] & _) | (_ & _ & E)]; [congruence | congruence |].
  rewrite E. split; reflexivity.
Qed.

(** [loadElections] selects the first election the user has no vote in
    without consulting [isElectionActive]: the form is shown for it and a
    vote for it is persisted whatever its dates, while a click on an
    election that is not active does not select it. *)
Theorem closed_election_can_be_voted userId db0 rows r0 j o req :
  find (fun e => negb (has (votedBy userId db0) (id (election e)))) rows = Some r0 ->
  options (election r0) !! j = Some o ->
  String.eqb o "" = false ->
  outage req = None -> inet (getUserIP req) = true ->
  let v1 := loadElections userId (mkLoaded (Some rows) false false) (mount db0) in
  (exists v,
     run userId (mount db0)
         [ElectionsSettle (mkLoaded (Some rows) false false); ClickOption j; ClickCast req]
       = Some v /\
     votes (db (comp v)) = votes db0 ++ [voteRow userId (election r0) o req] /\
     completions (comp v) = 1%nat) /\
  (forall i now r,
     rows !! i = Some r -> isElectionActive now r = false ->
     step userId v1 (ClickElection i now) = Some v1).
Proof.
  intros Hf Hj Ho Hq Hn v1. pose proof (fault_None req Hq Hn) as Hfr.
  assert (Hne : negb (Nat.eqb (length rows) 0) = true).
  { destruct rows; [discriminate | reflexivity]. }
  assert (Hnot : has (votedBy userId db0) (id (election r0)) = false).
  { apply find_some in Hf as [_ Hf]. now apply negb_true_iff in Hf. }
  assert (E1 : v1 = mkView (mkComp (mkState (Some (election r0)) "" false (votedBy userId db0))
                              db0 [] [] 0) rows false []).
  { subst v1. unfold loadElections. cbn. rewrite Hf. reflexivity. }
  assert (S1 : step userId (mount db0) (ElectionsSettle (mkLoaded (Some rows) false false))
               = Some v1) by reflexivity.
  set (v2 := mkView (mkComp (mkState (Some (election r0)) o false (votedBy userId db0))
                       db0 [] [] 0) rows false []).
  assert (S2 : step userId v1 (ClickOption j) = Some v2).
  { rewrite E1. cbn [step]. unfold formShown, rendered. cbn. rewrite Hne, Hnot, Hj.
    reflexivity. }
  assert (F2 : formShown v2 = Some (election r0)).
  { unfold formShown, rendered. cbn. now rewrite Hne, Hnot. }
  assert (Nk : existsb (same_key (voteRow userId (election r0) o req)) (votes db0) = false).
  { apply not_voted_no_key. unfold has in Hnot. now apply bool_decide_eq_false in Hnot. }
  destruct (cast_persists userId v2 (election r0) req F2 Ho eq_refl Hfr Nk)
    as (v3 & S3 & V3 & C3).
  split.
  - exists v3. cbn [run]. rewrite S1, S2, S3. auto.
  - intros i now r Hi Ha. rewrite E1. cbn [step]. unfold rendered. cbn.
    rewrite Hne, Hi, Ha, andb_false_r. reflexivity.
Qed.

Lemma closed_election_can_be_voted_witness :
  isElectionActive 5000 council = false /\
  exists v,
    run "u1" (mount Store.empty)
        [ElectionsSettle loaded; ClickOption 0; ClickCast Ballots.request] = Some v /\
    votes (db (comp v)) = [voteRow "u1" (election council) "Alice" Ballots.request].
Proof.
  split; [reflexivity|].
  destruct (closed_election_can_be_voted "u1" Store.empty [council; budget] council
              0 "Alice" Ballots.request eq_refl eq_refl eq_refl eq_refl eq_refl)
    as [(v & H1 & H2 & _) _].
  exists v. split; [exact H1 | exact H2].
Defined.

(** Selecting another election keeps the option that was selected before:
    the vote then cast is persisted for the newly selected election with
    the option picked in the other one, which need not be among the options
    of the election it is recorded for. *)
Theorem option_survives_election_switch userId db0 es v i now rB req :
  run userId (mount db0) es = Some v ->
  rendered v = true ->
  elections v !! i = Some rB ->
  isElectionActive now rB = true ->
  has (userVotes (st (comp v))) (id (election rB)) = false ->
  String.eqb (selectedOption (st (comp v))) "" = false ->
  outage req = None -> inet (getUserIP req) = true ->
  existsb (same_key (voteRow userId (election rB) (selectedOption (st (comp v))) req))
          (votes (db (comp v))) = false ->
  exists v',
    run userId v [ClickElection i now; ClickCast req] = Some v' /\
    votes (db (comp v'))
    = votes (db (comp v))
      ++ [voteRow userId (election rB) (selectedOption (st (comp v))) req].
Proof.
  intros R Hr Hi Ha Hh Ho Hq Hn Hk. pose proof (fault_None req Hq Hn) as Hfr.
  destruct (run_accounted _ _ _ _ _ (mount_accounted userId db0) R)
    as (_ & _ & _ & _ & _ & _ & _ & Hs).
  set (v1 := withState (setSelectedElection (election rB)) v).
  assert (S1 : step userId v (ClickElection i now) = Some v1).
  { cbn [step]. rewrite Hr, Hi, Ha, Hh. reflexivity. }
  assert (F1 : formShown v1 = Some (election rB)).
  { unfold formShown. change (rendered v1) with (rendered v). rewrite Hr.
    cbn. now rewrite Hh. }
  destruct (cast_persists userId v1 (election rB) req F1 Ho Hs Hfr Hk)
    as (v2 & S2 & V2 & _).
  exists v2. cbn [run]. rewrite S1, S2. auto.
Qed.

Lemma option_survives_election_switch_witness :
  exists v',
    run "u1" (mount Store.empty)
        [ElectionsSettle loaded; ClickOption 0; ClickElection 1 5000;
         ClickCast Ballots.request] = Some v' /\
    votes (db (comp v')) = [voteRow "u1" (election budget) "Alice" Ballots.request] /\
    "Alice" ∉ options (election budget).
Proof.
  destruct (run "u1" (mount Store.empty) [ElectionsSettle loaded; ClickOption 0])
    as [v|] eqn:R; [|vm_compute in R; discriminate].
  assert (Ev : v = mkView (mkComp (mkState (Some (election council)) "Alice" false ∅)
                             Store.empty [] [] 0) [council; budget] false []).
  { cbn in R. injection R as <-. reflexivity. }
  destruct (option_survives_election_switch "u1" Store.empty _ v 1 5000 budget
              Ballots.request R) as (v' & H1 & H2); try (subst v; reflexivity).
  exists v'. split; [|split].
  - cbn [run] in *. cbn [run] in R.
    destruct (step "u1" (mount Store.empty) (ElectionsSettle loaded)) as [a|];
      [|discriminate].
    destruct (step "u1" a (ClickOption 0)) as [b|]; [|discriminate].
    injection R as ->. exact H1.
  - rewrite H2. subst v. reflexivity.
  - cbn. intros H.
    apply elem_of_cons in H as [H|H]; [discriminate|].
    apply elem_of_cons in H as [H|H]; [discriminate|]. inversion H.
Defined.

Lemma step_exhausted userId v e v' :
  isLoading v = false -> exhausted v -> step userId v e = Some v' ->
  v' = v /\ exists i now, e = ClickElection i now.
Proof.
  intros L [Hs Hv] S. destruct e as [l | i now | j | r]; cbn [step] in S.
  - rewrite L in S. discriminate.
  - destruct (rendered v); [|discriminate].
    destruct (elections v !! i) as [row|] eqn:Hi; [|discriminate].
    rewrite Forall_forall in Hv.
    rewrite (Hv row) in S by (eapply list_elem_of_lookup_2; eauto).
    cbn in S. injection S as <-. eauto.
  - unfold formShown in S. rewrite Hs in S. destruct (rendered v); discriminate.
  - unfold formShown in S. rewrite Hs in S. destruct (rendered v); discriminate.
Qed.

(** When the user has a vote in every election that was loaded, no election
    is selected and none can be: the form is never shown, no vote is sent
    and [onVoteComplete] is never armed, so the page stays on the voting
    step whatever is clicked. *)
Theorem nothing_left_to_vote userId db0 rows es v :
  Forall (fun r => has (votedBy userId db0) (id (election r)) = true) rows ->
  run userId (mount db0) (ElectionsSettle (mkLoaded (Some rows) false false) :: es) = Some v ->
  comp v = mkComp (mkState None "" false (votedBy userId db0)) db0 [] [] 0 /\
  formShown v = None /\
  Forall (fun e => exists i now, e = ClickElection i now) es.
Proof.
  intros Hall R. cbn [run] in R.
  assert (Hf : find (fun e => negb (has (votedBy userId db0) (id (election e)))) rows = None).
  { clear R. induction rows as [|r rows IH]; [reflexivity|].
    apply Forall_cons in Hall as [H1 H2]. cbn. rewrite H1. cbn. auto. }
  set (v1 := mkView (mkComp (mkState None "" false (votedBy userId db0)) db0 [] [] 0)
                    rows false []).
  assert (E1 : step userId (mount db0)
                 (ElectionsSettle (mkLoaded (Some rows) false false)) = Some v1).
  { cbn [step mount isLoading]. unfold loadElections. cbn. rewrite Hf. reflexivity. }
  rewrite E1 in R.
  assert (Hx : exhausted v1) by (split; [reflexivity | exact Hall]).
  assert (G : forall l, run userId v1 l = Some v ->
                        v = v1 /\ Forall (fun e => exists i now, e = ClickElection i now) l).
  { clear R. intros l. induction l as [|e l IH]; intros R; cbn [run] in R.
    - injection R as R. subst v. auto.
    - destruct (step userId v1 e) as [v2|] eqn:E; [|discriminate].
      destruct (step_exhausted userId v1 e v2 eq_refl Hx E) as [Ev He].
      rewrite Ev in R. destruct (IH R) as [Hv F]. split; [exact Hv|]. constructor; auto. }
  destruct (G es R) as [Hv F]. subst v. split; [reflexivity|]. split; [|exact F].
  unfold formShown. destruct (rendered v1); reflexivity.
Qed.

Lemma nothing_left_to_vote_witness :
  exists v,
    run "u1" (mount votedBoth) [ElectionsSettle loaded; ClickElection 1 5000] = Some v /\
    formShown v = None /\ completions (comp v) = 0%nat.
Proof.
  destruct (run "u1" (mount votedBoth) [ElectionsSettle loaded; ClickElection 1 5000])
    as [v|] eqn:R; [|vm_compute in R; discriminate].
  exists v. split; [reflexivity|].
  destruct (nothing_left_to_vote "u1" votedBoth [council; budget] [ClickElection 1 5000] v)
    as (C & F & _).
  - repeat constructor.
  - exact R.
  - split; [exact F|]. now rewrite C.
Defined.

Lemma voted_has_key userId db e o r :
  has (votedBy userId db) (id e) = true ->
  existsb (same_key (voteRow userId e o r)) (votes db) = true.
Proof.
  unfold has. intros H. apply bool_decide_eq_true in H.
  apply elem_of_votedBy in H as (row & Hin & Hu & He).
  apply existsb_exists. exists row. split; [now apply list_elem_of_In|].
  apply VotingFacts.same_key_spec. unfold vote_key, voteRow. cbn. congruence.
Qed.

Lemma step_spent userId db0 v e v' :
  spent userId db0 v -> step userId v e = Some v' -> spent userId db0 v'.
Proof.
  intros (L & D & C & T & Hel & Hsel) S.
  destruct e as [l | i now | j | r]; cbn [step] in S.
  - rewrite L in S. discriminate.
  - destruct (rendered v); [|discriminate].
    destruct (elections v !! i) as [row|] eqn:Hi; [|discriminate]. injection S as <-.
    destruct (_ && _); [|repeat split; auto].
    unfold spent. cbn. repeat split; auto.
    intros e He. injection He as <-.
    rewrite Forall_forall in Hel. apply (Hel row). eapply list_elem_of_lookup_2; eauto.
  - destruct (formShown v) as [el|]; [|discriminate].
    destruct (options el !! j); [|discriminate]. injection S as <-.
    unfold spent. cbn. repeat split; auto.
  - destruct (formShown v) as [el|] eqn:F; [|discriminate].
    destruct (negb (String.eqb (selectedOption (st (comp v))) "")) eqn:O;
      [|discriminate].
    cbn [andb] in S. destruct (negb (isSubmitting (st (comp v)))); [|discriminate].
    injection S as <-. apply negb_true_iff in O.
    unfold formShown in F. destruct (rendered v); [|discriminate].
    destruct (selectedElection (st (comp v))) as [el'|] eqn:Se; [|discriminate].
    pose proof (voted_has_key userId db0 el' (selectedOption (st (comp v))) r
                  (Hsel el' eq_refl)) as K.
    rewrite <- D in K.
    destruct (submitVote_cases userId (st (comp v)) r (comp v) el' Se O)
      as [(t & Ht & _ & E) | (_ & X & _)]; [|congruence].
    unfold spent. cbn. rewrite E. cbn. repeat split; auto.
    + apply Forall_app. split; [exact T|]. constructor; [exact Ht|constructor].
    + intros e He. apply Hsel. congruence.
Qed.

(** A user who has a vote in every loaded election cannot add one, whether
    or not the ballot knows of the votes: when the query of the votes fails
    the form is shown and votes can be sent, but the store refuses each of
    them; the table stays as it was, only refusals are shown and
    [onVoteComplete] is never armed. *)
Theorem store_refuses_unseen_duplicates userId db0 l rows es v :
  electionsResult l = Some rows -> transformThrows l = false ->
  Forall (fun r => has (votedBy userId db0) (id (election r)) = true) rows ->
  run userId (mount db0) (ElectionsSettle l :: es) = Some v ->
  db (comp v) = db0 /\ completions (comp v) = 0%nat /\
  Forall (fun t => t = ToastAlreadyVoted \/ t = ToastFailed) (toasts (comp v)).
Proof.
  intros He Ht Hall R. cbn [run] in R.
  destruct (step userId (mount db0) (ElectionsSettle l)) as [v1|] eqn:S1; [|discriminate].
  assert (Hx : spent userId db0 v1).
  { cbn [step mount isLoading] in S1. injection S1 as <-.
    unfold loadElections. rewrite He, Ht. cbv zeta.
    match goal with |- context [find ?f rows] => destruct (find f rows) as [r|] eqn:Hf end.
    - apply find_some in Hf as [Hin _].
      unfold spent. cbn. repeat split; auto.
      intros e Hsel. injection Hsel as <-.
      rewrite Forall_forall in Hall. apply Hall. now apply list_elem_of_In.
    - unfold spent. cbn. repeat split; auto. discriminate. }
  assert (G : forall l0 v0, spent userId db0 v0 -> run userId v0 l0 = Some v ->
                            spent userId db0 v).
  { clear. intros l0. induction l0 as [|e l0 IH]; intros v0 X R; cbn [run] in R.
    - injection R as <-. exact X.
    - destruct (step userId v0 e) as [v2|] eqn:E; [|discriminate].
      eapply IH; [|exact R]. eapply step_spent; eauto. }
  destruct (G es v1 Hx R) as (_ & D & C & T & _). auto.
Qed.

Lemma store_refuses_unseen_duplicates_witness :
  exists v,
    run "u1" (mount votedBoth)
        [ElectionsSettle votesUnknown; ClickOption 0; ClickCast Ballots.request] = Some v /\
    db (comp v) = votedBoth /\ toasts (comp v) = [ToastAlreadyVoted].
Proof.
  destruct (run "u1" (mount votedBoth)
              [ElectionsSettle votesUnknown; ClickOption 0; ClickCast Ballots.request])
    as [v|] eqn:R; [|vm_compute in R; discriminate].
  exists v. split; [reflexivity|].
  destruct (store_refuses_unseen_duplicates "u1" votedBoth votesUnknown [council; budget]
              [ClickOption 0; ClickCast Ballots.request] v eq_refl eq_refl)
    as (D & _ & _).
  - repeat constructor.
  - exact R.
  - split; [exact D|]. vm_compute in R. injection R as <-. reflexivity.
Defined.

(** When the address service is not reached, [getUserIP] answers "unknown",
    which the INET column of the votes table refuses: whatever the election,
    the option and the table, the vote is not recorded, the generic failure
    message is shown and [onVoteComplete] is not armed. *)
Theorem unreachable_ipify_blocks_vote userId c r k e :
  selectedElection c = Some e -> String.eqb (selectedOption c) "" = false ->
  ipify r = None -> outage r = None ->
  let k' := submitVote userId c r k in
  Vote.ip_address (voteRow userId e (selectedOption c) r) = "unknown" /\
  voteInserts k' = voteInserts k ++ [voteRow userId e (selectedOption c) r] /\
  db k' = db k /\ completions k' = completions k /\
  toasts k' = toasts k ++ [ToastFailed] /\
  isSubmitting (st k') = false.
Proof.
  intros He Ho Hi Hq k'. subst k'. unfold submitVote. rewrite He, Ho.
  cbv zeta. unfold fault, vote_fault, voteRow, getUserIP. rewrite Hi, Hq.
  cbn. repeat split.
Qed.

Lemma unreachable_ipify_blocks_vote_witness :
  let k' := submitVote "u1" Ballots.chosen Ballots.offline Ballots.fresh in
  db k' = Store.empty /\ toasts k' = [ToastFailed] /\ completions k' = 0%nat.
Proof.
  destruct (unreachable_ipify_blocks_vote "u1" Ballots.chosen Ballots.offline Ballots.fresh
              _ eq_refl eq_refl eq_refl eq_refl) as (_ & _ & H1 & H2 & H3 & _).
  split; [exact H1|]. split; [exact H3 | exact H2].
Defined.

End VotingScreenFacts.

(** ** Runs of the FaceVerification screen *)
Module VerificationScreenFacts.
Import Store FaceVerification VerificationScreen VerificationRuns.

Section Matcher.

Variable userId : string.
Variable euclideanDistance : list JS.number -> list JS.number -> option JS.number.

Local Abbreviation step := (VerificationScreen.step userId euclideanDistance).
Local Abbreviation run := (VerificationScreen.run userId euclideanDistance).

Lemma Status_eqb_eq a b : Status_eqb a b = true -> a = b.
Proof. destruct a, b; cbn; congruence. Qed.

Lemma loadModelsAndData_shape l v :
  comp (loadModelsAndData l v) = comp v \/
  exists d, comp (loadModelsAndData l v) = showVideo d (comp v).
Proof.
  unfold loadModelsAndData. destruct (modelsLoaded l); cbn [negb]; [|now left].
  destruct (reply l) as [|[d|[|]]]; cbn; eauto.
Qed.

Lemma filter_snoc_true {A} (f : A -> bool) (l : list A) (x : A) :
  f x = true -> filter (fun a => f a) (l ++ [x]) = filter (fun a => f a) l ++ [x].
Proof.
  intros H. rewrite filter_app. f_equal. rewrite filter_cons.
  destruct (decide _) as [D|D]; [reflexivity|]. rewrite H in D. destruct D. exact I.
Qed.

Lemma filter_snoc_false {A} (f : A -> bool) (l : list A) (x : A) :
  f x = false -> filter (fun a => f a) (l ++ [x]) = filter (fun a => f a) l.
Proof.
  intros H. rewrite filter_app, filter_cons.
  destruct (decide _) as [D|D]; [rewrite H in D; destruct D|].
  now rewrite app_nil_r.
Qed.

Lemma mount_truthful : truthful (comp mount).
Proof. unfold truthful. cbn. repeat split; auto. Qed.

Lemma truthful_same k k' :
  reported k' = reported k -> completions k' = completions k ->
  audit_logs k' = audit_logs k -> toasts k' = toasts k ->
  pending k' = pending k ->
  truthful k -> truthful k'.
Proof.
  unfold truthful, successRows. intros -> -> -> -> ->. auto.
Qed.

Lemma clearCurrent_same k :
  reported (clearCurrent k) = reported k /\
  completions (clearCurrent k) = completions k /\
  audit_logs (clearCurrent k) = audit_logs k /\
  toasts (clearCurrent k) = toasts k /\
  pending (clearCurrent k) = pending k /\
  st (clearCurrent k) = st k /\
  videoRef (clearCurrent k) = videoRef k /\
  intervalRef (clearCurrent k) = intervalRef k /\
  nextTimer (clearCurrent k) = nextTimer k.
Proof. unfold clearCurrent. destruct (intervalRef k) eqn:E; cbn; rewrite ?E; repeat split. Qed.

Lemma truthful_clearCurrent k : truthful k -> truthful (clearCurrent k).
Proof.
  destruct (clearCurrent_same k) as (H1 & H2 & H3 & H4 & H5 & _).
  now apply truthful_same.
Qed.

Lemma step_truthful p v e p' v' :
  truthful (comp v) -> step (p, v) e = Some (p', v') -> truthful (comp v').
Proof.
  intros T S. pose proof T as (Tr & Tl & Ta & Tt & Tp).
  destruct e as [l | granted | | id | i detection | i | | | ];
    cbn [VerificationScreen.step] in S.
  - destruct p; try discriminate. injection S as _ <-.
    destruct (loadModelsAndData_shape l v) as [-> | (d & ->)]; [exact T|].
    eapply truthful_same; [| | | | |exact T]; reflexivity.
  - destruct p; try discriminate. injection S as _ <-.
    unfold startCamera. cbn [comp withComp].
    destruct granted; [destruct (videoRef (comp v))|].
    + eapply truthful_same; [| | | | |exact T]; reflexivity.
    + exact T.
    + unfold truthful, successRows. cbn.
      rewrite (filter_snoc_false isVerifiedToast) by reflexivity. auto.
  - destruct (verifyEnabled (comp v)); [|discriminate]. injection S as _ <-.
    cbn [comp withComp]. unfold clickVerify, startVerification.
    destruct (storedDescriptor (st (comp v))); [|exact T].
    eapply truthful_same; [| | | | |exact T]; reflexivity.
  - destruct (running id (comp v)); [|discriminate]. injection S as _ <-.
    cbn [comp withComp]. unfold intervalCallback.
    destruct (find _ _) as [t|]; [|exact T].
    destruct (negb (videoRef (comp v)) || negb (isActive (closure t))
              || (attempts t >=? maxAttempts)).
    + destruct (attempts t >=? maxAttempts); [|now apply truthful_clearCurrent].
      unfold truthful, successRows. cbn.
      rewrite (filter_snoc_false isVerifiedToast) by reflexivity.
      repeat split; auto. apply Forall_app. split; [exact Tp|].
      constructor; [reflexivity | constructor].
    + unfold truthful, successRows. cbn. repeat split; auto.
      apply Forall_app. split; [exact Tp|]. constructor; [exact I | constructor].
  - destruct (pending (comp v) !! i) as [[id | row | row]|]; try discriminate.
    injection S as _ <-. cbn [comp withComp].
    assert (T1 : truthful (resume i (comp v))).
    { unfold truthful, successRows. cbn. repeat split; auto. now apply Forall_delete. }
    unfold afterDetection. change (intervals (resume i (comp v))) with (intervals (comp v)).
    destruct (find _ _) as [t|]; [|exact T1].
    destruct detection as [descriptor|]; [|exact T1].
    destruct (storedDescriptor (closure t)) as [stored|]; [|exact T1].
    destruct (euclideanDistance stored descriptor) as [distance|]; [|exact T1].
    destruct (JS.lt distance threshold); [|exact T1].
    cbv zeta.
    set (k2 := clearCurrent (withSt (setIsVerifying false)
                 (withSt (setVerificationStatus success) (resume i (comp v))))).
    assert (T2 : truthful k2).
    { apply truthful_clearCurrent. eapply truthful_same; [| | | | |exact T1]; reflexivity. }
    destruct T2 as (A1 & A2 & A3 & A4 & A5).
    unfold truthful, successRows, await. cbn. repeat split; auto.
    apply Forall_app. split; [exact A5|]. constructor; [reflexivity | constructor].
  - destruct (pending (comp v) !! i) as [[id | row | row]|] eqn:L; try discriminate;
      injection S as _ <-; cbn [comp withComp];
      (assert (Hl : labelled (nth i (pending (comp v)) (Detecting 0)));
       [rewrite Forall_forall in Tp; apply Tp; eapply list_elem_of_lookup_2;
        erewrite nth_lookup_Some by exact L; exact L|]);
      erewrite nth_lookup_Some in Hl by exact L; cbn in Hl.
    + apply (truthful_clearCurrent (insertAudit row (resume i (comp v)))).
      unfold truthful, successRows. cbn.
      rewrite (filter_snoc_false
                 (fun r => String.eqb (AuditLog.action r) "FACE_VERIFICATION_SUCCESS"))
        by (now rewrite Hl).
      repeat split; auto. now apply Forall_delete.
    + unfold truthful, successRows, afterSuccessInsert. cbn.
      rewrite (filter_snoc_true
                 (fun r => String.eqb (AuditLog.action r) "FACE_VERIFICATION_SUCCESS"))
        by (now rewrite Hl).
      rewrite (filter_snoc_true isVerifiedToast) by reflexivity.
      rewrite !length_app. cbn. unfold successRows in Ta. rewrite <- Ta, <- Tt.
      repeat split; auto; try lia. now apply Forall_delete.
  - destruct (length (reported (comp v)) <? completions (comp v))%nat eqn:B;
      [|discriminate].
    injection S as _ <-. apply Nat.ltb_lt in B.
    cbn [comp withComp]. unfold completionCallback, stopCamera.
    match goal with |- context [clearCurrent ?k] =>
      destruct (clearCurrent_same k) as (H1 & H2 & H3 & H4 & H5 & _) end.
    unfold truthful, successRows. cbn [reported completions audit_logs toasts pending].
    rewrite H1, H2, H3, H4, H5.
    destruct (videoRef (comp v) && srcObject (comp v)); cbn; rewrite length_app; cbn;
      (split; [apply Forall_app; split; [exact Tr | repeat constructor]|];
       split; [lia | auto]).
  - destruct (tryAgainShown (comp v)); [|discriminate]. injection S as _ <-.
    eapply truthful_same; [| | | | |exact T]; reflexivity.
  - destruct (cancelShown (comp v)); [|discriminate]. injection S as _ <-. exact T.
Qed.

Lemma run_truthful es p v p' v' :
  truthful (comp v) -> run (p, v) es = Some (p', v') -> truthful (comp v').
Proof.
  revert p v. induction es as [|e es IH]; intros p v Tr R;
    cbn [VerificationScreen.run] in R.
  - injection R as _ <-. auto.
  - destruct (step (p, v) e) as [[p1 v1]|] eqn:E; [|discriminate].
    eapply IH; [|exact R]. eapply step_truthful; eauto.
Qed.

(** In every run of the screen [onVerificationComplete] is called with
    [true] only, and only after a matching frame for which the
    FACE_VERIFICATION_SUCCESS row was written and the success message shown:
    the component never reports a failure to the page. *)
Theorem verification_reports_only_success es p v :
  run (Loading, mount) es = Some (p, v) ->
  Forall (fun b => b = true) (reported (comp v)) /\
  (length (reported (comp v)) <= completions (comp v))%nat /\
  completions (comp v) = length (successRows (comp v)) /\
  completions (comp v)
    = length (filter (fun t => isVerifiedToast t) (toasts (comp v))).
Proof.
  intros R.
  destruct (run_truthful _ _ _ _ _ mount_truthful R) as (T1 & T2 & T3 & T4 & _).
  auto.
Qed.

(** Nothing can happen in a component that shows the spinner and has no
    timer and no pending request. *)
Lemma inert p v e :
  p = Stuck -> isLoading (st (comp v)) = true -> intervals (comp v) = [] ->
  pending (comp v) = [] ->
  completions (comp v) = 0%nat -> step (p, v) e = None.
Proof.
  intros -> L I P C.
  destruct e as [l | granted | | id | i detection | i | | | ];
    cbn [VerificationScreen.step]; try reflexivity.
  - unfold verifyEnabled. now rewrite L.
  - unfold running. now rewrite I.
  - now rewrite P.
  - now rewrite P.
  - rewrite C. replace (_ <? 0)%nat with false; [reflexivity|].
    symmetry. apply Nat.ltb_ge. lia.
  - unfold tryAgainShown. now rewrite L.
  - unfold cancelShown. now rewrite L.
Qed.

(** When the models fail to load, or the profile has no face descriptor (no
    row, a query error, a null column), the component stays on its spinner
    and nothing further can happen in it: no button is rendered and no timer
    runs.  Without face data it asks the page once to go back to
    registration; when the models fail it does not even do that. *)
Theorem stuck_without_face_data l es p v :
  startsCamera l = false ->
  run (Loading, mount) (DataSettles l :: es) = Some (p, v) ->
  es = [] /\ isLoading (st (comp v)) = true /\
  reported (comp v) = [] /\ audit_logs (comp v) = [] /\
  (modelsLoaded l = true -> cancels v = 1%nat /\ notices v = [NoticeNoFaceData]) /\
  (modelsLoaded l = false -> cancels v = 0%nat /\ notices v = [NoticeLoadFailed]).
Proof.
  intros Hs R. cbn [VerificationScreen.run VerificationScreen.step] in R. rewrite Hs in R.
  assert (K : comp (loadModelsAndData l mount) = comp mount /\
              (modelsLoaded l = true ->
               cancels (loadModelsAndData l mount) = 1%nat /\
               notices (loadModelsAndData l mount) = [NoticeNoFaceData]) /\
              (modelsLoaded l = false ->
               cancels (loadModelsAndData l mount) = 0%nat /\
               notices (loadModelsAndData l mount) = [NoticeLoadFailed])).
  { unfold startsCamera in Hs. unfold loadModelsAndData.
    destruct (modelsLoaded l); cbn [negb andb] in *.
    - destruct (reply l) as [|[d|[|]]]; try discriminate;
        (split; [reflexivity|]; split; [auto | discriminate]).
    - split; [reflexivity|]. split; [discriminate | auto]. }
  destruct K as (Kc & K1 & K0).
  destruct es as [|e es].
  - cbn in R. injection R as _ <-. rewrite Kc. cbn. auto 10.
  - cbn [VerificationScreen.run] in R.
    rewrite (inert Stuck (loadModelsAndData l mount) e eq_refl) in R;
      [discriminate | | | |]; now rewrite Kc.
Qed.

Lemma step_denied v e p' v' :
  denied v -> step (Settled, v) e = Some (p', v') ->
  e = ClickCancel /\ p' = Settled /\ denied v'.
Proof.
  intros (L & A & W & I & P & C & Rp & Au) S.
  destruct e as [l | granted | | id | i detection | i | | | ];
    cbn [VerificationScreen.step] in S; try discriminate.
  - unfold verifyEnabled in S. rewrite A, andb_false_r in S. discriminate.
  - unfold running in S. rewrite I in S. discriminate.
  - rewrite P in S. discriminate.
  - rewrite P in S. discriminate.
  - rewrite C, Rp in S. discriminate.
  - unfold tryAgainShown in S. rewrite W, andb_false_r in S. discriminate.
  - destruct (cancelShown (comp v)); [|discriminate]. injection S as <- <-.
    repeat split; auto.
Qed.

(** When the camera is refused, "Verify Face" stays disabled: every later
    event is a click on "Cancel", no verification is ever started, nothing
    is written to the audit log and nothing is reported to the page. *)
Theorem refused_camera_only_cancels l es p v :
  startsCamera l = true ->
  run (Loading, mount) (DataSettles l :: CameraSettles false :: es) = Some (p, v) ->
  Forall (fun e => e = ClickCancel) es /\
  cancels v = length es /\
  toasts (comp v) = [ToastCameraDenied] /\
  intervals (comp v) = [] /\ audit_logs (comp v) = [] /\ reported (comp v) = [].
Proof.
  intros Hs R. cbn [VerificationScreen.run VerificationScreen.step] in R. rewrite Hs in R.
  assert (K : exists d, loadModelsAndData l mount = withComp (showVideo d) mount).
  { unfold startsCamera in Hs. unfold loadModelsAndData.
    destruct (modelsLoaded l); cbn [negb andb] in *; [|discriminate].
    destruct (reply l) as [|[d|[|]]]; try discriminate; eauto. }
  destruct K as (d & K). rewrite K in R. clear K Hs.
  set (v0 := withComp (startCamera false) (withComp (showVideo d) mount)) in R.
  assert (D0 : denied v0) by (unfold denied; cbn; auto 10).
  assert (T0 : toasts (comp v0) = [ToastCameraDenied] /\ cancels v0 = 0%nat)
    by (split; reflexivity).
  assert (G : forall es v0 n,
            denied v0 -> toasts (comp v0) = [ToastCameraDenied] -> cancels v0 = n ->
            run (Settled, v0) es = Some (p, v) ->
            Forall (fun e => e = ClickCancel) es /\ cancels v = (n + length es)%nat /\
            toasts (comp v) = [ToastCameraDenied] /\ denied v).
  { clear. induction es as [|e es IH]; intros v0 n D T C R;
      cbn [VerificationScreen.run] in R.
    - injection R as _ <-. rewrite Nat.add_0_r. auto.
    - destruct (step (Settled, v0) e) as [[p1 v1]|] eqn:E; [|discriminate].
      destruct (step_denied _ _ _ _ D E) as (-> & -> & D1).
      cbn [VerificationScreen.step] in E.
      destruct (cancelShown (comp v0)); [|discriminate]. injection E as <-.
      destruct (IH (onCancel v0) (S n) D1 T ltac:(cbn; congruence) R)
        as (F & Cn & To & Dn).
      split; [constructor; auto|]. split; [cbn; lia|]. auto. }
  destruct T0 as [T0 C0].
  destruct (G es v0 0%nat D0 T0 C0 R) as (F & Cn & To & (_ & _ & _ & I & _ & _ & Rp & Au)).
  auto 10.
Qed.

Lemma mount_fresh : fresh (comp mount).
Proof. constructor. Qed.

Lemma running_ext id k k' :
  map (fun t => (timerId t, live t)) (intervals k')
  = map (fun t => (timerId t, live t)) (intervals k) ->
  running id k' = running id k.
Proof.
  unfold running. generalize (intervals k) (intervals k').
  induction l as [|t l IH]; intros [|t' l'] H; try discriminate; [reflexivity|].
  cbn in H. injection H as H1 H2 H3. cbn. unfold isTimer. rewrite H1, H2.
  f_equal. now apply IH.
Qed.

Lemma running_setAttempts id j n k : running id (setAttempts j n k) = running id k.
Proof.
  apply running_ext. cbn. rewrite map_map. apply map_ext.
  intros t. destruct (isTimer j t); reflexivity.
Qed.

Lemma running_clearInterval id j k :
  id <> j -> running id (clearInterval j k) = running id k.
Proof.
  intros N. unfold running, clearInterval. cbn.
  induction (intervals k) as [|t l IH]; [reflexivity|]. cbn. rewrite IH. f_equal.
  unfold isTimer. destruct (Nat.eqb (timerId t) j) eqn:E; [|reflexivity]. cbn.
  apply Nat.eqb_eq in E. replace (Nat.eqb (timerId t) id) with false; [reflexivity|].
  symmetry. apply Nat.eqb_neq. congruence.
Qed.

Lemma orphan_clearCurrent id k : orphan id k -> orphan id (clearCurrent k).
Proof.
  intros [R N]. unfold orphan, clearCurrent.
  destruct (intervalRef k) as [j|] eqn:E; [|rewrite E; auto].
  cbn. rewrite E. split; [|exact N].
  rewrite <- R. apply running_clearInterval. congruence.
Qed.

Lemma orphan_same id k k' :
  intervals k' = intervals k -> intervalRef k' = intervalRef k ->
  orphan id k -> orphan id k'.
Proof. unfold orphan, running. intros -> ->. auto. Qed.

Lemma fresh_same k k' :
  intervals k' = intervals k -> nextTimer k' = nextTimer k -> fresh k -> fresh k'.
Proof. unfold fresh. intros -> ->. auto. Qed.

Lemma fresh_marked (f : Timer -> Timer) k :
  (forall t, timerId (f t) = timerId t) ->
  fresh k -> fresh (withIntervals (map f (intervals k)) k).
Proof.
  intros Hf H. unfold fresh. cbn. apply Forall_map.
  eapply Forall_impl; [exact H|]. intros t Ht. cbn. now rewrite Hf.
Qed.

Lemma fresh_clearCurrent k : fresh k -> fresh (clearCurrent k).
Proof.
  unfold clearCurrent. destruct (intervalRef k); [|auto].
  apply fresh_marked. intros t. destruct (isTimer n t); reflexivity.
Qed.

Lemma running_below id k : fresh k -> running id k = true -> (id < nextTimer k)%nat.
Proof.
  unfold fresh, running. intros F R. apply existsb_exists in R as (t & Hin & Ht).
  apply andb_prop in Ht as [Ht _]. apply Nat.eqb_eq in Ht. subst id.
  rewrite Forall_forall in F. apply F. now apply list_elem_of_In.
Qed.

(** One event keeps the identifiers fresh and an orphan running. *)
Lemma step_orphan p v e p' v' id :
  fresh (comp v) -> step (p, v) e = Some (p', v') ->
  fresh (comp v') /\ (orphan id (comp v) -> orphan id (comp v')).
Proof.
  intros F S.
  destruct e as [l | granted | | j | i detection | i | | | ];
    cbn [VerificationScreen.step] in S.
  - destruct p; try discriminate. injection S as _ <-.
    destruct (loadModelsAndData_shape l v) as [-> | (d & ->)]; [auto|].
    split; [eapply fresh_same; [| |exact F] | apply orphan_same]; reflexivity.
  - destruct p; try discriminate. injection S as _ <-.
    unfold startCamera. cbn [comp withComp].
    destruct granted; [destruct (videoRef (comp v))|]; auto;
      (split; [eapply fresh_same; [| |exact F] | apply orphan_same]; reflexivity).
  - destruct (verifyEnabled (comp v)); [|discriminate]. injection S as _ <-.
    cbn [comp withComp]. unfold clickVerify, startVerification.
    destruct (storedDescriptor (st (comp v))); [|auto]. split.
    + unfold fresh. cbn. apply Forall_app. split.
      * eapply Forall_impl; [exact F|]. intros t Ht. cbn in *. lia.
      * constructor; [cbn; lia | constructor].
    + intros [R N]. pose proof (running_below _ _ F R) as B.
      unfold orphan, running. cbn. split.
      * rewrite existsb_app. unfold running in R. now rewrite R.
      * intros X. injection X as X. lia.
  - destruct (running j (comp v)); [|discriminate]. injection S as _ <-.
    cbn [comp withComp]. unfold intervalCallback.
    destruct (find _ _) as [t|]; [|auto].
    destruct (negb (videoRef (comp v)) || negb (isActive (closure t))
              || (attempts t >=? maxAttempts)).
    + destruct (attempts t >=? maxAttempts).
      * split; [eapply fresh_same; [| |exact F] | apply orphan_same]; reflexivity.
      * split; [now apply fresh_clearCurrent | apply orphan_clearCurrent].
    + split.
      * apply (fresh_marked _ (comp v)); [|exact F].
        intros t'. destruct (isTimer j t'); reflexivity.
      * intros [R N]. split; [|exact N].
        rewrite <- R. apply (running_setAttempts id j _ (comp v)).
  - destruct (pending (comp v) !! i) as [[j | row | row]|]; try discriminate.
    injection S as _ <-. cbn [comp withComp].
    assert (F1 : fresh (resume i (comp v))) by exact F.
    unfold afterDetection. change (intervals (resume i (comp v))) with (intervals (comp v)).
    destruct (find _ _) as [t|]; [|auto].
    destruct detection as [descriptor|]; [|auto].
    destruct (storedDescriptor (closure t)) as [stored|]; [|auto].
    destruct (euclideanDistance stored descriptor) as [distance|]; [|auto].
    destruct (JS.lt distance threshold); [|auto].
    cbv zeta. split.
    + apply (fresh_same (clearCurrent (withSt (setIsVerifying false)
               (withSt (setVerificationStatus success) (resume i (comp v))))));
        [reflexivity | reflexivity |].
      now apply fresh_clearCurrent.
    + intros O.
      apply (orphan_same id (clearCurrent (withSt (setIsVerifying false)
               (withSt (setVerificationStatus success) (resume i (comp v))))));
        [reflexivity | reflexivity |].
      now apply orphan_clearCurrent.
  - destruct (pending (comp v) !! i) as [[j | row | row]|]; try discriminate;
      injection S as _ <-; cbn [comp withComp].
    + split.
      * apply (fresh_clearCurrent (insertAudit row (resume i (comp v)))). exact F.
      * intros O. apply (orphan_clearCurrent id (insertAudit row (resume i (comp v)))).
        exact O.
    + split; [exact F | auto].
  - destruct (_ <? _)%nat; [|discriminate]. injection S as _ <-.
    cbn [comp withComp]. unfold completionCallback, stopCamera.
    set (k1 := withSt (setIsActive false)
                 (if videoRef (comp v) && srcObject (comp v)
                  then mkComp (st (comp v)) (videoRef (comp v)) false (intervalRef (comp v))
                         (intervals (comp v)) (nextTimer (comp v)) (pending (comp v))
                         (audit_logs (comp v)) (toasts (comp v)) (completions (comp v))
                         (reported (comp v))
                  else comp v)).
    assert (E1 : intervals k1 = intervals (comp v) /\ intervalRef k1 = intervalRef (comp v)
                 /\ nextTimer k1 = nextTimer (comp v)).
    { subst k1. destruct (_ && _); cbn; auto. }
    destruct E1 as (E1 & E2 & E3). split.
    + apply (fresh_same (clearCurrent k1)); [reflexivity | reflexivity |].
      apply fresh_clearCurrent. eapply fresh_same; eauto.
    + intros O. apply (orphan_same id (clearCurrent k1)); [reflexivity | reflexivity |].
      apply orphan_clearCurrent. eapply orphan_same; eauto.
  - destruct (tryAgainShown (comp v)); [|discriminate]. injection S as _ <-.
    split; [exact F | auto].
  - destruct (cancelShown (comp v)); [|discriminate]. injection S as _ <-.
    split; [exact F | auto].
Qed.

Lemma run_orphan es : forall p v p' v' id,
  fresh (comp v) -> run (p, v) es = Some (p', v') ->
  fresh (comp v') /\ (orphan id (comp v) -> orphan id (comp v')).
Proof.
  induction es as [|e es IH]; intros p v p' v' id F R; cbn [VerificationScreen.run] in R.
  - injection R as _ <-. auto.
  - destruct (step (p, v) e) as [[p1 v1]|] eqn:E; [|discriminate].
    destruct (step_orphan _ _ _ _ _ id F E) as [F1 O1].
    destruct (IH _ _ _ _ id F1 R) as [F2 O2]. auto.
Qed.

(** An interval that is running while [intervalRef] names another one is
    never cleared: every [clearInterval] of the component goes through
    [intervalRef].  It is still running after whatever happens next, and
    after the component is unmounted. *)
Theorem orphaned_interval_is_never_cleared es p v id more p' v' :
  run (Loading, mount) es = Some (p, v) ->
  orphan id (comp v) ->
  run (p, v) more = Some (p', v') ->
  orphan id (comp v') /\
  forall cleanupFirst, running id (unmount cleanupFirst (comp v')) = true.
Proof.
  intros R O Rm.
  destruct (run_orphan es _ _ _ _ id mount_fresh R) as [F _].
  destruct (run_orphan more _ _ _ _ id F Rm) as [_ O'].
  specialize (O' O). split; [exact O'|].
  intros cleanupFirst. unfold unmount. destruct cleanupFirst.
  - assert (O2 : orphan id (stopCamera (comp v'))).
    { unfold stopCamera. apply orphan_clearCurrent.
      destruct (videoRef (comp v') && srcObject (comp v'));
        (eapply orphan_same; [| |exact O']; reflexivity). }
    apply orphan_clearCurrent in O2. exact (proj1 O2).
  - assert (O1 : orphan id (detach (comp v')))
      by (apply (orphan_same id (comp v')); auto).
    assert (O2 : orphan id (stopCamera (detach (comp v')))).
    { unfold stopCamera. cbn [videoRef detach andb]. apply orphan_clearCurrent.
      eapply orphan_same; [| |exact O1]; reflexivity. }
    apply orphan_clearCurrent in O2. exact (proj1 O2).
Qed.
End Matcher.

Lemma orphaned_interval_is_never_cleared_witness :
  match VerificationScreen.run "u1" FaceApi.euclideanDistance (Loading, mount)
          retryBeforeAnswer with
  | Some (p, v) =>
    orphan 0 (comp v) /\
    verificationStatus (st (comp v)) = verifying /\
    running 1 (comp v) = false /\
    forall p' v',
      VerificationScreen.run "u1" FaceApi.euclideanDistance (p, v)
        [IntervalFires 0; IntervalFires 0; InsertSettles 0] = Some (p', v') ->
      running 0 (unmount false (comp v')) = true
  | None => False
  end.
Proof.
  destruct (VerificationScreen.run "u1" FaceApi.euclideanDistance (Loading, mount)
              retryBeforeAnswer) as [[p v]|] eqn:R; [|vm_compute in R; discriminate].
  assert (O : orphan 0 (comp v)).
  { vm_compute in R. injection R as <- <-. split; [reflexivity | discriminate]. }
  split; [exact O|].
  split; [vm_compute in R; injection R as <- <-; reflexivity|].
  split; [vm_compute in R; injection R as <- <-; reflexivity|].
  intros p' v' Rm.
  exact (proj2 (orphaned_interval_is_never_cleared "u1" FaceApi.euclideanDistance
                  retryBeforeAnswer p v 0%nat _ p' v' R O Rm) false).
Defined.

Lemma verification_reports_only_success_witness :
  exists p v,
    VerificationScreen.run "u1" FaceApi.euclideanDistance (Loading, mount) matching
      = Some (p, v) /\
    reported (comp v) = [true] /\
    completions (comp v) = length (successRows (comp v)).
Proof.
  destruct (VerificationScreen.run "u1" FaceApi.euclideanDistance (Loading, mount) matching)
    as [[p v]|] eqn:R; [|vm_compute in R; discriminate].
  exists p, v. split; [reflexivity|].
  destruct (verification_reports_only_success _ _ _ _ _ R) as (_ & _ & H & _).
  split; [|exact H].
  vm_compute in R. injection R as <- <-. reflexivity.
Defined.

Lemma stuck_without_face_data_witness :
  exists p v,
    VerificationScreen.run "u1" FaceApi.euclideanDistance (Loading, mount)
      [DataSettles unenrolledReply] = Some (p, v) /\
    cancels v = 1%nat /\ isLoading (st (comp v)) = true.
Proof.
  destruct (VerificationScreen.run "u1" FaceApi.euclideanDistance (Loading, mount)
              [DataSettles unenrolledReply])
    as [[p v]|] eqn:R; [|vm_compute in R; discriminate].
  exists p, v. split; [reflexivity|].
  destruct (stuck_without_face_data _ _ unenrolledReply [] p v eq_refl R)
    as (_ & L & _ & _ & C & _).
  destruct (C eq_refl) as [C1 _]. auto.
Defined.

Lemma refused_camera_only_cancels_witness :
  exists p v,
    VerificationScreen.run "u1" FaceApi.euclideanDistance (Loading, mount) refused
      = Some (p, v) /\
    cancels v = 1%nat /\ audit_logs (comp v) = [] /\ reported (comp v) = [].
Proof.
  destruct (VerificationScreen.run "u1" FaceApi.euclideanDistance (Loading, mount) refused)
    as [[p v]|] eqn:R; [|vm_compute in R; discriminate].
  exists p, v. split; [reflexivity|].
  destruct (refused_camera_only_cancels _ _ enrolledReply [ClickCancel] p v eq_refl R)
    as (_ & C & _ & _ & A & Rp).
  auto.
Defined.

End VerificationScreenFacts.

(** ** Profile loads of the page *)
Module ProfileLoadFacts.
Import Store Index ProfileLoads.

(** [loadUserProfile] never changes or removes a profile row, a vote or an
    audit row: the only write it makes is the row with the default columns
    for a user who has none, and in that case it routes to registration. *)
Theorem loadUserProfile_only_creates userId f a :
  let a' := loadUserProfile userId f a in
  votes (db a') = votes (db a) /\
  audit_logs (db a') = audit_logs (db a) /\
  (forall u p, profiles (db a) !! u = Some p -> profiles (db a') !! u = Some p) /\
  (forall u p, profiles (db a') !! u = Some p ->
     profiles (db a) !! u = Some p \/
     (u = userId /\ profiles (db a) !! userId = None /\ p = defaultRow userId f /\
      appState (st a') = face_registration)).
Proof.
  intros a'. subst a'. unfold loadUserProfile.
  destruct (match selectError f with
            | Some code => negb (String.eqb code "PGRST116")
            | None => false
            end); [cbn; auto|].
  destruct (match selectError f with
            | Some _ => None
            | None => profiles (db a) !! userId
            end) as [profile|] eqn:P.
  - destruct (_ || _); cbn; auto.
  - unfold insert_profile. destruct (insertFault f); [cbn; auto|].
    destruct (profiles (db a) !! userId) eqn:L; [cbn; auto|].
    cbn. split; [reflexivity|]. split; [reflexivity|]. split.
    + intros u p Hu. rewrite lookup_insert_ne; [exact Hu|]. congruence.
    + intros u p Hu. destruct (decide (u = userId)) as [->|N].
      * rewrite lookup_insert_eq in Hu. injection Hu as <-. right. auto.
      * rewrite lookup_insert_ne in Hu by congruence. now left.
Qed.

(** The first load for a user without a row creates the row and routes to
    registration; the next load reads that very row back, keeps it as the
    profile of the page and routes to registration again, the row holding no
    descriptor. *)
Theorem first_login_round_trip userId f1 f2 a :
  profiles (db a) !! userId = None ->
  answered f1 -> selectError f2 = None ->
  let a1 := loadUserProfile userId f1 a in
  let a2 := loadUserProfile userId f2 a1 in
  appState (st a1) = face_registration /\
  userProfile (st a1) = userProfile (st a) /\
  profiles (db a1) !! userId = Some (defaultRow userId f1) /\
  userProfile (st a2) = Some (defaultRow userId f1) /\
  appState (st a2) = face_registration /\
  db a2 = db a1 /\ toasts a2 = toasts a.
Proof.
  intros L [S1 I1] S2 a1 a2.
  assert (E1 : a1 = mkApp (mkState (user (st a)) face_registration (userProfile (st a)) false)
                      (mkDB (<[userId := defaultRow userId f1]> (profiles (db a)))
                            (votes (db a)) (audit_logs (db a)))
                      (toasts a)).
  { subst a1. unfold loadUserProfile, insert_profile. rewrite S1, I1, L. reflexivity. }
  assert (L1 : profiles (db a1) !! userId = Some (defaultRow userId f1)).
  { rewrite E1. cbn. apply lookup_insert_eq. }
  assert (E2 : a2 = mkApp (mkState (user (st a)) face_registration
                             (Some (defaultRow userId f1)) false)
                      (db a1) (toasts a)).
  { subst a2. unfold loadUserProfile. rewrite S2, L1. rewrite E1. reflexivity. }
  rewrite E2. rewrite E1 at 1 2. cbn. auto 10.
Qed.

Lemma first_login_round_trip_witness :
  let f := mkFetch None (Some "voter@example.org") (Some "") false in
  let a2 := loadUserProfile "u1" f (loadUserProfile "u1" f (initial Store.empty)) in
  userProfile (st a2)
    = Some (Profile.mk "u1" "voter@example.org" (Some "User") None None false) /\
  appState (st a2) = face_registration.
Proof.
  intros f a2.
  destruct (first_login_round_trip "u1" f f (initial Store.empty)
              eq_refl (conj eq_refl eq_refl) eq_refl)
    as (_ & _ & _ & H1 & H2 & _).
  split; [exact H1 | exact H2].
Defined.

(** A profile load that settles while no user is signed in (the user signed
    out while it was in flight) and that the store answers leaves the page
    with [appState] at registration or verification and no user: neither the
    sign-in form nor any step is rendered, the header shows no "Sign Out",
    and no button can be clicked. *)
Theorem late_profile_load_blanks_page userId f a e :
  user (st a) = None -> answered f -> isClick e = true ->
  let a' := loadUserProfile userId f a in
  user (st a') = None /\
  (appState (st a') = face_registration \/ appState (st a') = face_verification) /\
  shown auth a' = false /\
  shownWithUser (appState (st a')) a' = false /\
  step a' e = None.
Proof.
  intros U [S1 I1] Ie a'.
  assert (K : user (st a') = None /\
              (appState (st a') = face_registration \/
               appState (st a') = face_verification)).
  { subst a'. unfold loadUserProfile, insert_profile. rewrite S1, I1.
    destruct (profiles (db a) !! userId) as [profile|] eqn:L.
    - destruct (_ || _); cbn; auto.
    - cbn. auto. }
  destruct K as [K1 K2]. split; [exact K1|]. split; [exact K2|].
  assert (Ha : shown auth a' = false).
  { unfold shown. destruct K2 as [-> | ->]; cbn; apply andb_false_r. }
  split; [exact Ha|].
  split; [unfold shownWithUser; rewrite K1; cbn; apply andb_false_r|].
  destruct e; try discriminate Ie; cbn [step]; unfold guard, shownWithUser, shown;
    rewrite ?K1; cbn [truthy]; rewrite ?andb_false_r; try reflexivity;
    destruct K2 as [-> | ->]; cbn; rewrite ?andb_false_r; reflexivity.
Qed.

Lemma late_profile_load_blanks_page_witness :
  exists a,
    Index.run (initial Store.empty) signOutDuringLoad = Some a /\
    user (st a) = None /\ appState (st a) = face_registration /\
    step a ClickSignOut = None /\ step a ClickVoteAgain = None.
Proof.
  destruct (Index.run (initial Store.empty)
              [ AuthStateChange (Some "u1");
                LoadUserProfileSettles "u1"
                  (mkFetch None (Some "voter@example.org") None false);
                FaceRegistrationComplete; ClickSignOut ]) as [a0|] eqn:R;
    [|vm_compute in R; discriminate].
  assert (U : user (st a0) = None)
    by (vm_compute in R; injection R as <-; reflexivity).
  pose proof (late_profile_load_blanks_page "u1"
                (mkFetch None (Some "voter@example.org") None false) a0 ClickSignOut
                U (conj eq_refl eq_refl) eq_refl) as (H1 & _ & _ & _ & H4).
  pose proof (late_profile_load_blanks_page "u1"
                (mkFetch None (Some "voter@example.org") None false) a0 ClickVoteAgain
                U (conj eq_refl eq_refl) eq_refl) as (_ & _ & _ & _ & H5).
  exists (loadUserProfile "u1" (mkFetch None (Some "voter@example.org") None false) a0).
  split; [|split; [exact H1|split; [|split; [exact H4 | exact H5]]]].
  - vm_compute in R. injection R as <-. vm_compute. reflexivity.
  - vm_compute in R. injection R as <-. vm_compute. reflexivity.
Defined.

End ProfileLoadFacts.
